(** * AsanaPRBot: the event-to-review pipeline, embedded from the JavaScript sources

    The repository holds several generations of one pipeline.  Three of them
    carry the behaviour studied here:

    - the GitHub-App webhook server (signature hook, [review_requested] route);
    - the Asana webhook server with a tag witness and a dynamically resolved
      bot identity (module [Tagged]);
    - the final Asana webhook server with a Redis set of processed events and
      free-text instructions (module [Final]).

    The module [Raw] has the two Asana handlers on deliveries as they arrive,
    and the module [Cli] the command-line reviewer.

    JavaScript strings are modelled as [string]; a character stands for one
    UTF-16 code unit, and the model covers code units below 256. *)

From Stdlib Require Import String Ascii List Bool Arith NArith Lia DecimalString.
From stdpp Require Import base gmap strings.

Import ListNotations.
Local Open Scope string_scope.
Local Open Scope list_scope.

(** ** JavaScript strings *)

Module Js.

Definition nl : string := String (ascii_of_nat 10) EmptyString.
Definition dq : string := String (ascii_of_nat 34) EmptyString.

(** [!!s] for a string: only the empty string is falsy. *)
Definition truthy (s : string) : bool :=
  match s with EmptyString => false | String _ _ => true end.

(** Truthiness of a value that may be [undefined] or [null]. *)
Definition truthy_opt (o : option string) : bool :=
  match o with Some s => truthy s | None => false end.

(** [a || b] on strings. *)
Definition or_else (a b : string) : string := if truthy a then a else b.

(** [\s] and the set removed by [String.prototype.trim], below U+0100:
    TAB, LF, VT, FF, CR, SPACE, NBSP. *)
Definition is_ws (c : ascii) : bool :=
  let n := nat_of_ascii c in
  Nat.eqb n 9 || Nat.eqb n 10 || Nat.eqb n 11 || Nat.eqb n 12 || Nat.eqb n 13
  || Nat.eqb n 32 || Nat.eqb n 160.

(** Line terminators, which [.] does not match: LF and CR. *)
Definition is_line_terminator (c : ascii) : bool :=
  let n := nat_of_ascii c in Nat.eqb n 10 || Nat.eqb n 13.

(** [\d] *)
Definition is_digit (c : ascii) : bool :=
  let n := nat_of_ascii c in Nat.leb 48 n && Nat.leb n 57.

Definition is_slash (c : ascii) : bool := Nat.eqb (nat_of_ascii c) 47.

Definition non_ws (c : ascii) : bool := negb (is_ws c).
Definition non_slash (c : ascii) : bool := negb (is_slash c).
Definition non_terminator (c : ascii) : bool := negb (is_line_terminator c).

(** Canonicalisation used by the [i] flag, as far as a comparison with an
    ASCII character of a pattern goes: ASCII letters fold to upper case, and
    a character above U+007F never folds to an ASCII one. *)
Definition canonicalize (c : ascii) : ascii :=
  let n := nat_of_ascii c in
  if Nat.leb 97 n && Nat.leb n 122 then ascii_of_nat (n - 32) else c.

Definition all_chars (f : ascii -> bool) (s : string) : bool :=
  forallb f (list_ascii_of_string s).

(** A literal piece of a pattern matched at the head of [s]: the remainder
    of [s] after the literal, or [None]. *)
Fixpoint strip_prefix (p s : string) : option string :=
  match p with
  | EmptyString => Some s
  | String a p' =>
      match s with
      | EmptyString => None
      | String b s' => if Ascii.eqb a b then strip_prefix p' s' else None
      end
  end.

(** The same under the [i] flag. *)
Fixpoint strip_prefix_ci (p s : string) : option string :=
  match p with
  | EmptyString => Some s
  | String a p' =>
      match s with
      | EmptyString => None
      | String b s' =>
          if Ascii.eqb (canonicalize a) (canonicalize b)
          then strip_prefix_ci p' s' else None
      end
  end.

(** A greedy character class repetition [[c]*] at the head of [s]: the longest
    run of characters in the class, and what follows it. *)
Fixpoint span (f : ascii -> bool) (s : string) : string * string :=
  match s with
  | EmptyString => (EmptyString, EmptyString)
  | String c s' =>
      if f c then let '(run, rest) := span f s' in (String c run, rest)
      else (EmptyString, s)
  end.

(** The search loop of [RegExp.prototype.exec] without the sticky or global
    flag: the pattern is tried at index 0, 1, ... up to the length of the
    string, and the first index where it matches wins. *)
Fixpoint search {A : Type} (try_at : string -> option A) (s : string) : option A :=
  match try_at s with
  | Some r => Some r
  | None =>
      match s with
      | EmptyString => None
      | String _ s' => search try_at s'
      end
  end.

(** [hay.includes(needle)] *)
Definition includes (hay needle : string) : bool :=
  match search (strip_prefix needle) hay with Some _ => true | None => false end.

Definition trim_start (s : string) : string := snd (span is_ws s).

Fixpoint trim_end (s : string) : string :=
  match s with
  | EmptyString => EmptyString
  | String c s' =>
      match trim_end s' with
      | EmptyString => if is_ws c then EmptyString else String c EmptyString
      | t => String c t
      end
  end.

(** [s.trim()] *)
Definition trim (s : string) : string := trim_end (trim_start s).

(** [xs.join(sep)] on an array of strings. *)
Definition join (sep : string) (xs : list string) : string := String.concat sep xs.

(** [`${n}`] for a non-negative integer. *)
Definition of_N (n : N) : string := NilZero.string_of_uint (N.to_uint n).

End Js.

(** ** The world outside the process

    Every [await] on an external service is a call whose answer the program
    does not control.  A call appends itself to the trace of the world and
    receives its answer from a [Services] record; each answer may depend on
    the whole history, so services with state of their own are covered.  The
    Redis set [processedEvents] is shared state of the world itself. *)

Module Platform.

(** Values a promise can reject with, or a statement can throw. *)
Inductive JsError : Type :=
| TypeError (what : string)
| ReferenceError (name : string)
| PlainError (message : string)
| RequestFailed (what : string).

Inductive Outcome (A : Type) : Type :=
| Returned (a : A)
| Threw (e : JsError).
Arguments Returned {A} a.
Arguments Threw {A} e.

(** One record of the [events] array of an Asana webhook delivery. *)
Record AsanaResource : Type := mkResource {
  gid : string;
  resource_type : string;
  resource_subtype : option string }.

Record AsanaEvent : Type := mkEvent {
  action : string;
  resource : AsanaResource }.

(** [data.data] of [GET /stories/{id}]: the fields the program reads. *)
Record Story : Type := mkStory {
  story_type : string;
  story_text : string;
  story_target_gid : string }.

Record Tag : Type := mkTag {
  tag_gid : string;
  tag_name : string }.

(** [data.data] of [GET /tasks/{id}?opt_fields=tags,workspace,notes]. *)
Record Task : Type := mkTask {
  notes : string;
  tags : list Tag;
  workspace_gid : string }.

(** An issue comment: [user.login], [user.type], [body]. *)
Record Comment : Type := mkComment {
  user_login : string;
  user_type : string;
  comment_body : string }.

(** The fields of a pull request the prompt is built from; [body] is [null]
    for a pull request without description. *)
Record PullRequest : Type := mkPull {
  number : N;
  title : string;
  body : option string;
  labels : list string;
  assignees : list string;
  requested_reviewers : list string }.

Inductive Effect : Type :=
| ConsoleLog (msg : string)
| ConsoleLogEvent (msg : string) (e : AsanaEvent)
| ConsoleError (msg : string) (e : JsError)
| AsanaGetStory (storyId : string)
| AsanaGetTask (taskId : string)
| AsanaListTags (workspaceId : string)
| AsanaCreateTag (workspaceId tagName : string)
| AsanaAddTag (taskId tagId : string)
| GithubGetAuthenticated
| GithubGetPull (owner repo prNumber : string)
| GithubListComments (owner repo prNumber : string)
| GithubGetDiff (owner repo prNumber : string)
| OpenAIChat (model prompt : string)
| GithubCreateComment (owner repo prNumber text : string).

Definition History : Type := list Effect.

(** The answers of the external services.  For the two Asana reads whose
    result the program may hold without touching it, [None] is a response
    body without a [data] member. *)
Record Services : Type := mkServices {
  asana_story : History -> string -> Outcome (option Story);
  asana_task : History -> string -> Outcome (option Task);
  asana_tags : History -> string -> Outcome (list Tag);
  asana_create_tag : History -> string -> string -> Outcome (option Tag);
  asana_add_tag : History -> string -> string -> Outcome unit;
  github_authenticated : History -> Outcome string;
  github_pull : History -> string -> string -> string -> Outcome PullRequest;
  github_comments : History -> string -> string -> string -> Outcome (list Comment);
  github_diff : History -> string -> string -> string -> Outcome string;
  openai_chat : History -> string -> string -> Outcome string;
  github_create_comment : History -> string -> string -> string -> string -> Outcome unit }.

Record World : Type := mkWorld {
  trace : History;
  processedEvents : gset string }.

Definition record (e : Effect) (w : World) : World :=
  mkWorld (trace w ++ [e]) (processedEvents w).

(** Computations of an [async] function body: a world transformer that
    returns or throws. *)
Definition M (A : Type) : Type := World -> Outcome A * World.

Definition ret {A : Type} (a : A) : M A := fun w => (Returned a, w).

Definition throw {A : Type} (e : JsError) : M A := fun w => (Threw e, w).

Definition bind {A B : Type} (m : M A) (k : A -> M B) : M B :=
  fun w =>
    match m w with
    | (Returned a, w') => k a w'
    | (Threw e, w') => (Threw e, w')
    end.

(** [try { body } catch (error) { handler }] *)
Definition try_catch {A : Type} (body : M A) (handler : JsError -> M A) : M A :=
  fun w =>
    match body w with
    | (Returned a, w') => (Returned a, w')
    | (Threw e, w') => handler e w'
    end.

Definition emit (e : Effect) : M unit := fun w => (Returned tt, record e w).

(** An awaited request: it enters the trace, then the service answers. *)
Definition call {A : Type} (e : Effect) (answer : History -> Outcome A) : M A :=
  fun w => let w' := record e w in (answer (trace w'), w').

(** Reading a property of a value that may be [undefined]. *)
Definition deref {A : Type} (what : string) (o : option A) : M A :=
  match o with
  | Some a => ret a
  | None => throw (TypeError what)
  end.

Definition console_log (msg : string) : M unit := emit (ConsoleLog msg).
Definition console_error (msg : string) (e : JsError) : M unit := emit (ConsoleError msg e).

(** [redis.sismember('processedEvents', key)] and [redis.sadd(...)], as
    Redis carries them out when it answers.  The same commands over a
    connection that may reject them are in the module [Raw]. *)
Definition sismember (key : string) : M bool :=
  fun w => (Returned (bool_decide (key ∈ processedEvents w)), w).

Definition sadd (key : string) : M unit :=
  fun w => (Returned tt, mkWorld (trace w) ({[ key ]} ∪ processedEvents w)).

(** [for (const x of xs) { body }] *)
Fixpoint for_of {A : Type} (xs : list A) (body : A -> M unit) : M unit :=
  match xs with
  | [] => ret tt
  | x :: rest => bind (body x) (fun _ => for_of rest body)
  end.

(** The HTTP response of a route handler. *)
Record Response : Type := mkResponse {
  status : nat;
  response_headers : list (string * string);
  response_body : option string }.

End Platform.

Declare Scope js_scope.
Delimit Scope js_scope with js.
Notation "'let!' x ':=' m 'in' k" := (Platform.bind m (fun x => k))
  (at level 10, x name, m at level 100, k at level 200, only parsing) : js_scope.
Notation "'do!' m 'in' k" := (Platform.bind m (fun _ => k))
  (at level 10, m at level 100, k at level 200, only parsing) : js_scope.

(** ** Target resolution

    [extractPrUrlFromTask] and [parseGithubUrl] have the same text in both
    Asana servers. *)

Module Resolver.
Import Js Platform.

(** The pattern [/https:\/\/github\.com\/[^\s]+/] tried at the head of [s]:
    the literal, then the longest non-empty run of non-whitespace. *)
Definition github_url_at (s : string) : option string :=
  match strip_prefix "https://github.com/" s with
  | Some rest =>
      let '(run, _) := span non_ws rest in
      if truthy run then Some ("https://github.com/" +:+ run) else None
  | None => None
  end.

(** [description.match(...)]: [prUrlMatch[0]] or [null]. *)
Definition extractPrUrlFromTask (taskDetails : Task) : option string :=
  search github_url_at (notes taskDetails).

(** The pattern [/github\.com\/([^\/]+)\/([^\/]+)\/pull\/(\d+)/] tried at the
    head of [s].  Each [[^\/]+] is followed by a literal slash, so giving back
    characters of a run can never help: the greedy run is the only candidate.
    The result is the three capture groups. *)
Definition pull_at (s : string) : option (string * string * string) :=
  match strip_prefix "github.com/" s with
  | None => None
  | Some s1 =>
      let '(g1, s2) := span non_slash s1 in
      if negb (truthy g1) then None else
      match strip_prefix "/" s2 with
      | None => None
      | Some s3 =>
          let '(g2, s4) := span non_slash s3 in
          if negb (truthy g2) then None else
          match strip_prefix "/pull/" s4 with
          | None => None
          | Some s5 =>
              let '(g3, _) := span is_digit s5 in
              if truthy g3 then Some (g1, g2, g3) else None
          end
      end
  end.

(** The object [parseGithubUrl] returns; a member is [None] when the object
    has no such property. *)
Record ParsedUrl : Type := mkParsed {
  owner : option string;
  repo : option string;
  prNumber : option string }.

Definition parseGithubUrl (url : string) : ParsedUrl :=
  match search pull_at url with
  | Some (g1, g2, g3) => mkParsed (Some g1) (Some g2) (Some g3)
  | None => mkParsed None None None
  end.

(** [!owner || !repo || !prNumber] *)
Definition invalid (p : ParsedUrl) : bool :=
  negb (truthy_opt (owner p)) || negb (truthy_opt (repo p)) || negb (truthy_opt (prNumber p)).

(** The decision taken by [processAsanaTask] between fetching the task and
    calling [processPullRequest], as a value. *)
Inductive Resolution : Type :=
| Resolved (owner repo prNumber : string)
| NoTargetFound
| MalformedTarget.

Definition resolve (taskDetails : Task) : Resolution :=
  match extractPrUrlFromTask taskDetails with
  | None => NoTargetFound
  | Some prUrl =>
      if negb (truthy prUrl) then NoTargetFound else
      let p := parseGithubUrl prUrl in
      if invalid p then MalformedTarget else
      match owner p, repo p, prNumber p with
      | Some o, Some r, Some n => Resolved o r n
      | _, _, _ => MalformedTarget
      end
  end.

(** *** The resolver as the specification words it

    "first substring matching a code-host pull-request URL shape", decomposed
    into owner, repository and number; [NoTargetFound] when no substring has
    that shape. *)
Definition spec_pull_url_at (s : string) : option (string * string * string) :=
  match strip_prefix "https://" s with
  | Some s1 => pull_at s1
  | None => None
  end.

Definition spec_resolve (description : string) : Resolution :=
  match search spec_pull_url_at description with
  | Some (o, r, n) => Resolved o r n
  | None => NoTargetFound
  end.

End Resolver.

(** ** The pieces of the prompt

    The template literals that both Asana servers assemble inside
    [processPullRequest], named after the constants they are bound to. *)

Module Prompt.
Import Js Platform.

(** [pr.body || "No description provided."] *)
Definition body_or_default (pr : PullRequest) : string :=
  match body pr with
  | Some b => or_else b "No description provided."
  | None => "No description provided."
  end.

Definition summary (pr : PullRequest) : string :=
  "### Pull Request #" +:+ of_N (number pr) +:+ ": " +:+ title pr +:+ nl +:+ nl
  +:+ "**Description:**" +:+ nl +:+ body_or_default pr +:+ nl +:+ nl.

Definition diffContent (diff : string) : string :=
  "**Diff:**" +:+ nl +:+ "```diff" +:+ nl +:+ diff +:+ nl +:+ "```" +:+ nl +:+ nl.

Definition contextSection (pr : PullRequest) : string :=
  "**Labels:** " +:+ or_else (join ", " (labels pr)) "None" +:+ nl
  +:+ "**Assignees:** " +:+ or_else (join ", " (assignees pr)) "None" +:+ nl
  +:+ "**Reviewers:** " +:+ or_else (join ", " (requested_reviewers pr)) "None" +:+ nl +:+ nl.

(** [(comment) => `- **${comment.user.login}:** ${comment.body}`] *)
Definition comment_line (c : Comment) : string :=
  "- **" +:+ user_login c +:+ ":** " +:+ comment_body c.

Definition commentsList (shown : list Comment) : string :=
  join nl (map comment_line shown).

Definition commentsSection (shown : list Comment) : string :=
  if truthy (commentsList shown)
  then "**Comments:**" +:+ nl +:+ commentsList shown +:+ nl +:+ nl
  else "".

(** [context ? `...` : ""], where [None] is [null]. *)
Definition asanaContext (context : option string) : string :=
  match context with
  | Some c =>
      if truthy c
      then "**Additional Context from Asana:**" +:+ nl +:+ c +:+ nl +:+ nl
      else ""
  | None => ""
  end.

Definition prompt (pr : PullRequest) (diff : string) (shown : list Comment)
    (context : option string) : string :=
  summary pr +:+ diffContent diff +:+ contextSection pr +:+ commentsSection shown
  +:+ asanaContext context +:+ nl +:+ "---" +:+ nl +:+ nl.

End Prompt.

(** ** The Asana server with the tag witness *)

Module Tagged.
Import Js Platform Resolver Prompt.
Local Open Scope js_scope.

Record Request : Type := mkRequest {
  x_hook_secret : option string;
  events : option (list AsanaEvent) }.

Definition processedTag : string := "AsanaAI Processed".

Definition getGitHubBotUsername (sv : Services) : M string :=
  call GithubGetAuthenticated (github_authenticated sv).

Definition getAsanaStoryDetails (sv : Services) (storyId : string) : M (option Story) :=
  call (AsanaGetStory storyId) (fun h => asana_story sv h storyId).

Definition getAsanaTaskDetails (sv : Services) (taskId : string) : M (option Task) :=
  call (AsanaGetTask taskId) (fun h => asana_task sv h taskId).

(** [data.data.find(t => t.name === tagName)] *)
Definition findTagInWorkspace (sv : Services) (workspaceId tagName : string)
    : M (option Tag) :=
  let! all := call (AsanaListTags workspaceId) (fun h => asana_tags sv h workspaceId) in
  ret (List.find (fun t => String.eqb (tag_name t) tagName) all).

Definition createTagInWorkspace (sv : Services) (workspaceId tagName : string)
    : M (option Tag) :=
  call (AsanaCreateTag workspaceId tagName)
       (fun h => asana_create_tag sv h workspaceId tagName).

Definition attachTagToTask (sv : Services) (taskId tagId : string) : M unit :=
  call (AsanaAddTag taskId tagId) (fun h => asana_add_tag sv h taskId tagId).

Definition addTagToTask (sv : Services) (taskId tagName : string) : M unit :=
  let! taskDetails := getAsanaTaskDetails sv taskId in
  let! t := deref "taskDetails.workspace" taskDetails in
  let workspaceId := workspace_gid t in
  let! found := findTagInWorkspace sv workspaceId tagName in
  let! tag := match found with
         | Some _ => ret found
         | None => createTagInWorkspace sv workspaceId tagName
         end in
  let! tg := deref "tag.gid" tag in
  attachTagToTask sv taskId (tag_gid tg).

(** [comments.some((comment) => comment.user.login === botUsername)] *)
Definition botCommentExists (botUsername : string) (comments : list Comment) : bool :=
  existsb (fun c => String.eqb (user_login c) botUsername) comments.

(** [comments.filter((comment) => comment.user.type !== "Bot" &&
    comment.user.login !== botUsername)] *)
Definition humanComments (botUsername : string) (comments : list Comment) : list Comment :=
  List.filter (fun c => negb (String.eqb (user_type c) "Bot")
                        && negb (String.eqb (user_login c) botUsername)) comments.

Definition finalPrompt (prompt : string) : string :=
  "I have the following pull request that I'd like feedback on. Please review the information and provide your insights."
  +:+ nl +:+ nl +:+ prompt +:+ nl
  +:+ "Please focus on any potential issues, improvements, or suggestions you might have. Be succinct and clear in your feedback."
  +:+ nl
  +:+ "If you have any questions or need more information, feel free to ask. If the PR is ready to merge, please indicate that as well."
  +:+ nl
  +:+ "If you see that the PR addresses disparate issues that are best addressed in separate, nudge the author to split the PR into smaller, more focused PRs, using Graphite."
  +:+ nl.

Definition processPullRequest (sv : Services) (prNumber owner repo : string)
    (context : option string) : M unit :=
  do! console_log ("Processing PR #" +:+ prNumber +:+ " in " +:+ owner +:+ "/" +:+ repo
                   +:+ "..." +:+ nl) in
  try_catch
    (let! botUsername := getGitHubBotUsername sv in
     let! pr := call (GithubGetPull owner repo prNumber)
                (fun h => github_pull sv h owner repo prNumber) in
     let! comments := call (GithubListComments owner repo prNumber)
                      (fun h => github_comments sv h owner repo prNumber) in
     if botCommentExists botUsername comments then
       console_log ("Bot has already commented on PR #" +:+ prNumber +:+ ". Skipping.")
     else
       let! diff := call (GithubGetDiff owner repo prNumber)
                    (fun h => github_diff sv h owner repo prNumber) in
       let text := prompt pr diff (humanComments botUsername comments) context in
       let! aiResponse := call (OpenAIChat "o1-preview" (finalPrompt text))
                          (fun h => openai_chat sv h "o1-preview" (finalPrompt text)) in
       do! call (GithubCreateComment owner repo prNumber aiResponse)
                (fun h => github_create_comment sv h owner repo prNumber aiResponse) in
       console_log ("Comment posted to PR #" +:+ prNumber))
    (fun error => console_error ("Error processing PR #" +:+ prNumber +:+ ":") error).

(** Past the two checks [prUrl] and the three members of the parsed URL are
    strings; [default] only unwraps them. *)
Definition processAsanaTask (sv : Services) (taskId : string) (context : option string)
    : M unit :=
  do! console_log ("Processing Asana Task #" +:+ taskId +:+ "..." +:+ nl) in
  try_catch
    (let! taskDetails := getAsanaTaskDetails sv taskId in
     let! t := deref "taskDetails.tags" taskDetails in
     let taskTags := map tag_name (tags t) in
     if existsb (String.eqb processedTag) taskTags then
       console_log ("Task #" +:+ taskId +:+ " has already been processed. Skipping.")
     else
       let prUrl := extractPrUrlFromTask t in
       if negb (truthy_opt prUrl) then console_log "No PR URL found in the task."
       else
         let p := parseGithubUrl (default "" prUrl) in
         if invalid p then console_log "Invalid PR URL."
         else
           do! processPullRequest sv (default "" (prNumber p)) (default "" (owner p))
                                  (default "" (repo p)) context in
           addTagToTask sv taskId processedTag)
    (fun error => console_error ("Error processing Asana Task #" +:+ taskId +:+ ":") error).

Definition processAsanaStory (sv : Services) (storyId : string) : M unit :=
  do! console_log ("Processing Asana Story #" +:+ storyId +:+ "..." +:+ nl) in
  try_catch
    (let! storyDetails := getAsanaStoryDetails sv storyId in
     let! s := deref "storyDetails.type" storyDetails in
     if negb (String.eqb (story_type s) "comment") then
       console_log "Story is not a comment. Skipping."
     else
       let commentText := story_text s in
       if negb (includes commentText "@AsanaAI") then
         console_log "Comment does not contain @AsanaAI. Skipping."
       else
         let taskId := story_target_gid s in
         let! _ := getAsanaTaskDetails sv taskId in
         processAsanaTask sv taskId (Some commentText))
    (fun error => console_error ("Error processing Asana Story #" +:+ storyId +:+ ":") error).

(** The body of [for (const event of events)]. *)
Definition handle_event (sv : Services) (event : AsanaEvent) : M unit :=
  do! emit (ConsoleLogEvent "Processing event:" event) in
  let resource := resource event in
  if String.eqb (resource_type resource) "task" && String.eqb (action event) "added" then
    processAsanaTask sv (gid resource) None
  else if String.eqb (resource_type resource) "story" && String.eqb (action event) "added"
          && bool_decide (resource_subtype resource = Some "comment_added") then
    processAsanaStory sv (gid resource)
  else
    emit (ConsoleLogEvent "Ignoring event:" event).

(** [app.post('/webhook', ...)] *)
Definition webhook (sv : Services) (req : Request) : M Response :=
  do! console_log "Received Asana webhook event." in
  if truthy_opt (x_hook_secret req) then
    do! console_log "Verifying Asana webhook..." in
    ret (mkResponse 200 [("X-Hook-Secret", default "" (x_hook_secret req))] None)
  else
    match events req with
    | None | Some [] =>
        do! console_log "No events to process." in
        ret (mkResponse 200 [] (Some "No events to process."))
    | Some evs =>
        do! for_of evs (handle_event sv) in
        ret (mkResponse 200 [] (Some "Events processed."))
    end.

End Tagged.

(** ** The final Asana server: Redis ledger and free-text instructions *)

Module Final.
Import Js Platform Resolver Prompt.
Local Open Scope js_scope.

Record Request : Type := mkRequest {
  x_hook_secret : option string;
  events : option (list AsanaEvent) }.

Definition getAsanaStoryDetails (sv : Services) (storyId : string) : M (option Story) :=
  call (AsanaGetStory storyId) (fun h => asana_story sv h storyId).

Definition getAsanaTaskDetails (sv : Services) (taskId : string) : M (option Task) :=
  call (AsanaGetTask taskId) (fun h => asana_task sv h taskId).

(** The first four characters of the introduction literal, as the bytes the
    source file stores for them; they lie outside the modelled alphabet and
    are carried along unchanged. *)
Definition greeting_glyph : string :=
  string_of_list_ascii
    (map ascii_of_nat [195; 176; 197; 184; 226; 128; 152; 226; 128; 185]).

Definition botIntroduction : string :=
  greeting_glyph +:+ " Hi, I'm **AsanaPRBot**, your assistant for concise PR reviews.".

(** The two branches of [if (context) { ... } else { ... }]. *)
Definition instructedPrompt (context prompt : string) : string :=
  "As an expert code reviewer, please focus on the following instruction while reviewing the pull request:"
  +:+ nl +:+ nl +:+ dq +:+ context +:+ dq +:+ nl +:+ nl
  +:+ "Here is the PR information:" +:+ nl +:+ nl +:+ prompt +:+ nl +:+ nl
  +:+ "Provide a concise and specific response addressing the instruction above. Avoid unnecessary information or general feedback. Ensure accuracy and refrain from including any information not present in the PR data."
  +:+ nl +:+ nl.

Definition reviewPrompt (prompt : string) : string :=
  "As an expert code reviewer, please review the following pull request:"
  +:+ nl +:+ nl +:+ prompt +:+ nl +:+ nl
  +:+ "Please focus on potential issues, improvements, or suggestions. Be succinct and clear in your feedback. If the PR is ready to merge, please indicate that as well. If you notice the PR addresses disparate issues better handled separately, suggest splitting it into smaller, focused PRs."
  +:+ nl +:+ nl
  +:+ "Provide a concise response without unnecessary elaboration or hallucinations."
  +:+ nl +:+ nl.

Definition finalPrompt (context : option string) (prompt : string) : string :=
  match context with
  | Some c => if truthy c then instructedPrompt c prompt else reviewPrompt prompt
  | None => reviewPrompt prompt
  end.

Definition processPullRequest (sv : Services) (prNumber owner repo : string)
    (context : option string) : M unit :=
  do! console_log ("Processing PR #" +:+ prNumber +:+ " in " +:+ owner +:+ "/" +:+ repo
                   +:+ "..." +:+ nl) in
  try_catch
    (let! pr := call (GithubGetPull owner repo prNumber)
                     (fun h => github_pull sv h owner repo prNumber) in
     let! comments := call (GithubListComments owner repo prNumber)
                           (fun h => github_comments sv h owner repo prNumber) in
     let! diff := call (GithubGetDiff owner repo prNumber)
                       (fun h => github_diff sv h owner repo prNumber) in
     let text := prompt pr diff comments context in
     let! aiResponse := call (OpenAIChat "o1-preview" (finalPrompt context text))
                             (fun h => openai_chat sv h "o1-preview" (finalPrompt context text)) in
     let reply := botIntroduction +:+ nl +:+ nl +:+ aiResponse in
     do! call (GithubCreateComment owner repo prNumber reply)
              (fun h => github_create_comment sv h owner repo prNumber reply) in
     console_log ("Comment posted to PR #" +:+ prNumber))
    (fun error => console_error ("Error processing PR #" +:+ prNumber +:+ ":") error).

(** Past the two checks [prUrl] and the three members of the parsed URL are
    strings; [default] only unwraps them. *)
Definition processAsanaTask (sv : Services) (taskId : string) (context : option string)
    : M unit :=
  do! console_log ("Processing Asana Task #" +:+ taskId +:+ "..." +:+ nl) in
  try_catch
    (let! taskDetails := getAsanaTaskDetails sv taskId in
     let! t := deref "taskDetails.notes" taskDetails in
     let prUrl := extractPrUrlFromTask t in
     if negb (truthy_opt prUrl) then console_log "No PR URL found in the task."
     else
       let p := parseGithubUrl (default "" prUrl) in
       if invalid p then console_log "Invalid PR URL."
       else
         processPullRequest sv (default "" (prNumber p)) (default "" (owner p))
                            (default "" (repo p)) context)
    (fun error => console_error ("Error processing Asana Task #" +:+ taskId +:+ ":") error).

(** The pattern of [commentText.match] tried at the head of [s].  It has the
    [i] flag and reads: the marker [@AsanaPRBot], then [\s] starred, then a
    capture group holding a starred dot.  So: the marker in any letter case,
    the longest run of whitespace, then capture group 1, the longest run of
    characters that are not line terminators. *)
Definition mention_at (s : string) : option string :=
  match strip_prefix_ci "@AsanaPRBot" s with
  | Some rest =>
      let '(_, after_ws) := span is_ws rest in
      let '(g1, _) := span non_terminator after_ws in
      Some g1
  | None => None
  end.

(** [instructionMatch ? instructionMatch[1].trim() : null] *)
Definition instruction_of (commentText : string) : option string :=
  match search mention_at commentText with
  | Some g1 => Some (trim g1)
  | None => None
  end.

Definition processAsanaStory (sv : Services) (storyId : string) : M unit :=
  do! console_log ("Processing Asana Story #" +:+ storyId +:+ "..." +:+ nl) in
  try_catch
    (let! storyDetails := getAsanaStoryDetails sv storyId in
     let! s := deref "storyDetails.type" storyDetails in
     if negb (String.eqb (story_type s) "comment") then
       console_log "Story is not a comment. Skipping."
     else
       let commentText := story_text s in
       if negb (includes commentText "@AsanaPRBot") then
         console_log "Comment does not contain @AsanaPRBot. Skipping."
       else
         let instruction := instruction_of commentText in
         let taskId := story_target_gid s in
         let! _ := getAsanaTaskDetails sv taskId in
         processAsanaTask sv taskId instruction)
    (fun error => console_error ("Error processing Asana Story #" +:+ storyId +:+ ":") error).

Definition is_task_added (event : AsanaEvent) : bool :=
  String.eqb (resource_type (resource event)) "task" && String.eqb (action event) "added".

Definition is_comment_added (event : AsanaEvent) : bool :=
  String.eqb (resource_type (resource event)) "story" && String.eqb (action event) "added"
  && bool_decide (resource_subtype (resource event) = Some "comment_added").

(** The body of [for (const event of events)]. *)
Definition handle_event (sv : Services) (event : AsanaEvent) : M unit :=
  let eventKey := gid (resource event) in
  let! isProcessed := sismember eventKey in
  if isProcessed then
    console_log ("Event " +:+ eventKey +:+ " has already been processed. Skipping.")
  else
    do! emit (ConsoleLogEvent "Processing event:" event) in
    let resource := resource event in
    if is_task_added event then
      do! processAsanaTask sv (gid resource) None in
      sadd eventKey
    else if is_comment_added event then
      do! processAsanaStory sv (gid resource) in
      sadd eventKey
    else
      emit (ConsoleLogEvent "Ignoring event:" event).

(** [app.post('/webhook', ...)] *)
Definition webhook (sv : Services) (req : Request) : M Response :=
  do! console_log "Received Asana webhook event." in
  if truthy_opt (x_hook_secret req) then
    do! console_log "Verifying Asana webhook..." in
    ret (mkResponse 200 [("X-Hook-Secret", default "" (x_hook_secret req))] None)
  else
    match events req with
    | None | Some [] =>
        do! console_log "No events to process." in
        ret (mkResponse 200 [] (Some "No events to process."))
    | Some evs =>
        do! for_of evs (handle_event sv) in
        ret (mkResponse 200 [] (Some "Events processed."))
    end.

End Final.

(** ** Deliveries as they arrive

    [Tagged.webhook] and [Final.webhook] are the handlers on a delivery whose
    events are records with a [resource], with a Redis that carries out every
    command.  Neither is checked by the handlers: the body is whatever JSON
    document the sender chose, and an awaited Redis command can be rejected.
    This module has the two handlers without these assumptions.  A handler
    that throws has not sent its response, since no statement after the one
    that threw is run: the delivery is not acknowledged with status 200. *)

Module Raw.
Import Js Platform.
Local Open Scope js_scope.

(** An element of the array [events]: an object with a [resource] object, or
    anything else ([null], or an object whose [resource] is missing or
    [null]); [json] is what [JSON.stringify] gives for such an element. *)
Inductive Element : Type :=
| WithResource (event : AsanaEvent)
| WithoutResource (json : string).

(** [req.body.events]: missing or falsy, an array, or a truthy value that
    has no iterator and no [length] of 0, such as an object or a number. *)
Inductive Events : Type :=
| Missing
| Array (elements : list Element)
| NotIterable.

Record Request : Type := mkRequest {
  x_hook_secret : option string;
  events : Events }.

Inductive Command : Type :=
| SISMEMBER (key : string)
| SADD (key : string).

(** The connection to Redis: the error a command is rejected with, if it is,
    given the trace so far and the set; [None] when it is carried out. *)
Record Redis : Type := mkRedis {
  rejects : History -> gset string -> Command -> option JsError }.

(** [await redis.sismember('processedEvents', key)] *)
Definition sismember (rd : Redis) (key : string) : M bool :=
  fun w =>
    match rejects rd (trace w) (processedEvents w) (SISMEMBER key) with
    | Some e => (Threw e, w)
    | None => Platform.sismember key w
    end.

(** [await redis.sadd('processedEvents', key)] *)
Definition sadd (rd : Redis) (key : string) : M unit :=
  fun w =>
    match rejects rd (trace w) (processedEvents w) (SADD key) with
    | Some e => (Threw e, w)
    | None => Platform.sadd key w
    end.











End Raw.

(** ** Concurrent deliveries to the final server

    Node runs one handler until its next [await]; two deliveries interleave
    only there.  A delivery is therefore a sequence of turns, each ending at
    an awaited reply: the reply of [sismember], the end of the awaited
    processing, the reply of [sadd]. *)

Module Interleaving.
Import Js Platform Final.

Inductive Stage : Type :=
| AwaitSismember
| AwaitProcessing
| AwaitSadd.

(** A delivery in flight: the events not yet finished (the head is the one in
    hand), where the handler is suspended, and what [sismember] has answered
    so far, as pairs of [eventKey] and [isProcessed]. *)
Record Delivery : Type := mkDelivery {
  remaining : list AsanaEvent;
  stage : Stage;
  replies : list (string * bool) }.

Definition start (evs : list AsanaEvent) : Delivery := mkDelivery evs AwaitSismember [].

Definition finished (d : Delivery) : bool :=
  match remaining d with [] => true | _ :: _ => false end.

Definition processing (sv : Services) (event : AsanaEvent) : M unit :=
  if is_task_added event then processAsanaTask sv (gid (resource event)) None
  else processAsanaStory sv (gid (resource event)).

(** One turn of a delivery. *)
Definition advance (sv : Services) (d : Delivery) (w : World) : Delivery * World :=
  match remaining d with
  | [] => (d, w)
  | event :: rest =>
      let eventKey := gid (resource event) in
      match stage d with
      | AwaitSismember =>
          let isProcessed := bool_decide (eventKey ∈ processedEvents w) in
          let seen := replies d ++ [(eventKey, isProcessed)] in
          if isProcessed then
            (mkDelivery rest AwaitSismember seen,
             record (ConsoleLog ("Event " +:+ eventKey
                                 +:+ " has already been processed. Skipping.")) w)
          else
            let w1 := record (ConsoleLogEvent "Processing event:" event) w in
            if is_task_added event || is_comment_added event then
              (mkDelivery (event :: rest) AwaitProcessing seen, w1)
            else
              (mkDelivery rest AwaitSismember seen,
               record (ConsoleLogEvent "Ignoring event:" event) w1)
      | AwaitProcessing =>
          (mkDelivery (event :: rest) AwaitSadd (replies d),
           snd (processing sv event w))
      | AwaitSadd =>
          (mkDelivery rest AwaitSismember (replies d), snd (sadd eventKey w))
      end
  end.

(** The delivery was let through for [key]: [sismember] answered 0. *)
Definition let_through (key : string) (d : Delivery) : bool :=
  existsb (fun r => String.eqb (fst r) key && negb (snd r)) (replies d).

Inductive Turn : Type := TurnFirst | TurnSecond.

Record System : Type := mkSystem {
  first : Delivery;
  second : Delivery;
  world : World }.

Definition turn (sv : Services) (s : System) (t : Turn) : System :=
  match t with
  | TurnFirst =>
      let '(d, w) := advance sv (first s) (world s) in mkSystem d (second s) w
  | TurnSecond =>
      let '(d, w) := advance sv (second s) (world s) in mkSystem (first s) d w
  end.

Definition run (sv : Services) (schedule : list Turn) (s : System) : System :=
  fold_left (turn sv) schedule s.

(** Two deliveries of the same single event. *)
Definition twice (event : AsanaEvent) (w : World) : System :=
  mkSystem (start [event]) (start [event]) w.

Definition both_finished (s : System) : bool :=
  finished (first s) && finished (second s).



End Interleaving.

(** ** The GitHub-App webhook server *)

Module GithubApp.
Import Js Platform.
Local Open Scope js_scope.

Record PullRef : Type := mkPullRef { pull_number : N }.

Record Repository : Type := mkRepository {
  repository_owner_login : string;
  repository_name : string }.

Record Reviewer : Type := mkReviewer { login : string }.

(** The members of the event envelope the route reads; [None] is a missing
    member. *)
Record Payload : Type := mkPayload {
  action : option string;
  pull_request : option PullRef;
  repository : option Repository;
  requested_reviewer : option Reviewer }.

(** [{}] *)
Definition empty_payload : Payload := mkPayload None None None None.

(** An inbound HTTP request: the two headers the server reads, whether the
    request carries a body of content type [application/json], the bytes of
    the body, and the document those bytes parse to ([None]: not JSON). *)
Record Request : Type := mkRequest {
  x_hub_signature_256 : option string;
  x_github_event : option string;
  has_json_body : bool;
  raw_body : string;
  document : option Payload }.

(** The lower-case hexadecimal HMAC-SHA256 of a buffer under a key, and the
    value of [WEBHOOK_SECRET]. *)
Record Crypto : Type := mkCrypto {
  hmac_sha256_hex : string -> string -> string;
  WEBHOOK_SECRET : string }.

Definition digest_of (cr : Crypto) (buf : string) : string :=
  "sha256=" +:+ hmac_sha256_hex cr (WEBHOOK_SECRET cr) buf.

(** [verifySignature(req, res, buf, encoding)]; a missing header is
    [undefined], which differs from every string. *)
Definition verifySignature (cr : Crypto) (req : Request) (buf : string) : Outcome unit :=
  let signature := x_hub_signature_256 req in
  let digest := digest_of cr buf in
  if bool_decide (signature ≠ Some digest)
  then Threw (PlainError "Invalid signature")
  else Returned tt.

(** The request as the middleware chain sees it: [req.body] and the flag
    [req._body] that a body parser sets once it has read the stream. *)
Record Parsing : Type := mkParsing {
  req_body : option Payload;
  body_parsed : bool }.

Inductive Passed : Type :=
| Next (st : Parsing)
| Rejected (status : nat) (e : JsError).

(** The middleware returned by [express.json(options)].  It leaves a request
    alone whose body an earlier parser has read ("body already parsed"), and
    one without a JSON body, for which [req.body] becomes [{}].  Otherwise it
    flags the request as parsed, reads the stream, calls the [verify] hook
    on the raw buffer when one is given (an exception of the hook rejects the
    request with status 403), and then parses.  The parser also rejects a
    body above its size limit and one in a charset or encoding it does not
    support, before the hook would be called; these rejections, which do not
    depend on the hook either, are left out. *)
Definition express_json (verify : option (Request -> string -> Outcome unit))
    (req : Request) (st : Parsing) : Passed :=
  if body_parsed st then Next st
  else
    let st0 := mkParsing (Some (default empty_payload (req_body st))) false in
    if negb (has_json_body req) then Next st0
    else
      let checked :=
        match verify with
        | Some hook => hook req (raw_body req)
        | None => Returned tt
        end in
      match checked with
      | Threw e => Rejected 403 e
      | Returned _ =>
          match document req with
          | Some payload => Next (mkParsing (Some payload) true)
          | None => Rejected 400 (PlainError "entity.parse.failed")
          end
      end.

Definition reviewer_identity : string := "haghdaee".

(** The [try] block opens by building the client from [APP_ID],
    [PRIVATE_KEY] and [INSTALLATION_ID].  The server binds no
    [INSTALLATION_ID], so evaluating that object literal throws a
    [ReferenceError], and the [catch] clause logs it; no later statement of
    the block is reached. *)
Definition processPullRequest (prNumber : N) (owner repo : string) : M unit :=
  do! console_log ("Processing PR #" +:+ of_N prNumber +:+ "..." +:+ nl) in
  try_catch
    (throw (ReferenceError "INSTALLATION_ID"))
    (fun error => console_error ("Error processing PR #" +:+ of_N prNumber +:+ ":") error).

(** [app.post('/webhook', ...)] on the parsed body. *)
Definition route (req : Request) (payload : Payload) : M Response :=
  let event := x_github_event req in
  if bool_decide (event = Some "pull_request")
     && bool_decide (action payload = Some "review_requested") then
    let! pr := deref "payload.pull_request.number" (pull_request payload) in
    let prNumber := pull_number pr in
    let! rp := deref "payload.repository.owner" (repository payload) in
    let owner := repository_owner_login rp in
    let repo := repository_name rp in
    let! rv := deref "payload.requested_reviewer.login" (requested_reviewer payload) in
    let requestedReviewer := login rv in
    if negb (String.eqb requestedReviewer reviewer_identity) then
      ret (mkResponse 200 [] (Some "Not the correct reviewer."))
    else
      do! processPullRequest prNumber owner repo in
      ret (mkResponse 200 [] (Some "Processed pull request."))
  else
    ret (mkResponse 200 [] (Some "Event ignored.")).

(** The application in registration order: [express.json()], then
    [express.json({ verify: verifySignature })], then the route. *)
Definition app (cr : Crypto) (req : Request) : M Response :=
  match express_json None req (mkParsing None false) with
  | Rejected code _ => ret (mkResponse code [] None)
  | Next st1 =>
      match express_json (Some (verifySignature cr)) req st1 with
      | Rejected code _ => ret (mkResponse code [] None)
      | Next st2 => route req (default empty_payload (req_body st2))
      end
  end.

End GithubApp.

(** ** Predicates and sample data of the statements *)

Module Statements.
Import Js Platform Resolver.

(** A string in which the pull-request pattern has a match: the literal
    [github.com/], a non-empty run without slash, a slash, another such run,
    [/pull/], and a non-empty run of digits. *)
Definition pull_shape (url : string) : Prop :=
  exists pre o r n post,
    url = pre +:+ "github.com/" +:+ o +:+ "/" +:+ r +:+ "/pull/" +:+ n +:+ post
    /\ truthy o = true /\ all_chars non_slash o = true
    /\ truthy r = true /\ all_chars non_slash r = true
    /\ truthy n = true /\ all_chars is_digit n = true.

(** [q] begins with a match of the extraction pattern. *)
Definition starts_github_url (q : string) : Prop :=
  exists c rest, q = "https://github.com/" +:+ String c rest /\ non_ws c = true.

(** [s] is empty or begins with a character outside the class [f]. *)
Definition stops (f : ascii -> bool) (s : string) : Prop :=
  match s with
  | EmptyString => True
  | String c _ => f c = false
  end.

(** The marker occurs somewhere in [s], in any letter case. *)
Definition mentions (s : string) : bool :=
  match search (strip_prefix_ci "@AsanaPRBot") s with
  | Some _ => true
  | None => false
  end.

(** No character of [p] folds to the character [c]. *)
Definition avoids (c : ascii) (p : string) : bool :=
  all_chars (fun a => negb (Ascii.eqb (canonicalize a) (canonicalize c))) p.

(** A call of the reasoning engine, and the publication of a comment. *)
Definition is_reasoning (e : Effect) : bool :=
  match e with OpenAIChat _ _ => true | _ => false end.

Definition is_publication (e : Effect) : bool :=
  match e with GithubCreateComment _ _ _ _ => true | _ => false end.

Definition is_tag_attachment (e : Effect) : bool :=
  match e with AsanaAddTag _ _ => true | _ => false end.

(** Services that answer nothing: every request fails. *)
Definition unreachable : Services :=
  let down := RequestFailed "network" in
  mkServices (fun _ _ => Threw down) (fun _ _ => Threw down) (fun _ _ => Threw down)
             (fun _ _ _ => Threw down) (fun _ _ _ => Threw down) (fun _ => Threw down)
             (fun _ _ _ _ => Threw down) (fun _ _ _ _ => Threw down)
             (fun _ _ _ _ => Threw down) (fun _ _ _ => Threw down)
             (fun _ _ _ _ _ => Threw down).

Definition sample_task : Task :=
  mkTask "see https://github.com/acme/widgets/pull/42 for details" [] "W1".

Definition sample_pull : PullRequest :=
  mkPull 42 "Add widget cache" (Some "Caches widgets.") ["perf"] [] ["asana-pr-bot"].

Definition own_comment : Comment := mkComment "asana-pr-bot" "User" "Looks fine to me.".

(** Services in which everything works, the acting credential belongs to
    [asana-pr-bot], and the pull request already carries a comment of that
    account; [publish] is the answer to the creation of a comment. *)
Definition scripted (publish : Outcome unit) : Services :=
  mkServices
    (fun _ _ => Returned (Some (mkStory "comment" "@AsanaPRBot" "T1")))
    (fun _ _ => Returned (Some sample_task))
    (fun _ _ => Returned [mkTag "G1" "AsanaAI Processed"])
    (fun _ _ _ => Returned (Some (mkTag "G2" "AsanaAI Processed")))
    (fun _ _ _ => Returned tt)
    (fun _ => Returned "asana-pr-bot")
    (fun _ _ _ _ => Returned sample_pull)
    (fun _ _ _ _ => Returned [own_comment])
    (fun _ _ _ _ => Returned "+cache")
    (fun _ _ _ => Returned "Ship it.")
    (fun _ _ _ _ _ => publish).

(** The same with a pull request nobody has commented on. *)
Definition fresh (publish : Outcome unit) : Services :=
  mkServices
    (asana_story (scripted publish)) (asana_task (scripted publish))
    (asana_tags (scripted publish)) (asana_create_tag (scripted publish))
    (asana_add_tag (scripted publish)) (github_authenticated (scripted publish))
    (github_pull (scripted publish)) (fun _ _ _ _ => Returned [])
    (github_diff (scripted publish)) (openai_chat (scripted publish))
    (github_create_comment (scripted publish)).

(** [w'] is [w] after some more effects, with the Redis set untouched. *)
Definition extends (w w' : World) : Prop :=
  processedEvents w' = processedEvents w
  /\ exists added, trace w' = trace w ++ added.

(** The computation only appends to the trace. *)
Definition steady {A : Type} (m : M A) : Prop := forall w, extends w (snd (m w)).

(** The computation returns, whatever the world. *)
Definition returns {A : Type} (m : M A) : Prop :=
  forall w, exists a w', m w = (Returned a, w').

(** Where a delivery of the single event [event] can be, and what it has
    then been told about [key]; a delivery that was told "already processed"
    was told so because the key was in the set. *)
Definition at_phase (key : string) (event : AsanaEvent) (store : gset string)
    (d : Interleaving.Delivery) : Prop :=
  d = Interleaving.mkDelivery [event] Interleaving.AwaitSismember []
  \/ d = Interleaving.mkDelivery [event] Interleaving.AwaitProcessing [(key, false)]
  \/ d = Interleaving.mkDelivery [event] Interleaving.AwaitSadd [(key, false)]
  \/ d = Interleaving.mkDelivery [] Interleaving.AwaitSismember [(key, false)]
  \/ (d = Interleaving.mkDelivery [] Interleaving.AwaitSismember [(key, true)]
      /\ key ∈ store).


(** An event the loop acts on. *)
Definition handled (event : AsanaEvent) : bool :=
  Final.is_task_added event || Final.is_comment_added event.

Definition empty_world : World := mkWorld [] ∅.

Definition task_added (key : string) : AsanaEvent :=
  mkEvent "added" (mkResource key "task" None).

(** Membership of a reasoning call in a list of effects, case by case. *)
Ltac reasoning_calls H :=
  simpl in H;
  repeat match type of H with
         | _ \/ _ => destruct H as [H|H]
         | False => contradiction
         | _ = Platform.OpenAIChat _ _ => first [discriminate H | inversion H; subst; clear H]
         end.

End Statements.

(** ** Further predicates on strings, traces and requests *)

Module Observations.
Import Js Platform Resolver.

(** The URL of a pull request as GitHub writes it. *)
Definition pull_url (o r n : string) : string :=
  "https://github.com/" +:+ o +:+ "/" +:+ r +:+ "/pull/" +:+ n.

(** The last character of [s] is whitespace. *)
Fixpoint ends_ws (s : string) : bool :=
  match s with
  | EmptyString => false
  | String c EmptyString => is_ws c
  | String _ s' => ends_ws s'
  end.

(** The first character of [s] is whitespace. *)
Definition starts_ws (s : string) : bool :=
  match s with
  | EmptyString => false
  | String c _ => is_ws c
  end.

(** Entries the console writes, as opposed to requests to a service. *)
Definition is_console (e : Effect) : bool :=
  match e with
  | ConsoleLog _ | ConsoleLogEvent _ _ | ConsoleError _ _ => true
  | _ => false
  end.

(** Requests to the tag endpoints of Asana, and the question to GitHub who
    the credential belongs to. *)
Definition is_tag_call (e : Effect) : bool :=
  match e with
  | AsanaListTags _ | AsanaCreateTag _ _ | AsanaAddTag _ _ => true
  | _ => false
  end.

Definition is_identity_call (e : Effect) : bool :=
  match e with GithubGetAuthenticated => true | _ => false end.

(** The keys of the events of a delivery that the loop of the final server
    acts on. *)
Definition handled_keys (evs : list AsanaEvent) : gset string :=
  list_to_set (map (fun e => gid (resource e)) (List.filter Statements.handled evs)).

(** The computation appends only effects that satisfy [P]. *)
Definition appends (P : Effect -> bool) {A : Type} (m : M A) : Prop :=
  forall w, exists added, trace (snd (m w)) = trace w ++ added /\ forallb P added = true.

(** The task carries the tag that marks it as processed. *)
Definition tagged_processed (t : Task) : bool :=
  existsb (String.eqb Tagged.processedTag) (map tag_name (tags t)).

(** A delivery of a handled event that has finished has its key in the
    set. *)
Definition recorded_when_done (key : string) (store : gset string)
    (d : Interleaving.Delivery) : Prop :=
  Interleaving.finished d = true -> key ∈ store.

(** Along every interleaving of two deliveries of [event] from [w0]: the
    phases of the two, the key on record for a finished delivery, and a set
    that has gained nothing but the key. *)
Definition record_invariant (key : string) (event : AsanaEvent) (w0 : World)
    (s : Interleaving.System) : Prop :=
  let store := processedEvents (Interleaving.world s) in
  Statements.at_phase key event store (Interleaving.first s)
  /\ Statements.at_phase key event store (Interleaving.second s)
  /\ recorded_when_done key store (Interleaving.first s)
  /\ recorded_when_done key store (Interleaving.second s)
  /\ processedEvents w0 ⊆ store
  /\ store ⊆ processedEvents w0 ∪ {[ key ]}.







(** The requests of a review, by kind. *)
Inductive Step : Type :=
| IdentityStep
| PullStep
| CommentsStep
| DiffStep
| ReasoningStep
| PublishStep
| TrackerStep.

Definition step_of (e : Effect) : option Step :=
  match e with
  | ConsoleLog _ | ConsoleLogEvent _ _ | ConsoleError _ _ => None
  | GithubGetAuthenticated => Some IdentityStep
  | GithubGetPull _ _ _ => Some PullStep
  | GithubListComments _ _ _ => Some CommentsStep
  | GithubGetDiff _ _ _ => Some DiffStep
  | OpenAIChat _ _ => Some ReasoningStep
  | GithubCreateComment _ _ _ _ => Some PublishStep
  | AsanaGetStory _ | AsanaGetTask _ | AsanaListTags _ | AsanaCreateTag _ _
  | AsanaAddTag _ _ => Some TrackerStep
  end.

(** The kinds of the requests in a history, in order. *)
Fixpoint steps (h : History) : list Step :=
  match h with
  | [] => []
  | e :: rest =>
      match step_of e with
      | Some s => s :: steps rest
      | None => steps rest
      end
  end.

(** The order in which [processPullRequest] of the final server makes its
    requests, and the order of the server with the completion guard. *)
Definition final_order : list Step :=
  [PullStep; CommentsStep; DiffStep; ReasoningStep; PublishStep].

Definition tagged_order : list Step := IdentityStep :: final_order.

(** Requests to a service, as opposed to entries of the console. *)
Definition is_request (e : Effect) : bool := negb (is_console e).

(** The error a request is answered with, if it is; [h] is the history up to
    and including the request. *)
Definition failure (sv : Services) (e : Effect) (h : History) : option JsError :=
  let failed {A : Type} (o : Outcome A) : option JsError :=
    match o with Threw err => Some err | Returned _ => None end in
  match e with
  | ConsoleLog _ | ConsoleLogEvent _ _ | ConsoleError _ _ => None
  | AsanaGetStory storyId => failed (asana_story sv h storyId)
  | AsanaGetTask taskId => failed (asana_task sv h taskId)
  | AsanaListTags workspaceId => failed (asana_tags sv h workspaceId)
  | AsanaCreateTag workspaceId tagName => failed (asana_create_tag sv h workspaceId tagName)
  | AsanaAddTag taskId tagId => failed (asana_add_tag sv h taskId tagId)
  | GithubGetAuthenticated => failed (github_authenticated sv h)
  | GithubGetPull o r n => failed (github_pull sv h o r n)
  | GithubListComments o r n => failed (github_comments sv h o r n)
  | GithubGetDiff o r n => failed (github_diff sv h o r n)
  | OpenAIChat model asked => failed (openai_chat sv h model asked)
  | GithubCreateComment o r n text => failed (github_create_comment sv h o r n text)
  end.

(** The errors that the requests of [made] are answered with, in order, when
    they are made one after the other from the history [h]. *)
Fixpoint failures (sv : Services) (h : History) (made : list Effect) : list JsError :=
  match made with
  | [] => []
  | e :: rest =>
      match failure sv e (h ++ [e]) with
      | Some err => err :: failures sv (h ++ [e]) rest
      | None => failures sv (h ++ [e]) rest
      end
  end.

(** Histories are compared with the list of their last entries written
    out. *)
Ltac flatten_histories :=
  cbn [Platform.trace Platform.processedEvents] in *;
  repeat rewrite <- app_assoc in *; cbn [app] in *.

Ltac settle_run :=
  repeat split; cbn [Platform.trace Platform.processedEvents]; flatten_histories;
  try reflexivity; try assumption.

End Observations.

(** ** The command-line reviewer

    [asana_ai_reviewer.js] runs once per invocation.  Its requests carry the
    number of the pull request as a number, and it can end the process, so it
    has a trace of its own; the answers of the services depend on that
    trace.

    The numbers come from the command line: yargs gives a JavaScript number
    for an option of type [number], which is any double, and [NaN] for text
    that is no number.  The program puts such a number into template
    literals, tests one for truthiness and hands them to the client, and does
    nothing else with them.  The model is therefore parametric in the type
    [Num] of these numbers, in the conversion [toText] that a template
    literal applies to them, and in the truthiness test [truthy_number]. *)

Module Cli.
Import Js Platform Prompt.

Section Numbers.

Variable Num : Type.
Variable toText : Num -> string.
Variable truthy_number : Num -> bool.

Inductive Call : Type :=
| Log (msg : string)
| LogError (msg : string) (e : JsError)
| GetComment (owner repo : string) (commentId : Num)
| GetPull (owner repo : string) (prNumber : Num)
| ListComments (owner repo : string) (prNumber : Num)
| GetDiff (owner repo : string) (prNumber : Num)
| Chat (model prompt : string)
| CreateComment (owner repo : string) (prNumber : Num) (text : string)
| Exit (code : nat).

Definition Journal : Type := list Call.

(** The answers of GitHub and of the reasoning engine; of a fetched comment
    only [body] is read. *)
Record Services : Type := mkServices {
  comment_body : Journal -> string -> string -> Num -> Outcome string;
  pull : Journal -> string -> string -> Num -> Outcome PullRequest;
  comments : Journal -> string -> string -> Num -> Outcome (list Comment);
  diff : Journal -> string -> string -> Num -> Outcome string;
  chat : Journal -> string -> string -> Outcome string;
  create_comment : Journal -> string -> string -> Num -> string -> Outcome unit }.

Definition Run (A : Type) : Type := Journal -> Outcome A * Journal.

Definition ret {A : Type} (a : A) : Run A := fun j => (Returned a, j).

Definition throw {A : Type} (e : JsError) : Run A := fun j => (Threw e, j).

Definition bind {A B : Type} (m : Run A) (k : A -> Run B) : Run B :=
  fun j =>
    match m j with
    | (Returned a, j') => k a j'
    | (Threw e, j') => (Threw e, j')
    end.

Definition try_catch {A : Type} (body : Run A) (handler : JsError -> Run A) : Run A :=
  fun j =>
    match body j with
    | (Returned a, j') => (Returned a, j')
    | (Threw e, j') => handler e j'
    end.

Definition emit (c : Call) : Run unit := fun j => (Returned tt, j ++ [c]).

Definition call {A : Type} (c : Call) (answer : Journal -> Outcome A) : Run A :=
  fun j => (answer (j ++ [c]), j ++ [c]).

(** The arguments the main function reads from [argv]; [commentId] is
    [undefined] when the option is not given. *)
Record Argv : Type := mkArgv {
  prNumber : Num;
  commentId : option Num;
  owner : string;
  repo : string }.

(** [context ? `...` : ""] *)
Definition additionalContext (context : option string) : string :=
  match context with
  | Some c =>
      if truthy c
      then "**Additional Context from Comment:**" +:+ nl +:+ c +:+ nl +:+ nl
      else ""
  | None => ""
  end.

Definition prompt (pr : PullRequest) (patch : string) (shown : list Comment)
    (context : option string) : string :=
  summary pr +:+ diffContent patch +:+ contextSection pr +:+ commentsSection shown
  +:+ additionalContext context +:+ nl +:+ "---" +:+ nl +:+ nl.

(** The two final prompts and the introduction have the text they have in
    the final server. *)
Definition processPullRequest (sv : Services) (prNumber : Num) (owner repo : string)
    (context : option string) : Run unit :=
  bind (emit (Log ("Processing PR #" +:+ toText prNumber +:+ " in " +:+ owner +:+ "/"
                   +:+ repo +:+ "..." +:+ nl))) (fun _ =>
  try_catch
    (bind (call (GetPull owner repo prNumber)
                (fun j => pull sv j owner repo prNumber)) (fun pr =>
     bind (call (ListComments owner repo prNumber)
                (fun j => comments sv j owner repo prNumber)) (fun listed =>
     bind (call (GetDiff owner repo prNumber)
                (fun j => diff sv j owner repo prNumber)) (fun patch =>
     let text := prompt pr patch listed context in
     bind (call (Chat "gpt-4" (Final.finalPrompt context text))
                (fun j => chat sv j "gpt-4" (Final.finalPrompt context text)))
          (fun aiResponse =>
     let reply := Final.botIntroduction +:+ nl +:+ nl +:+ aiResponse in
     bind (call (CreateComment owner repo prNumber reply)
                (fun j => create_comment sv j owner repo prNumber reply)) (fun _ =>
     emit (Log ("Comment posted to PR #" +:+ toText prNumber))))))))
    (fun error =>
       bind (emit (LogError ("Error processing PR #" +:+ toText prNumber +:+ ":") error))
            (fun _ => throw error))).

(** The pattern and the trimming of the instruction are those of the final
    server. *)
Definition processComment (sv : Services) (prNumber commentId : Num) (owner repo : string)
    : Run unit :=
  bind (emit (Log ("Processing comment #" +:+ toText commentId +:+ " on PR #"
                   +:+ toText prNumber +:+ "..." +:+ nl))) (fun _ =>
  bind (call (GetComment owner repo commentId)
             (fun j => comment_body sv j owner repo commentId)) (fun commentText =>
  if negb (includes commentText "@AsanaPRBot") then
    emit (Log "Comment does not contain @AsanaPRBot. Skipping.")
  else
    let instruction := Final.instruction_of commentText in
    processPullRequest sv prNumber owner repo instruction)).

(** [if (commentId)]: the branch is taken for a number that is truthy. *)
Definition given (commentId : option Num) : option Num :=
  match commentId with
  | Some id => if truthy_number id then Some id else None
  | None => None
  end.

(** The main function. *)
Definition main (sv : Services) (argv : Argv) : Run unit :=
  try_catch
    (match given (commentId argv) with
     | Some id => processComment sv (prNumber argv) id (owner argv) (repo argv)
     | None => processPullRequest sv (prNumber argv) (owner argv) (repo argv) None
     end)
    (fun error =>
       bind (emit (LogError "An error occurred:" error)) (fun _ => emit (Exit 1))).

(** The requests of a journal, by kind. *)
Definition is_request (c : Call) : bool :=
  match c with
  | Log _ | LogError _ _ | Exit _ => false
  | _ => true
  end.

(** The error a request is answered with, if it is; [j] is the journal up to
    and including the request. *)
Definition failure (sv : Services) (c : Call) (j : Journal) : option JsError :=
  let failed {A : Type} (o : Outcome A) : option JsError :=
    match o with Threw e => Some e | Returned _ => None end in
  match c with
  | GetComment o r id => failed (comment_body sv j o r id)
  | GetPull o r n => failed (pull sv j o r n)
  | ListComments o r n => failed (comments sv j o r n)
  | GetDiff o r n => failed (diff sv j o r n)
  | Chat model text => failed (chat sv j model text)
  | CreateComment o r n text => failed (create_comment sv j o r n text)
  | Log _ | LogError _ _ | Exit _ => None
  end.

End Numbers.

Arguments Log {Num} msg.
Arguments LogError {Num} msg e.
Arguments GetComment {Num} owner repo commentId.
Arguments GetPull {Num} owner repo prNumber.
Arguments ListComments {Num} owner repo prNumber.
Arguments GetDiff {Num} owner repo prNumber.
Arguments Chat {Num} model prompt.
Arguments CreateComment {Num} owner repo prNumber text.
Arguments Exit {Num} code.
Arguments mkServices {Num}.
Arguments comment_body {Num}.
Arguments pull {Num}.
Arguments comments {Num}.
Arguments diff {Num}.
Arguments chat {Num}.
Arguments create_comment {Num}.
Arguments ret {Num A}.
Arguments throw {Num A}.
Arguments bind {Num A B}.
Arguments try_catch {Num A}.
Arguments emit {Num}.
Arguments call {Num A}.
Arguments mkArgv {Num}.
Arguments prNumber {Num}.
Arguments commentId {Num}.
Arguments owner {Num}.
Arguments repo {Num}.
Arguments processPullRequest {Num}.
Arguments processComment {Num}.
Arguments given {Num}.
Arguments main {Num}.
Arguments is_request {Num}.
Arguments failure {Num}.

(** Numbers that are natural numbers below 10^21, for which the conversion
    gives the decimal digits, and of which only 0 is falsy. *)
Definition decimal : N -> string := of_N.

Definition nonzero (n : N) : bool := negb (N.eqb n 0).

End Cli.

(** * Properties *)

(** ** Strings and pattern matching *)

Module StringFacts.
Import Js.
#[local] Arguments String.append !_ _ / : simpl nomatch.

Lemma append_empty_r (s : string) : s +:+ "" = s.
Proof. induction s as [|c s IH]; simpl; [reflexivity | now rewrite IH]. Qed.

Lemma append_assoc (a b c : string) : (a +:+ b) +:+ c = a +:+ (b +:+ c).
Proof. induction a as [|x a IH]; simpl; [reflexivity | now rewrite IH]. Qed.

Lemma length_append (a b : string) :
  String.length (a +:+ b) = String.length a + String.length b.
Proof. induction a as [|x a IH]; simpl; [reflexivity | now rewrite IH]. Qed.

Lemma all_chars_cons f c s : all_chars f (String c s) = f c && all_chars f s.
Proof. reflexivity. Qed.

Lemma strip_prefix_append (p r : string) : strip_prefix p (p +:+ r) = Some r.
Proof.
  induction p as [|a p IH]; simpl; [reflexivity |].
  now rewrite Ascii.eqb_refl.
Qed.

Lemma strip_prefix_inv (p s r : string) : strip_prefix p s = Some r -> s = p +:+ r.
Proof.
  revert s; induction p as [|a p IH]; intros s H; simpl in *.
  - now inversion H.
  - destruct s as [|b s]; [discriminate |].
    destruct (Ascii.eqb a b) eqn:E; [| discriminate].
    apply Ascii.eqb_eq in E; subst b. f_equal. now apply IH.
Qed.

Lemma span_append f s run rest : span f s = (run, rest) -> s = run +:+ rest.
Proof.
  revert run rest; induction s as [|c s IH]; intros run rest H; simpl in H.
  - now inversion H.
  - destruct (f c).
    + destruct (span f s) as [run' rest'] eqn:E. inversion H; subst.
      simpl. f_equal. now apply IH.
    + now inversion H.
Qed.

Lemma span_all f s run rest : span f s = (run, rest) -> all_chars f run = true.
Proof.
  revert run rest; induction s as [|c s IH]; intros run rest H; simpl in H.
  - now inversion H.
  - destruct (f c) eqn:Fc.
    + destruct (span f s) as [run' rest'] eqn:E. inversion H; subst.
      rewrite all_chars_cons, Fc. simpl. eapply IH; reflexivity.
    + now inversion H.
Qed.

Lemma span_stops f s run rest : span f s = (run, rest) -> Statements.stops f rest.
Proof.
  revert run rest; induction s as [|c s IH]; intros run rest H; simpl in H.
  - inversion H; exact I.
  - destruct (f c) eqn:Fc.
    + destruct (span f s) as [run' rest'] eqn:E. inversion H; subst.
      eapply IH; reflexivity.
    + inversion H; subst. exact Fc.
Qed.

(** The run that [span] returns is the whole of any prefix in the class that
    is followed by a character outside it. *)
Lemma span_exact f run rest :
  all_chars f run = true -> Statements.stops f rest -> span f (run +:+ rest) = (run, rest).
Proof.
  induction run as [|c run IH]; intros Hall Hstop; simpl.
  - destruct rest as [|c r]; simpl in *; [reflexivity | now rewrite Hstop].
  - rewrite all_chars_cons in Hall. apply andb_true_iff in Hall as [Hc Hall].
    rewrite Hc, (IH Hall Hstop). reflexivity.
Qed.

(** A prefix in the class is a prefix of the run. *)
Lemma span_extends f run x :
  all_chars f run = true ->
  exists more rest, span f (run +:+ x) = (run +:+ more, rest).
Proof.
  induction run as [|c run IH]; intros Hall; simpl.
  - destruct (span f x) as [m r] eqn:E. exists m, r.
    destruct x as [|c x]; simpl in *; [now inversion E |].
    destruct (f c); [| now inversion E].
    destruct (span f x) as [m' r'] eqn:E'. now inversion E.
  - rewrite all_chars_cons in Hall. apply andb_true_iff in Hall as [Hc Hall].
    rewrite Hc. destruct (IH Hall) as (more & rest & E). rewrite E.
    exists more, rest. reflexivity.
Qed.

Lemma truthy_append_l (a b : string) : truthy a = true -> truthy (a +:+ b) = true.
Proof. destruct a; [discriminate | reflexivity]. Qed.

(** What a successful search found, and that no earlier index matched. *)
Lemma search_found {A : Type} (try_at : string -> option A) (s : string) (r : A) :
  search try_at s = Some r ->
  exists pre suf,
    s = pre +:+ suf /\ try_at suf = Some r
    /\ forall p q, s = p +:+ q -> String.length p < String.length pre -> try_at q = None.
Proof.
  induction s as [|c s IH]; intros H; simpl in H.
  - destruct (try_at "") eqn:E; [| discriminate]. inversion H; subst.
    exists "", "". repeat split; auto. intros p q _ Hlt. simpl in Hlt. lia.
  - destruct (try_at (String c s)) eqn:E.
    + inversion H; subst. exists "", (String c s). repeat split; auto.
      intros p q _ Hlt. simpl in Hlt. lia.
    + destruct (IH H) as (pre & suf & Hs & Hsuf & Hearlier).
      exists (String c pre), suf. repeat split.
      * simpl. now rewrite Hs.
      * exact Hsuf.
      * intros p q Hpq Hlt. destruct p as [|c' p]; simpl in Hpq.
        -- now subst q.
        -- inversion Hpq; subst c'. apply (Hearlier p q H2).
           simpl in Hlt. lia.
Qed.

Lemma search_nowhere {A : Type} (try_at : string -> option A) (s : string) :
  search try_at s = None -> forall p q, s = p +:+ q -> try_at q = None.
Proof.
  induction s as [|c s IH]; intros H p q Hpq; simpl in H.
  - destruct (try_at "") eqn:E; [discriminate |].
    destruct p; simpl in Hpq; [now subst q | discriminate].
  - destruct (try_at (String c s)) eqn:E; [discriminate |].
    destruct p as [|c' p]; simpl in Hpq.
    + now subst q.
    + inversion Hpq; subst. now apply (IH H p q).
Qed.

(** A match somewhere makes the search succeed. *)
Lemma search_succeeds {A : Type} (try_at : string -> option A) (pre suf : string) (r : A) :
  try_at suf = Some r -> exists r', search try_at (pre +:+ suf) = Some r'.
Proof.
  intros H. destruct (search try_at (pre +:+ suf)) as [r'|] eqn:E; [now exists r' |].
  rewrite (search_nowhere _ _ E pre suf eq_refl) in H. discriminate.
Qed.

(** The first index that matches decides. *)
Lemma search_first {A : Type} (try_at : string -> option A) (pre suf : string) (r : A) :
  try_at suf = Some r ->
  (forall p c q, pre = p +:+ String c q -> try_at (String c q +:+ suf) = None) ->
  search try_at (pre +:+ suf) = Some r.
Proof.
  revert suf; induction pre as [|c pre IH]; intros suf Hsuf Hnone; simpl.
  - destruct suf; simpl; now rewrite Hsuf.
  - rewrite (Hnone "" c pre eq_refl : try_at (String c (pre +:+ suf)) = None).
    apply IH; [exact Hsuf |].
    intros p c' q Hp. apply (Hnone (String c p) c' q). simpl. now rewrite Hp.
Qed.

End StringFacts.

(** ** Target resolution *)

Module ResolverFacts.
Import Js Platform Resolver Statements StringFacts.
#[local] Arguments String.append !_ _ / : simpl nomatch.

(** What the three capture groups of a match are. *)
Lemma pull_at_sound (s o r n : string) :
  pull_at s = Some (o, r, n) ->
  exists rest,
    s = "github.com/" +:+ o +:+ "/" +:+ r +:+ "/pull/" +:+ n +:+ rest
    /\ truthy o = true /\ all_chars non_slash o = true
    /\ truthy r = true /\ all_chars non_slash r = true
    /\ truthy n = true /\ all_chars is_digit n = true
    /\ stops is_digit rest.
Proof.
  unfold pull_at. intros H.
  destruct (strip_prefix "github.com/" s) as [s1|] eqn:E1; [| discriminate].
  destruct (span non_slash s1) as [g1 s2] eqn:E2.
  destruct (truthy g1) eqn:T1; cbv beta iota delta [negb] in H; [| discriminate].
  destruct (strip_prefix "/" s2) as [s3|] eqn:E3; [| discriminate].
  destruct (span non_slash s3) as [g2 s4] eqn:E4.
  destruct (truthy g2) eqn:T2; cbv beta iota delta [negb] in H; [| discriminate].
  destruct (strip_prefix "/pull/" s4) as [s5|] eqn:E5; [| discriminate].
  destruct (span is_digit s5) as [g3 s6] eqn:E6.
  destruct (truthy g3) eqn:T3; [| discriminate].
  inversion H; subst g1 g2 g3. exists s6.
  apply strip_prefix_inv in E1, E3, E5.
  pose proof (span_append _ _ _ _ E2) as A2.
  pose proof (span_append _ _ _ _ E4) as A4.
  pose proof (span_append _ _ _ _ E6) as A6.
  repeat split; eauto using span_all, span_stops.
  subst s s1 s2 s3 s4 s5. reflexivity.
Qed.

(** Where the shape begins, the pattern matches; the number group takes
    every digit that follows. *)
Lemma pull_at_complete (o r n post : string) :
  truthy o = true -> all_chars non_slash o = true ->
  truthy r = true -> all_chars non_slash r = true ->
  truthy n = true -> all_chars is_digit n = true ->
  exists more,
    pull_at ("github.com/" +:+ o +:+ "/" +:+ r +:+ "/pull/" +:+ n +:+ post)
    = Some (o, r, n +:+ more).
Proof.
  intros To Ao Tr Ar Tn An. unfold pull_at.
  rewrite strip_prefix_append.
  rewrite (span_exact non_slash o); [| exact Ao | reflexivity].
  rewrite To. simpl negb. cbv iota.
  rewrite (strip_prefix_append "/").
  rewrite (span_exact non_slash r); [| exact Ar | reflexivity].
  rewrite Tr. simpl negb. cbv iota.
  rewrite (strip_prefix_append "/pull/").
  destruct (span_extends is_digit n post An) as (more & rest & E).
  rewrite E. rewrite (truthy_append_l n more Tn). now exists more.
Qed.

Lemma parse_groups (url : string) :
  match search pull_at url with
  | Some (o, r, n) =>
      parseGithubUrl url = mkParsed (Some o) (Some r) (Some n)
      /\ truthy o = true /\ truthy r = true /\ truthy n = true
      /\ all_chars is_digit n = true
  | None => parseGithubUrl url = mkParsed None None None
  end.
Proof.
  unfold parseGithubUrl.
  destruct (search pull_at url) as [[[o r] n]|] eqn:E; [| reflexivity].
  destruct (search_found _ _ _ E) as (pre & suf & _ & Hat & _).
  destruct (pull_at_sound _ _ _ _ Hat) as (rest & _ & To & _ & Tr & _ & Tn & Dn & _).
  auto.
Qed.

(** Where the shape begins and the digits are followed by a non-digit, the
    three groups are exactly the three components. *)
Lemma pull_at_exact (o r n rest : string) :
  truthy o = true -> all_chars non_slash o = true ->
  truthy r = true -> all_chars non_slash r = true ->
  truthy n = true -> all_chars is_digit n = true ->
  stops is_digit rest ->
  pull_at ("github.com/" +:+ o +:+ "/" +:+ r +:+ "/pull/" +:+ n +:+ rest) = Some (o, r, n).
Proof.
  intros To Ao Tr Ar Tn An Hrest. unfold pull_at.
  rewrite strip_prefix_append.
  rewrite (span_exact non_slash o); [| exact Ao | reflexivity].
  rewrite To. simpl negb. cbv iota.
  rewrite (strip_prefix_append "/").
  rewrite (span_exact non_slash r); [| exact Ar | reflexivity].
  rewrite Tr. simpl negb. cbv iota.
  rewrite (strip_prefix_append "/pull/").
  rewrite (span_exact is_digit n rest An Hrest). now rewrite Tn.
Qed.

(** A string without [/pull/] holds no match of the pattern. *)
Lemma no_pull_without_segment (url : string) :
  includes url "/pull/" = false -> search pull_at url = None.
Proof.
  intros Hinc. destruct (search pull_at url) as [[[o r] n]|] eqn:E; [| reflexivity].
  destruct (search_found _ _ _ E) as (pre & suf & Hu & Hat & _).
  destruct (pull_at_sound _ _ _ _ Hat) as (rest & Hsuf & _).
  assert (Hsplit : url = (pre +:+ "github.com/" +:+ o +:+ "/" +:+ r)
                         +:+ "/pull/" +:+ n +:+ rest).
  { rewrite Hu, Hsuf. now rewrite !append_assoc. }
  destruct (search_succeeds (strip_prefix "/pull/")
              (pre +:+ "github.com/" +:+ o +:+ "/" +:+ r) ("/pull/" +:+ n +:+ rest) _
              (strip_prefix_append "/pull/" (n +:+ rest))) as (x & Hx).
  rewrite <- Hsplit in Hx. unfold includes in Hinc. rewrite Hx in Hinc. discriminate Hinc.
Qed.

(** Two splits of one string at the same index have the same parts. *)
Lemma split_at_same_length (p q p' q' : string) :
  p +:+ q = p' +:+ q' -> String.length p = String.length p' -> p = p' /\ q = q'.
Proof.
  revert p'. induction p as [|c p IH]; intros [|c' p'] H Hlen; simpl in *;
    try discriminate Hlen.
  - now split.
  - inversion H; subst c'. destruct (IH p' H2) as [-> ->]; [lia | now split].
Qed.

(** The first index at which the pattern matches is determined by the
    string. *)
Lemma first_match_unique {A : Type} (try_at : string -> option A) (s pre suf pre' suf' : string)
    (g g' : A) :
  s = pre +:+ suf -> try_at suf = Some g ->
  (forall p q, s = p +:+ q -> String.length p < String.length pre -> try_at q = None) ->
  s = pre' +:+ suf' -> try_at suf' = Some g' ->
  (forall p q, s = p +:+ q -> String.length p < String.length pre' -> try_at q = None) ->
  pre = pre' /\ g = g'.
Proof.
  intros Hs Hg Hfirst Hs' Hg' Hfirst'.
  assert (Hlen : String.length pre = String.length pre').
  { destruct (Nat.lt_trichotomy (String.length pre) (String.length pre')) as [L|[E|L]].
    - rewrite (Hfirst' pre suf Hs L) in Hg. discriminate Hg.
    - exact E.
    - rewrite (Hfirst pre' suf' Hs' L) in Hg'. discriminate Hg'. }
  destruct (split_at_same_length pre suf pre' suf') as [-> ->]; [congruence | exact Hlen |].
  split; [reflexivity | congruence].
Qed.

(** What [parseGithubUrl] returns on a string split at the first index where
    the pattern matches. *)
Lemma parse_at_first_match (pre o r n rest : string) :
  let url := pre +:+ "github.com/" +:+ o +:+ "/" +:+ r +:+ "/pull/" +:+ n +:+ rest in
  (forall p q, url = p +:+ q -> String.length p < String.length pre -> pull_at q = None) ->
  truthy o = true -> all_chars non_slash o = true ->
  truthy r = true -> all_chars non_slash r = true ->
  truthy n = true -> all_chars is_digit n = true ->
  stops is_digit rest ->
  parseGithubUrl url = mkParsed (Some o) (Some r) (Some n).
Proof.
  intros url Hfirst To Ao Tr Ar Tn An Hrest. unfold parseGithubUrl, url.
  rewrite (search_first pull_at pre _ (o, r, n)); [reflexivity | |].
  - now apply pull_at_exact.
  - intros p c q Hp. apply (Hfirst p).
    + unfold url. rewrite Hp. now rewrite append_assoc.
    + rewrite Hp, length_append. simpl. lia.
Qed.

(** C9. A URL in which the pull-request pattern has a match splits, at the
    first index where it matches, into the literal, an owner and a repository
    without slash, [/pull/], and the longest run of digits that follows; and
    for every such split [parseGithubUrl] returns exactly these three strings:
    the number is the matched, non-empty string of decimal digits, taken as
    it stands.  The caller's check [!owner || !repo || !prNumber] does not
    reject the result. *)
Theorem C9_matched_url_passes_check (url : string) :
  (pull_shape url ->
   exists pre o r n rest,
     url = pre +:+ "github.com/" +:+ o +:+ "/" +:+ r +:+ "/pull/" +:+ n +:+ rest
     /\ (forall p q, url = p +:+ q -> String.length p < String.length pre ->
                     pull_at q = None)
     /\ truthy o = true /\ all_chars non_slash o = true
     /\ truthy r = true /\ all_chars non_slash r = true
     /\ truthy n = true /\ all_chars is_digit n = true
     /\ stops is_digit rest)
  /\ (forall pre o r n rest,
        url = pre +:+ "github.com/" +:+ o +:+ "/" +:+ r +:+ "/pull/" +:+ n +:+ rest ->
        (forall p q, url = p +:+ q -> String.length p < String.length pre ->
                     pull_at q = None) ->
        truthy o = true -> all_chars non_slash o = true ->
        truthy r = true -> all_chars non_slash r = true ->
        truthy n = true -> all_chars is_digit n = true ->
        stops is_digit rest ->
        parseGithubUrl url = mkParsed (Some o) (Some r) (Some n)
        /\ prNumber (parseGithubUrl url) = Some n
        /\ invalid (parseGithubUrl url) = false).
Proof.
  split.
  - intros (pre & o & r & n & post & Hurl & To & Ao & Tr & Ar & Tn & An).
    destruct (pull_at_complete o r n post To Ao Tr Ar Tn An) as (more & Hat).
    destruct (search_succeeds pull_at pre _ _ Hat) as ([[o' r'] n'] & Hs).
    rewrite <- Hurl in Hs.
    destruct (search_found _ _ _ Hs) as (pre' & suf & Hu & Hat' & Hfirst).
    destruct (pull_at_sound _ _ _ _ Hat')
      as (rest & Hsuf & To' & Ao' & Tr' & Ar' & Tn' & An' & Hrest).
    exists pre', o', r', n', rest. rewrite Hu, Hsuf at 1.
    repeat split; auto.
  - intros pre o r n rest Hurl Hfirst To Ao Tr Ar Tn An Hrest.
    assert (Hp : parseGithubUrl url = mkParsed (Some o) (Some r) (Some n)).
    { rewrite Hurl in Hfirst |- *. now apply parse_at_first_match. }
    rewrite Hp. unfold invalid; simpl. rewrite To, Tr, Tn. auto.
Qed.

(** C9 at a URL whose number component is 0. *)
Lemma C9_number_zero_passes :
  let url := "https://github.com/acme/widgets/pull/0" in
  pull_shape url
  /\ (exists pre o r n rest,
        url = pre +:+ "github.com/" +:+ o +:+ "/" +:+ r +:+ "/pull/" +:+ n +:+ rest
        /\ (forall p q, url = p +:+ q -> String.length p < String.length pre ->
                        pull_at q = None)
        /\ truthy o = true /\ all_chars non_slash o = true
        /\ truthy r = true /\ all_chars non_slash r = true
        /\ truthy n = true /\ all_chars is_digit n = true
        /\ stops is_digit rest)
  /\ parseGithubUrl url = mkParsed (Some "acme") (Some "widgets") (Some "0")
  /\ prNumber (parseGithubUrl url) = Some "0"
  /\ invalid (parseGithubUrl url) = false.
Proof.
  intros url.
  assert (S : pull_shape url).
  { exists "https://", "acme", "widgets", "0", "". repeat split; reflexivity. }
  destruct (C9_matched_url_passes_check url) as (H1 & H2).
  split; [exact S |]. split; [exact (H1 S) |].
  apply (H2 "https://" "acme" "widgets" "0" ""); try reflexivity.
  intros p q Hpq Hlen.
  do 8 (destruct p as [|? p];
        [simpl in Hpq; subst q; reflexivity
        | simpl in Hpq; injection Hpq as <- Hpq]).
  simpl in Hlen. lia.
Defined.

End ResolverFacts.

(** ** The monad of handler bodies *)

Module PipelineFacts.
Import Js Platform Statements.

Lemma extends_refl w : extends w w.
Proof. split; [reflexivity | exists []; now rewrite app_nil_r]. Qed.

Lemma extends_trans w1 w2 w3 : extends w1 w2 -> extends w2 w3 -> extends w1 w3.
Proof.
  intros [P1 [a1 T1]] [P2 [a2 T2]]. split; [congruence |].
  exists (a1 ++ a2). now rewrite T2, T1, app_assoc.
Qed.

Lemma extends_record e w : extends w (record e w).
Proof. split; [reflexivity | now exists [e]]. Qed.

Lemma steady_ret {A} (a : A) : steady (ret a).
Proof. intros w. apply extends_refl. Qed.

Lemma steady_throw {A} e : steady (@throw A e).
Proof. intros w. apply extends_refl. Qed.

Lemma steady_emit e : steady (emit e).
Proof. intros w. apply extends_record. Qed.

Lemma steady_console_log msg : steady (console_log msg).
Proof. apply steady_emit. Qed.

Lemma steady_console_error msg e : steady (console_error msg e).
Proof. apply steady_emit. Qed.

Lemma steady_call {A} e (answer : History -> Outcome A) : steady (call e answer).
Proof. intros w. apply extends_record. Qed.

Lemma steady_deref {A} what (o : option A) : steady (deref what o).
Proof. destruct o; [apply steady_ret | apply steady_throw]. Qed.

Lemma steady_bind {A B} (m : M A) (k : A -> M B) :
  steady m -> (forall a, steady (k a)) -> steady (bind m k).
Proof.
  intros Hm Hk w. unfold bind. specialize (Hm w).
  destruct (m w) as [[a|e] w1]; simpl in *; [| exact Hm].
  eapply extends_trans; [exact Hm | apply Hk].
Qed.

Lemma steady_try_catch {A} (m : M A) (h : JsError -> M A) :
  steady m -> (forall e, steady (h e)) -> steady (try_catch m h).
Proof.
  intros Hm Hh w. unfold try_catch. specialize (Hm w).
  destruct (m w) as [[a|e] w1]; simpl in *; [exact Hm |].
  eapply extends_trans; [exact Hm | apply Hh].
Qed.

Lemma steady_if {A} (b : bool) (m1 m2 : M A) :
  steady m1 -> steady m2 -> steady (if b then m1 else m2).
Proof. now destruct b. Qed.

Create HintDb steady discriminated.
#[export] Hint Resolve steady_ret steady_throw steady_emit steady_console_log
  steady_console_error steady_call steady_deref steady_bind steady_try_catch
  steady_if : steady.

(** A [try] whose [catch] clause only logs always returns. *)
Lemma logged_try_returns (m : M unit) (msg : string) :
  returns (try_catch m (fun error => console_error msg error)).
Proof.
  intros w. unfold try_catch.
  destruct (m w) as [[[]|e] w1]; [now exists tt, w1 |].
  now exists tt, (record (ConsoleError msg e) w1).
Qed.

Lemma returns_bind {A B} (m : M A) (k : A -> M B) :
  returns m -> (forall a, returns (k a)) -> returns (bind m k).
Proof.
  intros Hm Hk w. unfold bind.
  destruct (Hm w) as (a & w1 & E). rewrite E. apply Hk.
Qed.

Lemma returns_emit e : returns (emit e).
Proof. intros w. now exists tt, (record e w). Qed.

Lemma returns_ret {A} (a : A) : returns (ret a).
Proof. intros w. now exists a, w. Qed.

Lemma returns_for_of {A} (xs : list A) (body : A -> M unit) :
  (forall x, returns (body x)) -> returns (for_of xs body).
Proof.
  intros Hb. induction xs as [|x xs IH]; simpl.
  - apply returns_ret.
  - apply returns_bind; [apply Hb | intros _; exact IH].
Qed.

(** A returning computation passes through an enclosing [try]. *)
Lemma try_catch_returned {A} (m : M A) (h : JsError -> M A) w a w' :
  m w = (Returned a, w') -> try_catch m h w = (Returned a, w').
Proof. intros E. unfold try_catch. now rewrite E. Qed.

(** *** The pipelines of the two Asana servers *)

Lemma final_pull_request_returns sv n o r c : returns (Final.processPullRequest sv n o r c).
Proof.
  unfold Final.processPullRequest.
  apply returns_bind; [apply returns_emit | intros _; apply logged_try_returns].
Qed.

Lemma final_task_returns sv taskId c : returns (Final.processAsanaTask sv taskId c).
Proof.
  unfold Final.processAsanaTask.
  apply returns_bind; [apply returns_emit | intros _; apply logged_try_returns].
Qed.

Lemma final_story_returns sv storyId : returns (Final.processAsanaStory sv storyId).
Proof.
  unfold Final.processAsanaStory.
  apply returns_bind; [apply returns_emit | intros _; apply logged_try_returns].
Qed.




Lemma final_pull_request_steady sv n o r c : steady (Final.processPullRequest sv n o r c).
Proof. unfold Final.processPullRequest. auto 20 with steady. Qed.

Lemma final_task_steady sv taskId c : steady (Final.processAsanaTask sv taskId c).
Proof.
  unfold Final.processAsanaTask, Final.getAsanaTaskDetails.
  apply steady_bind; [auto with steady | intros _].
  apply steady_try_catch; [| auto with steady].
  apply steady_bind; [auto with steady | intros td].
  apply steady_bind; [auto with steady | intros t].
  repeat apply steady_if; auto using final_pull_request_steady with steady.
Qed.

Lemma final_story_steady sv storyId : steady (Final.processAsanaStory sv storyId).
Proof.
  unfold Final.processAsanaStory, Final.getAsanaStoryDetails, Final.getAsanaTaskDetails.
  apply steady_bind; [auto with steady | intros _].
  apply steady_try_catch; [| auto with steady].
  apply steady_bind; [auto with steady | intros sd].
  apply steady_bind; [auto with steady | intros s].
  repeat apply steady_if; auto with steady.
  apply steady_bind; [auto with steady | intros _].
  apply final_task_steady.
Qed.

End PipelineFacts.

(** ** From a task to a pull request *)

Module TaskFacts.
Import Js Platform Resolver Statements StringFacts ResolverFacts PipelineFacts.
#[local] Arguments String.append !_ _ / : simpl nomatch.

Lemma github_url_at_found (q url : string) :
  github_url_at q = Some url ->
  exists run rest,
    q = url +:+ rest /\ url = "https://github.com/" +:+ run
    /\ truthy run = true /\ all_chars non_ws run = true /\ stops non_ws rest.
Proof.
  unfold github_url_at. intros H.
  destruct (strip_prefix "https://github.com/" q) as [s1|] eqn:E1; [| discriminate].
  destruct (span non_ws s1) as [run rest] eqn:E2.
  destruct (truthy run) eqn:T; [| discriminate].
  inversion H; subst url. exists run, rest.
  apply strip_prefix_inv in E1. pose proof (span_append _ _ _ _ E2) as A.
  repeat split; eauto using span_all, span_stops.
  subst q s1. reflexivity.
Qed.

Lemma github_url_at_none (q : string) :
  github_url_at q = None -> ~ starts_github_url q.
Proof.
  unfold github_url_at. intros H (c & rest & Hq & Hc). subst q.
  rewrite strip_prefix_append in H. simpl in H. rewrite Hc in H.
  destruct (span non_ws rest) as [run rest']. discriminate.
Qed.

(** The extracted URL is the first match of the extraction pattern: it
    starts with the literal, runs to the next whitespace, and no earlier
    index of the description starts a match. *)
Lemma extract_first (t : Task) (url : string) :
  extractPrUrlFromTask t = Some url ->
  exists pre run post,
    notes t = pre +:+ url +:+ post
    /\ url = "https://github.com/" +:+ run
    /\ truthy run = true /\ all_chars non_ws run = true /\ stops non_ws post
    /\ forall p q, notes t = p +:+ q -> String.length p < String.length pre ->
                   ~ starts_github_url q.
Proof.
  unfold extractPrUrlFromTask. intros H.
  destruct (search_found _ _ _ H) as (pre & suf & Hn & Hat & Hearly).
  destruct (github_url_at_found _ _ Hat) as (run & post & Hsuf & Hurl & T & A & S).
  exists pre, run, post. repeat split; auto.
  - now rewrite Hn, Hsuf.
  - intros p q Hpq Hlt. apply github_url_at_none. now apply (Hearly p q).
Qed.

Lemma extract_none (t : Task) :
  extractPrUrlFromTask t = None <->
  forall p q, notes t = p +:+ q -> ~ starts_github_url q.
Proof.
  unfold extractPrUrlFromTask. split.
  - intros H p q Hpq. apply github_url_at_none. now apply (search_nowhere _ _ H p q).
  - intros H. destruct (search github_url_at (notes t)) as [url|] eqn:E; [| reflexivity].
    destruct (search_found _ _ _ E) as (pre & suf & Hn & Hat & _).
    destruct (github_url_at_found _ _ Hat) as (run & post & Hsuf & Hurl & T & A & S).
    exfalso. apply (H pre suf Hn).
    destruct run as [|c run]; [discriminate |].
    exists c, (run +:+ post). split.
    + rewrite Hsuf, Hurl. now rewrite append_assoc.
    + rewrite all_chars_cons in A. now apply andb_true_iff in A as [A _].
Qed.

(** [processAsanaTask] of the final server, once the task is fetched, does
    what [resolve] says. *)
Lemma final_task_follows_resolution sv taskId context w t :
  (forall h, asana_task sv h taskId = Returned (Some t)) ->
  let w1 := record (AsanaGetTask taskId)
              (record (ConsoleLog ("Processing Asana Task #" +:+ taskId +:+ "..." +:+ nl)) w) in
  Final.processAsanaTask sv taskId context w =
  match resolve t with
  | Resolved o r n => Final.processPullRequest sv n o r context w1
  | NoTargetFound => console_log "No PR URL found in the task." w1
  | MalformedTarget => console_log "Invalid PR URL." w1
  end.
Proof.
  intros Ht w1.
  unfold Final.processAsanaTask, Final.getAsanaTaskDetails, bind, try_catch, call,
    console_log, emit, deref, ret.
  rewrite Ht. fold w1. unfold resolve.
  destruct (extractPrUrlFromTask t) as [url|]; simpl; [| reflexivity].
  destruct (truthy url); simpl; [| reflexivity].
  pose proof (parse_groups url) as P.
  destruct (search pull_at url) as [[[o r] n]|].
  - destruct P as (Hp & To & Tr & Tn & _). rewrite Hp.
    unfold invalid; simpl. rewrite To, Tr, Tn. simpl.
    destruct (final_pull_request_returns sv n o r context w1) as ([] & w2 & E).
    now rewrite E.
  - rewrite P. reflexivity.
Qed.

(** C7, the claim as stated fails: in this description the first substring of
    pull-request shape is the second URL, which the specification's resolver
    decomposes; the program takes the first GitHub URL, finds no pull
    request in it and rejects the task. *)
Lemma C7_first_github_url_shadows_pull_url :
  let description := "https://github.com/acme https://github.com/acme/widgets/pull/42" in
  spec_resolve description = Resolved "acme" "widgets" "42"
  /\ resolve (mkTask description [] "W1") = MalformedTarget.
Proof. split; reflexivity. Qed.

Lemma github_url_at_not_started (q : string) :
  ~ starts_github_url q -> github_url_at q = None.
Proof.
  intros Hno. destruct (github_url_at q) as [url|] eqn:E; [| reflexivity].
  exfalso. apply Hno.
  destruct (github_url_at_found _ _ E) as (run & rest & Hq & Hurl & T & A & _).
  destruct run as [|c run]; [discriminate T |].
  exists c, (run +:+ rest). split.
  - rewrite Hq, Hurl. now rewrite append_assoc.
  - rewrite all_chars_cons in A. now apply andb_true_iff in A as [A _].
Qed.

(** The first place where a GitHub URL starts is the place of the extracted
    URL, and the URL runs to the next whitespace. *)
Lemma extract_exact (t : Task) (pre run post : string) :
  notes t = pre +:+ "https://github.com/" +:+ run +:+ post ->
  truthy run = true -> all_chars non_ws run = true -> stops non_ws post ->
  (forall p q, notes t = p +:+ q -> String.length p < String.length pre ->
               ~ starts_github_url q) ->
  extractPrUrlFromTask t = Some ("https://github.com/" +:+ run).
Proof.
  intros Hn T A S Hfirst. unfold extractPrUrlFromTask. rewrite Hn.
  apply search_first.
  - unfold github_url_at. rewrite strip_prefix_append, (span_exact non_ws run post A S).
    now rewrite T.
  - intros p c q Hp. apply github_url_at_not_started. apply (Hfirst p).
    + rewrite Hn, Hp. now rewrite append_assoc.
    + rewrite Hp, length_append. simpl. lia.
Qed.

(** Resolution looks at the extracted URL and at nothing else. *)
Lemma resolve_of_extracted (t : Task) (url : string) :
  extractPrUrlFromTask t = Some url ->
  resolve t = match search pull_at url with
              | Some (o, r, n) => Resolved o r n
              | None => MalformedTarget
              end.
Proof.
  intros Hex. unfold resolve. rewrite Hex.
  destruct (extract_first t url Hex) as (_ & run & _ & _ & Hurl & _).
  assert (Tu : truthy url = true) by (rewrite Hurl; reflexivity).
  rewrite Tu. cbv beta iota delta [negb].
  pose proof (parse_groups url) as P.
  destruct (search pull_at url) as [[[o r] n]|].
  - destruct P as (Hp & To & Tr & Tn & _). rewrite Hp.
    unfold invalid; simpl. now rewrite To, Tr, Tn.
  - now rewrite P.
Qed.

Lemma resolve_no_target (t : Task) :
  resolve t = NoTargetFound <-> extractPrUrlFromTask t = None.
Proof.
  split.
  - intros H. destruct (extractPrUrlFromTask t) as [url|] eqn:Hex; [| reflexivity].
    rewrite (resolve_of_extracted t url Hex) in H.
    destruct (search pull_at url) as [[[o r] n]|]; discriminate H.
  - intros H. unfold resolve. now rewrite H.
Qed.

(** C7, amended.  Resolution takes the first substring that starts with
    [https://github.com/] and runs over at least one further character up to
    the next whitespace, whatever its shape: where such a substring starts
    first, that substring is extracted, and what is extracted is such a
    substring.  That substring alone is decomposed: when it is the URL of a
    pull request, possibly continued by something that does not begin with a
    digit, the task resolves to exactly its owner, repository and digit
    string; when it does not contain [/pull/], the task is rejected as
    malformed whatever follows in the description.  The sample description
    resolves to acme, widgets, 42.  A description is rejected as
    [NoTargetFound] exactly when no index of it starts such a substring, and
    the final server then logs that and does nothing else. *)
Theorem C7_resolution_takes_first_github_url :
  resolve sample_task = Resolved "acme" "widgets" "42"
  /\ (forall t pre run post,
        notes t = pre +:+ "https://github.com/" +:+ run +:+ post ->
        truthy run = true -> all_chars non_ws run = true -> stops non_ws post ->
        (forall p q, notes t = p +:+ q -> String.length p < String.length pre ->
                     ~ starts_github_url q) ->
        extractPrUrlFromTask t = Some ("https://github.com/" +:+ run))
  /\ (forall t url, extractPrUrlFromTask t = Some url ->
        exists pre run post,
          notes t = pre +:+ url +:+ post
          /\ url = "https://github.com/" +:+ run
          /\ truthy run = true /\ all_chars non_ws run = true /\ stops non_ws post
          /\ forall p q, notes t = p +:+ q -> String.length p < String.length pre ->
                         ~ starts_github_url q)
  /\ (forall t url, extractPrUrlFromTask t = Some url ->
        resolve t = match search pull_at url with
                    | Some (o, r, n) => Resolved o r n
                    | None => MalformedTarget
                    end)
  /\ (forall t o r n rest,
        extractPrUrlFromTask t
        = Some ("https://github.com/" +:+ o +:+ "/" +:+ r +:+ "/pull/" +:+ n +:+ rest) ->
        truthy o = true -> all_chars non_slash o = true ->
        truthy r = true -> all_chars non_slash r = true ->
        truthy n = true -> all_chars is_digit n = true ->
        stops is_digit rest ->
        resolve t = Resolved o r n)
  /\ (forall t url, extractPrUrlFromTask t = Some url ->
        includes url "/pull/" = false -> resolve t = MalformedTarget)
  /\ (forall t o r n, resolve t = Resolved o r n ->
        exists url pre rest,
          extractPrUrlFromTask t = Some url
          /\ url = pre +:+ "github.com/" +:+ o +:+ "/" +:+ r +:+ "/pull/" +:+ n +:+ rest
          /\ (forall p q, url = p +:+ q -> String.length p < String.length pre ->
                          pull_at q = None)
          /\ truthy o = true /\ all_chars non_slash o = true
          /\ truthy r = true /\ all_chars non_slash r = true
          /\ truthy n = true /\ all_chars is_digit n = true
          /\ stops is_digit rest)
  /\ (forall t, resolve t = NoTargetFound <->
                forall p q, notes t = p +:+ q -> ~ starts_github_url q)
  /\ (forall sv taskId context w t,
        (forall h, asana_task sv h taskId = Returned (Some t)) ->
        resolve t = NoTargetFound ->
        Final.processAsanaTask sv taskId context w =
        (Returned tt,
         mkWorld (trace w ++ [ConsoleLog ("Processing Asana Task #" +:+ taskId +:+ "..." +:+ nl);
                              AsanaGetTask taskId;
                              ConsoleLog "No PR URL found in the task."])
                 (processedEvents w))).
Proof.
  split; [reflexivity |].
  split; [exact extract_exact |].
  split; [exact extract_first |].
  split; [exact resolve_of_extracted |].
  split; [| split; [| split; [| split]]].
  - intros t o r n rest Hex To Ao Tr Ar Tn An Hrest.
    rewrite (resolve_of_extracted t _ Hex).
    change ("https://github.com/" +:+ o +:+ "/" +:+ r +:+ "/pull/" +:+ n +:+ rest)
      with ("https://" +:+ "github.com/" +:+ o +:+ "/" +:+ r +:+ "/pull/" +:+ n +:+ rest).
    rewrite (search_first pull_at "https://" _ (o, r, n)); [reflexivity | |].
    + now apply pull_at_exact.
    + intros p c q Hp.
      do 8 (destruct p as [|? p];
            [simpl in Hp; injection Hp as <- <-; reflexivity
            | simpl in Hp; injection Hp as <- Hp]).
      destruct p; discriminate Hp.
  - intros t url Hex Hinc.
    rewrite (resolve_of_extracted t url Hex).
    now rewrite (no_pull_without_segment url Hinc).
  - intros t o r n Hr.
    destruct (extractPrUrlFromTask t) as [url|] eqn:Hex.
    + rewrite (resolve_of_extracted t url Hex) in Hr.
      destruct (search pull_at url) as [[[o' r'] n']|] eqn:Es; [| discriminate Hr].
      inversion Hr; subst o' r' n'.
      destruct (search_found _ _ _ Es) as (pre & suf & Hu & Hat & Hfirst).
      destruct (pull_at_sound _ _ _ _ Hat)
        as (rest & Hsuf & To & Ao & Tr & Ar & Tn & An & Hrest).
      exists url, pre, rest. repeat split; auto. now rewrite Hu, Hsuf.
    + apply resolve_no_target in Hex. rewrite Hex in Hr. discriminate Hr.
  - intros t. rewrite resolve_no_target. apply extract_none.
  - intros sv taskId context w t Ht Hr.
    rewrite (final_task_follows_resolution sv taskId context w t Ht), Hr.
    unfold console_log, emit, record; simpl.
    now rewrite <- !app_assoc.
Qed.

(** C7 at a task whose description holds no URL, with a tracker that serves
    that task, and at a description in which the link to the repository
    comes before the link to the pull request. *)
Lemma C7_no_url_witness :
  let t := mkTask "ping me when ready" [] "W1" in
  let sv := mkServices (asana_story unreachable) (fun _ _ => Returned (Some t))
              (asana_tags unreachable) (asana_create_tag unreachable)
              (asana_add_tag unreachable) (github_authenticated unreachable)
              (github_pull unreachable) (github_comments unreachable)
              (github_diff unreachable) (openai_chat unreachable)
              (github_create_comment unreachable) in
  let shadowed :=
    mkTask "repo https://github.com/acme/widgets PR https://github.com/acme/widgets/pull/42"
           [] "W1" in
  Final.processAsanaTask sv "T9" None empty_world =
  (Returned tt,
   mkWorld [ConsoleLog ("Processing Asana Task #T9..." +:+ nl);
            AsanaGetTask "T9";
            ConsoleLog "No PR URL found in the task."] ∅)
  /\ extractPrUrlFromTask shadowed = Some ("https://github.com/" +:+ "acme/widgets")
  /\ resolve shadowed = MalformedTarget
  /\ resolve (mkTask "https://github.com/acme/widgets/pull/123/files now" [] "W1")
     = Resolved "acme" "widgets" "123".
Proof.
  intros t sv shadowed.
  destruct C7_resolution_takes_first_github_url
    as (_ & Hfirst & _ & _ & Hexact & Hmal & _ & _ & Hnone).
  split; [| split; [| split]].
  - apply (Hnone sv "T9" None empty_world t); [intros h; reflexivity | reflexivity].
  - apply (Hfirst shadowed "repo " "acme/widgets"
             " PR https://github.com/acme/widgets/pull/42"); try reflexivity.
    intros p q Hpq Hlen (c & rest & Hq & _). subst q.
    do 5 (destruct p as [|? p];
          [discriminate Hpq | simpl in Hpq; injection Hpq as <- Hpq]).
    simpl in Hlen. lia.
  - apply (Hmal shadowed "https://github.com/acme/widgets"); reflexivity.
  - apply (Hexact _ "acme" "widgets" "123" "/files"); reflexivity.
Defined.

End TaskFacts.

(** ** Mentions and instructions *)

Module MentionFacts.
Import Js Platform Prompt Statements StringFacts PipelineFacts.
#[local] Arguments String.append !_ _ / : simpl nomatch.

Lemma strip_prefix_ci_append (p r : string) : strip_prefix_ci p (p +:+ r) = Some r.
Proof.
  induction p as [|a p IH]; simpl; [reflexivity |].
  now rewrite Ascii.eqb_refl.
Qed.

Lemma span_whole f (s : string) : all_chars f s = true -> span f s = (s, "").
Proof.
  intros H. rewrite <- (append_empty_r s) at 1. now apply span_exact.
Qed.

(** A literal that has failed on [q] also fails on [q] followed by a character
    the literal does not contain. *)
Lemma literal_cannot_straddle (c : ascii) (p q y : string) :
  avoids c p = true ->
  strip_prefix_ci p q = None ->
  strip_prefix_ci p (q +:+ String c y) = None.
Proof.
  unfold avoids. revert q; induction p as [|b p IH]; intros q Hav H; simpl in *.
  - discriminate.
  - rewrite all_chars_cons in Hav. apply andb_true_iff in Hav as [Hb Hav].
    destruct q as [|d q]; simpl in *.
    + apply negb_true_iff in Hb. now rewrite Hb.
    + destruct (Ascii.eqb (canonicalize b) (canonicalize d)); [| reflexivity].
      now apply IH.
Qed.

(** The marker cannot begin inside [q] and end inside a marker that follows
    [q]: its first character occurs nowhere else in it. *)
Lemma marker_cannot_straddle (c : ascii) (q x : string) :
  strip_prefix_ci "@AsanaPRBot" (String c q) = None ->
  strip_prefix_ci "@AsanaPRBot" (String c q +:+ "@AsanaPRBot" +:+ x) = None.
Proof.
  intros H.
  change (strip_prefix_ci "@AsanaPRBot" (String c q)) with
    (if Ascii.eqb (canonicalize "@") (canonicalize c)
     then strip_prefix_ci "AsanaPRBot" q else None) in H.
  change (strip_prefix_ci "@AsanaPRBot" (String c q +:+ "@AsanaPRBot" +:+ x)) with
    (if Ascii.eqb (canonicalize "@") (canonicalize c)
     then strip_prefix_ci "AsanaPRBot" (q +:+ String "@" ("AsanaPRBot" +:+ x)) else None).
  destruct (Ascii.eqb (canonicalize "@") (canonicalize c)); [| reflexivity].
  apply literal_cannot_straddle; [reflexivity | exact H].
Qed.

Lemma bare_mention_found (pre ws : string) :
  mentions pre = false -> all_chars is_ws ws = true ->
  search Final.mention_at (pre +:+ "@AsanaPRBot" +:+ ws) = Some "".
Proof.
  intros Hpre Hws. apply search_first.
  - unfold Final.mention_at. rewrite strip_prefix_ci_append.
    rewrite (span_whole is_ws ws Hws). reflexivity.
  - intros p c q Hp. unfold Final.mention_at.
    rewrite marker_cannot_straddle; [reflexivity |].
    unfold mentions in Hpre.
    destruct (search (strip_prefix_ci "@AsanaPRBot") pre) eqn:E; [discriminate |].
    exact (search_nowhere _ _ E p (String c q) Hp).
Qed.

Lemma final_story_with_mention sv storyId target commentText w :
  (forall h, asana_story sv h storyId = Returned (Some (mkStory "comment" commentText target))) ->
  includes commentText "@AsanaPRBot" = true ->
  let w1 := record (AsanaGetStory storyId)
              (record (ConsoleLog ("Processing Asana Story #" +:+ storyId +:+ "..." +:+ nl)) w) in
  let w2 := record (AsanaGetTask target) w1 in
  Final.processAsanaStory sv storyId w =
  match asana_task sv (trace w2) target with
  | Returned _ => Final.processAsanaTask sv target (Final.instruction_of commentText) w2
  | Threw e =>
      (Returned tt, record (ConsoleError ("Error processing Asana Story #" +:+ storyId +:+ ":") e) w2)
  end.
Proof.
  intros Hs Hinc w1 w2.
  unfold Final.processAsanaStory, Final.getAsanaStoryDetails, Final.getAsanaTaskDetails,
    bind, try_catch, call, console_log, emit, deref, ret.
  rewrite Hs. simpl. rewrite Hinc. simpl.
  subst w1 w2. unfold record; simpl.
  destruct (asana_task sv _ target) as [td|e]; [| reflexivity].
  match goal with
  | |- context [Final.processAsanaTask ?a ?b ?c ?v] =>
      destruct (final_task_returns a b c v) as ([] & w3 & E); now rewrite E
  end.
Qed.

(** C10, the claim as stated fails: this comment triggers and contains the
    marker followed by nothing, yet the pattern, which ignores letter case,
    matches at the lower-case mention that comes first.  The instruction is
    the rest of the line, and the prompt is the one for an instruction. *)
Lemma C10_earlier_mention_gives_the_instruction :
  let commentText := "@asanaprbot fix this " +:+ "@AsanaPRBot" +:+ "" in
  includes commentText "@AsanaPRBot" = true
  /\ Final.instruction_of commentText = Some "fix this @AsanaPRBot"
  /\ (forall text,
        Final.finalPrompt (Final.instruction_of commentText) text
        = Final.instructedPrompt "fix this @AsanaPRBot" text)
  /\ Final.finalPrompt (Final.instruction_of commentText) ""
     <> Final.finalPrompt None "".
Proof.
  intros commentText. split; [reflexivity |]. split; [reflexivity |].
  split; [reflexivity |]. vm_compute. discriminate.
Qed.

(** C10, amended. When the comment ends with the marker and whitespace only, and the
    marker occurs nowhere before in any letter case, the comment triggers,
    the extracted instruction is the empty string, and from there on the
    pipeline is the one without instruction: the prompt is the review prompt,
    and [processPullRequest], [processAsanaTask] and the handling of the story
    coincide with their runs on [null]. *)
Theorem C10_bare_mention_is_no_instruction (pre ws : string) :
  mentions pre = false ->
  all_chars is_ws ws = true ->
  let commentText := pre +:+ "@AsanaPRBot" +:+ ws in
  includes commentText "@AsanaPRBot" = true
  /\ Final.instruction_of commentText = Some ""
  /\ (forall text, Final.finalPrompt (Some "") text = Final.reviewPrompt text)
  /\ (forall pr diff shown, prompt pr diff shown (Some "") = prompt pr diff shown None)
  /\ (forall sv n o r,
        Final.processPullRequest sv n o r (Some "") = Final.processPullRequest sv n o r None)
  /\ (forall sv taskId,
        Final.processAsanaTask sv taskId (Some "") = Final.processAsanaTask sv taskId None)
  /\ (forall sv storyId target w,
        (forall h, asana_story sv h storyId
                   = Returned (Some (mkStory "comment" commentText target))) ->
        (forall h, exists td, asana_task sv h target = Returned td) ->
        Final.processAsanaStory sv storyId w =
        Final.processAsanaTask sv target None
          (record (AsanaGetTask target)
             (record (AsanaGetStory storyId)
                (record (ConsoleLog ("Processing Asana Story #" +:+ storyId +:+ "..." +:+ nl))
                        w)))).
Proof.
  intros Hpre Hws commentText.
  assert (Hinc : includes commentText "@AsanaPRBot" = true).
  { unfold includes, commentText.
    destruct (search_succeeds (strip_prefix "@AsanaPRBot") pre ("@AsanaPRBot" +:+ ws) ws
                (strip_prefix_append _ _)) as (r' & E).
    now rewrite E. }
  assert (Hins : Final.instruction_of commentText = Some "").
  { unfold Final.instruction_of, commentText.
    now rewrite (bare_mention_found pre ws Hpre Hws). }
  repeat split; auto.
  intros sv storyId target w Hs Ht.
  rewrite (final_story_with_mention sv storyId target commentText w Hs Hinc).
  destruct (Ht (trace (record (AsanaGetTask target)
             (record (AsanaGetStory storyId)
                (record (ConsoleLog ("Processing Asana Story #" +:+ storyId +:+ "..." +:+ nl))
                        w))))) as (td & E).
  rewrite E, Hins. reflexivity.
Qed.

(** C10 at the comment [hey @AsanaPRBot] followed by two spaces. *)
Lemma C10_bare_mention_witness :
  includes ("hey " +:+ "@AsanaPRBot" +:+ "  ") "@AsanaPRBot" = true
  /\ Final.instruction_of ("hey " +:+ "@AsanaPRBot" +:+ "  ") = Some "".
Proof.
  destruct (C10_bare_mention_is_no_instruction "hey " "  " eq_refl eq_refl) as (H1 & H2 & _).
  exact (conj H1 H2).
Defined.

End MentionFacts.

(** ** The two Asana servers *)

Module ServerFacts.
Import Js Platform Prompt Statements StringFacts PipelineFacts.

Lemma returns_if {A} (b : bool) (m1 m2 : M A) :
  returns m1 -> returns m2 -> returns (if b then m1 else m2).
Proof. now destruct b. Qed.

Lemma returns_sismember key : returns (sismember key).
Proof. intros w. now eexists _, w. Qed.

Lemma returns_sadd key : returns (sadd key).
Proof. intros w. unfold sadd. now eexists tt, _. Qed.


Lemma final_event_returns sv event : returns (Final.handle_event sv event).
Proof.
  unfold Final.handle_event.
  apply returns_bind; [apply returns_sismember | intros isProcessed].
  apply returns_if; [apply returns_emit |].
  apply returns_bind; [apply returns_emit | intros _].
  repeat apply returns_if; try apply returns_emit.
  - apply returns_bind; [apply final_task_returns | intros _; apply returns_sadd].
  - apply returns_bind; [apply final_story_returns | intros _; apply returns_sadd].
Qed.

(** *** Deliveries as they arrive *)












(** *** The completion guard *)

Lemma bot_comment_exists (bot : string) (comments : list Comment) :
  (exists c, In c comments /\ user_login c = bot) ->
  Tagged.botCommentExists bot comments = true.
Proof.
  intros (c & Hin & Hlogin). unfold Tagged.botCommentExists.
  apply existsb_exists. exists c. split; [exact Hin |].
  now apply String.eqb_eq.
Qed.

(** C3, the claim as stated fails on the final server: the pull request
    carries a comment of the very account the credential belongs to, and
    [processPullRequest] calls the reasoning engine and publishes again. *)
Lemma C3_final_server_reviews_again :
  let sv := scripted (Returned tt) in
  let after := snd (Final.processPullRequest sv "42" "acme" "widgets" None empty_world) in
  github_authenticated sv [] = Returned "asana-pr-bot"
  /\ github_comments sv [] "acme" "widgets" "42" = Returned [own_comment]
  /\ user_login own_comment = "asana-pr-bot"
  /\ existsb is_reasoning (trace after) = true
  /\ existsb is_publication (trace after) = true.
Proof. repeat split; vm_compute; reflexivity. Qed.

(** C3, amended. In the server that resolves the bot's account from the
    credential, a pull request whose comment list holds a comment of that
    account is skipped: [processPullRequest] returns without a call of the
    reasoning engine and without creating a comment. *)
Theorem C3_guarded_pipeline_skips (sv : Services) (n o r : string)
    (context : option string) (w : World) (bot : string) (comments : list Comment) :
  (forall h, github_authenticated sv h = Returned bot) ->
  (forall h, github_comments sv h o r n = Returned comments) ->
  (exists c, In c comments /\ user_login c = bot) ->
  exists added,
    Tagged.processPullRequest sv n o r context w
    = (Returned tt, mkWorld (trace w ++ added) (processedEvents w))
    /\ existsb is_reasoning added = false
    /\ existsb is_publication added = false.
Proof.
  intros Hauth Hcomments Hown.
  unfold Tagged.processPullRequest, Tagged.getGitHubBotUsername, bind, try_catch, call,
    console_log, console_error, emit, ret, record; simpl.
  rewrite Hauth.
  destruct (github_pull sv _ o r n) as [pr|e].
  - rewrite Hcomments, (bot_comment_exists bot comments Hown).
    simpl. repeat rewrite <- app_assoc. simpl.
    eexists. split; [reflexivity |]. split; reflexivity.
  - simpl. repeat rewrite <- app_assoc. simpl.
    eexists. split; [reflexivity |]. split; reflexivity.
Qed.

(** C3 at the scripted pull request, which carries a comment of the bot. *)
Lemma C3_guarded_pipeline_witness :
  exists added,
    Tagged.processPullRequest (scripted (Returned tt)) "42" "acme" "widgets" None empty_world
    = (Returned tt, mkWorld (trace empty_world ++ added) (processedEvents empty_world))
    /\ existsb is_reasoning added = false
    /\ existsb is_publication added = false.
Proof.
  apply (C3_guarded_pipeline_skips (scripted (Returned tt)) "42" "acme" "widgets" None
           empty_world "asana-pr-bot" [own_comment]).
  - intros h; reflexivity.
  - intros h; reflexivity.
  - exists own_comment. split; [left; reflexivity | reflexivity].
Defined.

End ServerFacts.

(** ** What the reasoning engine is shown, and what is marked *)

Module ContextFacts.
Import Js Platform Prompt Statements StringFacts PipelineFacts.

Lemma human_comments_spec (bot : string) (comments : list Comment) (c : Comment) :
  In c (Tagged.humanComments bot comments) <->
  In c comments /\ user_type c <> "Bot" /\ user_login c <> bot.
Proof.
  unfold Tagged.humanComments. rewrite filter_In, andb_true_iff, !negb_true_iff.
  rewrite !String.eqb_neq. tauto.
Qed.

Lemma tagged_prompt sv n o r context w bot pr comments diff :
  (forall h, github_authenticated sv h = Returned bot) ->
  (forall h, github_pull sv h o r n = Returned pr) ->
  (forall h, github_comments sv h o r n = Returned comments) ->
  (forall h, github_diff sv h o r n = Returned diff) ->
  exists added,
    trace (snd (Tagged.processPullRequest sv n o r context w)) = trace w ++ added
    /\ forall model text, In (OpenAIChat model text) added ->
         text = Tagged.finalPrompt (prompt pr diff (Tagged.humanComments bot comments) context).
Proof.
  intros Hauth Hpull Hcomments Hdiff.
  unfold Tagged.processPullRequest, Tagged.getGitHubBotUsername, bind, try_catch, call,
    console_log, console_error, emit, ret, record; simpl.
  rewrite Hauth, Hpull, Hcomments.
  destruct (Tagged.botCommentExists bot comments).
  - simpl. repeat rewrite <- app_assoc. simpl. eexists. split; [reflexivity |].
    intros model text H. reasoning_calls H.
  - rewrite Hdiff.
    destruct (openai_chat sv _ _ _) as [ai|e1].
    + destruct (github_create_comment sv _ o r n ai) as [[]|e2];
        simpl; repeat rewrite <- app_assoc; simpl; (eexists; split; [reflexivity |]);
        intros model text H; reasoning_calls H; reflexivity.
    + simpl. repeat rewrite <- app_assoc. simpl. eexists. split; [reflexivity |].
      intros model text H. reasoning_calls H. reflexivity.
Qed.

Lemma final_prompt sv n o r context w pr comments diff :
  (forall h, github_pull sv h o r n = Returned pr) ->
  (forall h, github_comments sv h o r n = Returned comments) ->
  (forall h, github_diff sv h o r n = Returned diff) ->
  exists added,
    trace (snd (Final.processPullRequest sv n o r context w)) = trace w ++ added
    /\ forall model text, In (OpenAIChat model text) added ->
         text = Final.finalPrompt context (prompt pr diff comments context).
Proof.
  intros Hpull Hcomments Hdiff.
  unfold Final.processPullRequest, bind, try_catch, call,
    console_log, console_error, emit, ret, record; simpl.
  rewrite Hpull, Hcomments, Hdiff.
  destruct (openai_chat sv _ _ _) as [ai|e1].
  - destruct (github_create_comment sv _ o r n _) as [[]|e2];
      simpl; repeat rewrite <- app_assoc; simpl; (eexists; split; [reflexivity |]);
      intros model text H; reasoning_calls H; reflexivity.
  - simpl. repeat rewrite <- app_assoc. simpl. eexists. split; [reflexivity |].
    intros model text H. reasoning_calls H. reflexivity.
Qed.

(** C4, the claim as stated fails on the final server: the prompt it sends
    quotes the comment of the acting account. *)
Lemma C4_final_prompt_quotes_own_comment :
  let sv := scripted (Returned tt) in
  let after := snd (Final.processPullRequest sv "42" "acme" "widgets" None empty_world) in
  github_authenticated sv [] = Returned (user_login own_comment)
  /\ commentsSection [own_comment]
     = "**Comments:**" +:+ nl +:+ "- **asana-pr-bot:** Looks fine to me." +:+ nl +:+ nl
  /\ existsb (fun e => match e with
                       | OpenAIChat _ text => includes text (comment_line own_comment)
                       | _ => false
                       end) (trace after) = true.
Proof. repeat split; vm_compute; reflexivity. Qed.

(** C4, amended. The server with the completion guard composes the comments
    of the prompt from [humanComments]: exactly the fetched comments whose
    author is not of type Bot and is not the acting account.  The final
    server composes them from every fetched comment. *)
Theorem C4_comments_of_the_prompt (sv : Services) (n o r : string)
    (context : option string) (w : World) (bot : string) (pr : PullRequest)
    (comments : list Comment) (diff : string) :
  (forall h, github_authenticated sv h = Returned bot) ->
  (forall h, github_pull sv h o r n = Returned pr) ->
  (forall h, github_comments sv h o r n = Returned comments) ->
  (forall h, github_diff sv h o r n = Returned diff) ->
  (forall c, In c (Tagged.humanComments bot comments) <->
             In c comments /\ user_type c <> "Bot" /\ user_login c <> bot)
  /\ (exists added,
        trace (snd (Tagged.processPullRequest sv n o r context w)) = trace w ++ added
        /\ forall model text, In (OpenAIChat model text) added ->
             text = Tagged.finalPrompt
                      (prompt pr diff (Tagged.humanComments bot comments) context))
  /\ (exists added,
        trace (snd (Final.processPullRequest sv n o r context w)) = trace w ++ added
        /\ forall model text, In (OpenAIChat model text) added ->
             text = Final.finalPrompt context (prompt pr diff comments context)).
Proof.
  intros Hauth Hpull Hcomments Hdiff.
  split; [apply human_comments_spec |].
  split; [now apply tagged_prompt | now apply final_prompt].
Qed.

(** C4 at a pull request with one comment by a person and one by a Bot
    account, served to both servers. *)
Lemma C4_comments_witness :
  let person := mkComment "dana" "User" "Please add a test." in
  let robot := mkComment "ci-runner" "Bot" "Build passed." in
  In person (Tagged.humanComments "asana-pr-bot" [person; robot]) <->
  In person [person; robot]
  /\ user_type person <> "Bot" /\ user_login person <> "asana-pr-bot".
Proof.
  intros person robot.
  pose (sv := mkServices (asana_story unreachable) (asana_task unreachable)
                (asana_tags unreachable) (asana_create_tag unreachable)
                (asana_add_tag unreachable) (fun _ => Returned "asana-pr-bot")
                (fun _ _ _ _ => Returned sample_pull)
                (fun _ _ _ _ => Returned [person; robot])
                (fun _ _ _ _ => Returned "+cache") (openai_chat unreachable)
                (github_create_comment unreachable)).
  apply (C4_comments_of_the_prompt sv "42" "acme" "widgets" None empty_world
           "asana-pr-bot" sample_pull [person; robot] "+cache");
    intros h; reflexivity.
Defined.

(** C2, on a failing publication. The pull request is fresh, every service
    works, and the creation of the comment fails.  [processPullRequest]
    catches the error and returns; the server with the tag witness then
    attaches the processed tag to the task, and the final server adds the
    event key to [processedEvents]. *)
Theorem C2_failed_publication_still_marks :
  let sv := fresh (Threw (RequestFailed "network")) in
  let tagged := snd (Tagged.processAsanaTask sv "T1" None empty_world) in
  let final := snd (Final.webhook sv (Final.mkRequest None (Some [task_added "T1"]))
                      empty_world) in
  List.filter (fun e => negb (is_reasoning e)) (trace tagged)
  = [ConsoleLog ("Processing Asana Task #T1..." +:+ nl);
     AsanaGetTask "T1";
     ConsoleLog ("Processing PR #42 in acme/widgets..." +:+ nl);
     GithubGetAuthenticated;
     GithubGetPull "acme" "widgets" "42";
     GithubListComments "acme" "widgets" "42";
     GithubGetDiff "acme" "widgets" "42";
     GithubCreateComment "acme" "widgets" "42" "Ship it.";
     ConsoleError "Error processing PR #42:" (RequestFailed "network");
     AsanaGetTask "T1";
     AsanaListTags "W1";
     AsanaAddTag "T1" "G1"]
  /\ existsb is_tag_attachment (trace tagged) = true
  /\ In (ConsoleError "Error processing PR #42:" (RequestFailed "network")) (trace final)
  /\ processedEvents final = {[ "T1" ]}.
Proof.
  split; [vm_compute; reflexivity |].
  split; [vm_compute; reflexivity |].
  split.
  - vm_compute. do 10 right. left. reflexivity.
  - apply set_eq. intros x. vm_compute. tauto.
Qed.

End ContextFacts.

(** ** The ledger under concurrent deliveries *)

Module LedgerFacts.
Import Js Platform Statements Observations PipelineFacts Interleaving.

Lemma processing_keeps_ledger sv event w :
  processedEvents (snd (processing sv event w)) = processedEvents w.
Proof.
  unfold processing.
  destruct (Final.is_task_added event);
    [apply (final_task_steady sv _ None w) | apply (final_story_steady sv _ w)].
Qed.

Lemma let_through_once key : let_through key (mkDelivery [] AwaitSismember [(key, false)]) = true.
Proof. unfold let_through; simpl. now rewrite String.eqb_refl. Qed.

Lemma at_phase_grows key event (store store' : gset string) d :
  store ⊆ store' -> at_phase key event store d -> at_phase key event store' d.
Proof.
  intros Hsub [H|[H|[H|[H|[H Hin]]]]]; unfold at_phase; auto 6.
  do 4 right. split; [exact H | set_solver].
Qed.

(** One turn of a delivery of [event], from any phase. *)
Lemma advance_phase sv key event d w :
  key = gid (resource event) ->
  at_phase key event (processedEvents w) d ->
  let '(d', w') := advance sv d w in
  at_phase key event (processedEvents w') d'
  /\ processedEvents w ⊆ processedEvents w'
  /\ (let_through key d = true -> let_through key d' = true)
  /\ (key ∈ processedEvents w' -> key ∈ processedEvents w \/ let_through key d' = true).
Proof.
  intros -> [H|[H|[H|[H|[H Hin]]]]]; subst d; unfold advance; simpl.
  - destruct (bool_decide (gid (resource event) ∈ processedEvents w)) eqn:B.
    + apply bool_decide_eq_true in B. simpl. unfold at_phase.
      repeat split; auto 7. intros Ha; discriminate Ha.
    + simpl.
      destruct (Final.is_task_added event || Final.is_comment_added event); simpl;
        unfold at_phase; (repeat split; auto 7); intros _;
        unfold let_through; simpl; now rewrite String.eqb_refl.
  - rewrite processing_keeps_ledger. unfold at_phase. repeat split; auto 7.
  - unfold at_phase. simpl. repeat split; auto 7; [set_solver |].
    intros _. right. apply let_through_once.
  - unfold at_phase. repeat split; auto 7.
  - unfold at_phase. repeat split; auto 7.
Qed.
























End LedgerFacts.

(** ** The GitHub-App server *)

Module GithubFacts.
Import Js Platform GithubApp Statements.

(** The hook itself accepts exactly the requests whose signature header is
    the digest of the raw body. *)
Lemma verifySignature_accepts (cr : Crypto) (req : Request) (buf : string) :
  verifySignature cr req buf = Returned tt <->
  x_hub_signature_256 req = Some (digest_of cr buf).
Proof.
  unfold verifySignature.
  destruct (bool_decide (x_hub_signature_256 req ≠ Some (digest_of cr buf))) eqn:B.
  - apply bool_decide_eq_true in B. split; [discriminate | contradiction].
  - apply bool_decide_eq_false in B. split; [intros _ | reflexivity].
    destruct (decide (x_hub_signature_256 req = Some (digest_of cr buf))) as [E|N];
      [exact E | contradiction].
Qed.

(** A body parser that comes first and verifies nothing leaves nothing for
    the verifying parser to do: whatever the signature header, a request with
    a JSON body reaches the route. *)
Lemma app_ignores_signature (cr : Crypto) (req : Request) (payload : Payload) (w : World) :
  has_json_body req = true ->
  document req = Some payload ->
  app cr req w = route req payload w.
Proof.
  intros Hjson Hdoc. unfold app, express_json; simpl.
  rewrite Hjson, Hdoc; simpl. reflexivity.
Qed.

(** C5, on a request without signature header. The hook rejects such a
    request, and the verifying parser alone would answer 403; the application
    as registered parses the body with the parser that comes first, skips the
    verifying one, and processes the event. *)
Theorem C5_unsigned_request_is_processed (cr : Crypto) (raw : string) (w : World) :
  let payload := mkPayload (Some "review_requested") (Some (mkPullRef 42))
                   (Some (mkRepository "acme" "widgets")) (Some (mkReviewer "haghdaee")) in
  let req := mkRequest None (Some "pull_request") true raw (Some payload) in
  verifySignature cr req raw = Threw (PlainError "Invalid signature")
  /\ express_json (Some (verifySignature cr)) req (mkParsing None false)
     = Rejected 403 (PlainError "Invalid signature")
  /\ app cr req w
     = (Returned (mkResponse 200 [] (Some "Processed pull request.")),
        mkWorld (trace w ++ [ConsoleLog ("Processing PR #42..." +:+ nl);
                             ConsoleError "Error processing PR #42:"
                                          (ReferenceError "INSTALLATION_ID")])
                (processedEvents w)).
Proof.
  intros payload req. split; [reflexivity |]. split; [reflexivity |].
  unfold app, express_json; simpl.
  unfold route, processPullRequest, bind, try_catch, throw, deref, ret, console_log,
    console_error, emit, record; simpl.
  now rewrite <- app_assoc.
Qed.

(** C6. For a [review_requested] event of a pull request, the route calls
    [processPullRequest] exactly when the login of the requested reviewer is
    the configured identity; in every other case it leaves the world as it
    found it, answering 200 when a reviewer of another name was requested. *)
Theorem C6_only_the_configured_reviewer (req : Request) (payload : Payload)
    (pr : PullRef) (rp : Repository) (w : World) :
  x_github_event req = Some "pull_request" ->
  action payload = Some "review_requested" ->
  pull_request payload = Some pr ->
  repository payload = Some rp ->
  let processed :=
    (Returned (mkResponse 200 [] (Some "Processed pull request.")),
     snd (processPullRequest (pull_number pr) (repository_owner_login rp)
                             (repository_name rp) w)) in
  (route req payload w = processed <->
   exists rv, requested_reviewer payload = Some rv /\ login rv = reviewer_identity)
  /\ (route req payload w <> processed -> snd (route req payload w) = w)
  /\ (forall rv, requested_reviewer payload = Some rv -> login rv <> reviewer_identity ->
        route req payload w
        = (Returned (mkResponse 200 [] (Some "Not the correct reviewer.")), w)).
Proof.
  intros Hev Hact Hpr Hrp processed.
  assert (Hrun : forall rv, requested_reviewer payload = Some rv ->
                   login rv = reviewer_identity -> route req payload w = processed).
  { intros rv Hrv Hlogin. unfold route, processed.
    rewrite Hev, Hact, Hpr, Hrp, Hrv; simpl.
    unfold bind, deref, ret; simpl. rewrite Hlogin, String.eqb_refl; simpl.
    unfold processPullRequest, bind, try_catch, throw, console_log, console_error, emit.
    reflexivity. }
  assert (Hno : forall rv, requested_reviewer payload = Some rv ->
                  login rv <> reviewer_identity ->
                  route req payload w
                  = (Returned (mkResponse 200 [] (Some "Not the correct reviewer.")), w)).
  { intros rv Hrv Hlogin. unfold route.
    rewrite Hev, Hact, Hpr, Hrp, Hrv; simpl.
    unfold bind, deref, ret; simpl.
    apply String.eqb_neq in Hlogin. now rewrite Hlogin. }
  assert (Hnone : requested_reviewer payload = None ->
                  route req payload w
                  = (Threw (TypeError "payload.requested_reviewer.login"), w)).
  { intros Hrv. unfold route.
    rewrite Hev, Hact, Hpr, Hrp, Hrv; simpl. reflexivity. }
  split; [split |]; [| | split].
  - intros Hp. destruct (requested_reviewer payload) as [rv|] eqn:Hrv.
    + destruct (String.eqb_spec (login rv) reviewer_identity) as [E|N]; [eauto |].
      rewrite (Hno rv eq_refl N) in Hp. discriminate Hp.
    + rewrite (Hnone eq_refl) in Hp. discriminate Hp.
  - intros (rv & Hrv & Hlogin). now apply (Hrun rv).
  - intros Hp. destruct (requested_reviewer payload) as [rv|] eqn:Hrv.
    + destruct (String.eqb_spec (login rv) reviewer_identity) as [E|N].
      * exfalso. apply Hp. now apply (Hrun rv).
      * now rewrite (Hno rv eq_refl N).
    + now rewrite (Hnone eq_refl).
  - exact Hno.
Qed.

(** C6 at a request for review by [haghdaee]. *)
Lemma C6_configured_reviewer_witness :
  let payload := mkPayload (Some "review_requested") (Some (mkPullRef 7))
                   (Some (mkRepository "acme" "widgets")) (Some (mkReviewer "haghdaee")) in
  let req := mkRequest None (Some "pull_request") true "" (Some payload) in
  route req payload empty_world
  = (Returned (mkResponse 200 [] (Some "Processed pull request.")),
     snd (processPullRequest 7 "acme" "widgets" empty_world)).
Proof.
  intros payload req.
  destruct (C6_only_the_configured_reviewer req payload (mkPullRef 7)
              (mkRepository "acme" "widgets") empty_world
              eq_refl eq_refl eq_refl eq_refl) as ((_ & H) & _).
  apply H. exists (mkReviewer "haghdaee"). split; reflexivity.
Defined.

End GithubFacts.

(** ** Round trips of target resolution *)

Module RoundTripFacts.
Import Js Platform Resolver Statements Observations StringFacts ResolverFacts TaskFacts.
#[local] Arguments String.append !_ _ / : simpl nomatch.

Lemma all_chars_append f (a b : string) :
  all_chars f (a +:+ b) = all_chars f a && all_chars f b.
Proof.
  induction a as [|c a IH]; simpl; [reflexivity |].
  rewrite !all_chars_cons, IH. now rewrite andb_assoc.
Qed.

Lemma search_here {A : Type} (try_at : string -> option A) (s : string) (r : A) :
  try_at s = Some r -> search try_at s = Some r.
Proof. intros H. destruct s; simpl; now rewrite H. Qed.

Lemma search_skip {A : Type} (try_at : string -> option A) (c : ascii) (s : string) :
  try_at (String c s) = None -> search try_at (String c s) = search try_at s.
Proof. intros H. simpl. now rewrite H. Qed.

Lemma search_past_scheme (x : string) (g : string * string * string) :
  pull_at x = Some g -> search pull_at ("https://" +:+ x) = Some g.
Proof.
  intros H. cbn [String.append].
  do 8 (rewrite search_skip; [| reflexivity]).
  now apply search_here.
Qed.

Lemma pull_url_unfold (o r n rest : string) :
  pull_url o r n +:+ rest
  = "https://" +:+ "github.com/" +:+ o +:+ "/" +:+ r +:+ "/pull/" +:+ n +:+ rest.
Proof.
  unfold pull_url.
  change "https://github.com/" with ("https://" +:+ "github.com/").
  now rewrite !append_assoc.
Qed.

Lemma parse_pull_url_exact (o r n rest : string) :
  truthy o = true -> all_chars non_slash o = true ->
  truthy r = true -> all_chars non_slash r = true ->
  truthy n = true -> all_chars is_digit n = true ->
  stops is_digit rest ->
  parseGithubUrl (pull_url o r n +:+ rest) = mkParsed (Some o) (Some r) (Some n).
Proof.
  intros To Ao Tr Ar Tn An Hrest. unfold parseGithubUrl.
  rewrite pull_url_unfold.
  rewrite (search_past_scheme _ (o, r, n)); [reflexivity |].
  apply (pull_at_exact o r n rest); assumption.
Qed.

(** X1. Parsing the URL of a pull request, with or without a trailing part
    that does not begin with a digit, gives back owner, repository and
    number. *)
Theorem parse_pull_url_round_trip (o r n rest : string) :
  truthy o = true -> all_chars non_slash o = true ->
  truthy r = true -> all_chars non_slash r = true ->
  truthy n = true -> all_chars is_digit n = true ->
  stops is_digit rest ->
  parseGithubUrl (pull_url o r n +:+ rest) = mkParsed (Some o) (Some r) (Some n).
Proof. apply parse_pull_url_exact. Qed.

(** X1 at a URL that continues into the list of changed files. *)
Lemma parse_pull_url_round_trip_witness :
  parseGithubUrl (pull_url "acme" "widgets" "42" +:+ "/files")
  = mkParsed (Some "acme") (Some "widgets") (Some "42").
Proof.
  apply (parse_pull_url_round_trip "acme" "widgets" "42" "/files"); reflexivity.
Defined.

Lemma digit_is_not_whitespace (c : ascii) : is_digit c = true -> non_ws c = true.
Proof.
  destruct c as [[] [] [] [] [] [] [] []]; intros H; try discriminate H; reflexivity.
Qed.

Lemma all_chars_weaken (f g : ascii -> bool) (s : string) :
  (forall c, f c = true -> g c = true) -> all_chars f s = true -> all_chars g s = true.
Proof.
  intros Hfg. induction s as [|c s IH]; [reflexivity |].
  rewrite !all_chars_cons, !andb_true_iff. intros [Hc Hs]. auto.
Qed.

Lemma ends_ws_suffix (p q : string) (c : ascii) :
  ends_ws (p +:+ String c q) = ends_ws (String c q).
Proof.
  induction p as [|a p IH]; [reflexivity |].
  cbn [String.append]. rewrite <- IH.
  destruct (p +:+ String c q) eqn:E; [| reflexivity].
  destruct p; discriminate E.
Qed.

(** A literal without whitespace that has failed on a string ending in
    whitespace fails on every extension of that string. *)
Lemma literal_blocked_by_whitespace (p q x : string) :
  all_chars non_ws p = true -> ends_ws q = true ->
  strip_prefix p q = None -> strip_prefix p (q +:+ x) = None.
Proof.
  revert q. induction p as [|a p IH]; intros q Hp Hq H; [discriminate H |].
  destruct q as [|b q]; [discriminate Hq |].
  cbn [String.append]. simpl in H |- *.
  destruct (Ascii.eqb a b) eqn:E; [| reflexivity].
  rewrite all_chars_cons in Hp. apply andb_true_iff in Hp as [Ha Hp].
  destruct q as [|b' q].
  - apply Ascii.eqb_eq in E; subst b. simpl in Hq. unfold non_ws in Ha.
    rewrite Hq in Ha. discriminate Ha.
  - apply IH; auto.
Qed.

Lemma no_url_before_whitespace (q x : string) :
  ends_ws q = true -> github_url_at q = None -> github_url_at (q +:+ x) = None.
Proof.
  intros Hq H. unfold github_url_at in *.
  destruct (strip_prefix "https://github.com/" q) as [rest|] eqn:E.
  - apply strip_prefix_inv in E. subst q. rewrite append_assoc, strip_prefix_append.
    destruct rest as [|c rest].
    + discriminate Hq.
    + simpl in H |- *. destruct (non_ws c); [| reflexivity].
      destruct (span non_ws rest); discriminate H.
  - now rewrite (literal_blocked_by_whitespace "https://github.com/" q x eq_refl Hq E).
Qed.

(** X2. A description that holds the URL of a pull request as its first
    GitHub URL, set off by whitespace, resolves to the owner, repository and
    number of that URL; a trailing part of the URL such as [/files] does not
    matter. *)
Theorem resolve_round_trip (pre o r n tail post : string) (tgs : list Tag) (wsp : string) :
  pre = "" \/ ends_ws pre = true ->
  search github_url_at pre = None ->
  truthy o = true -> all_chars non_slash o = true -> all_chars non_ws o = true ->
  truthy r = true -> all_chars non_slash r = true -> all_chars non_ws r = true ->
  truthy n = true -> all_chars is_digit n = true ->
  all_chars non_ws tail = true -> stops is_digit tail -> stops non_ws post ->
  let t := mkTask (pre +:+ pull_url o r n +:+ tail +:+ post) tgs wsp in
  extractPrUrlFromTask t = Some (pull_url o r n +:+ tail)
  /\ resolve t = Resolved o r n.
Proof.
  intros Hpre Hnone To So Wo Tr Sr Wr Tn Dn Wt Dt Hpost t.
  set (run := o +:+ "/" +:+ r +:+ "/pull/" +:+ n +:+ tail).
  assert (Hurl : pull_url o r n +:+ tail = "https://github.com/" +:+ run).
  { unfold pull_url, run. now rewrite !append_assoc. }
  assert (Hrun : all_chars non_ws run = true).
  { unfold run. rewrite !all_chars_append, Wo, Wr, Wt.
    rewrite (all_chars_weaken _ _ n digit_is_not_whitespace Dn). reflexivity. }
  assert (Hex : extractPrUrlFromTask t = Some (pull_url o r n +:+ tail)).
  { unfold extractPrUrlFromTask, t; cbn [notes].
    replace (pull_url o r n +:+ tail +:+ post) with ((pull_url o r n +:+ tail) +:+ post)
      by now rewrite append_assoc.
    apply search_first.
    - rewrite Hurl, append_assoc. unfold github_url_at.
      rewrite strip_prefix_append, (span_exact non_ws run post Hrun Hpost).
      unfold run at 1. now rewrite (truthy_append_l o _ To).
    - intros p c q Hp. destruct Hpre as [He|Hw].
      + subst pre. destruct p; discriminate Hp.
      + apply no_url_before_whitespace.
        * rewrite Hp, ends_ws_suffix in Hw. exact Hw.
        * exact (search_nowhere _ _ Hnone p (String c q) Hp). }
  split; [exact Hex |].
  unfold resolve. rewrite Hex.
  assert (Tu : truthy (pull_url o r n +:+ tail) = true) by now rewrite Hurl.
  rewrite Tu. cbv beta iota delta [negb].
  rewrite (parse_pull_url_exact o r n tail To So Tr Sr Tn Dn Dt).
  unfold invalid; simpl. now rewrite To, Tr, Tn.
Qed.

(** X2 at the description of the scenario, continued into the files view. *)
Lemma resolve_round_trip_witness :
  resolve (mkTask ("see " +:+ pull_url "acme" "widgets" "42" +:+ "/files" +:+ " for details")
                  [] "W1")
  = Resolved "acme" "widgets" "42".
Proof.
  apply (resolve_round_trip "see " "acme" "widgets" "42" "/files" " for details" [] "W1");
    try reflexivity.
  right; reflexivity.
Defined.

End RoundTripFacts.

(** ** The instruction of a comment *)

Module InstructionFacts.
Import Js Platform Statements Observations StringFacts MentionFacts RoundTripFacts.
#[local] Arguments String.append !_ _ / : simpl nomatch.

Lemma all_chars_trim_start f (s : string) :
  all_chars f s = true -> all_chars f (trim_start s) = true.
Proof.
  unfold trim_start. destruct (span is_ws s) as [run rest] eqn:E. simpl.
  rewrite (span_append _ _ _ _ E), all_chars_append, andb_true_iff. tauto.
Qed.

Lemma all_chars_trim_end f (s : string) :
  all_chars f s = true -> all_chars f (trim_end s) = true.
Proof.
  induction s as [|c s IH]; [reflexivity |].
  rewrite all_chars_cons, andb_true_iff. intros [Hc Hs]. simpl.
  destruct (trim_end s) as [|d u] eqn:E.
  - destruct (is_ws c); [reflexivity |]. now rewrite all_chars_cons, Hc.
  - rewrite all_chars_cons, Hc. now apply IH.
Qed.

Lemma trim_start_starts (s : string) : starts_ws (trim_start s) = false.
Proof.
  unfold trim_start. destruct (span is_ws s) as [run rest] eqn:E. simpl.
  pose proof (span_stops _ _ _ _ E) as S. destruct rest; [reflexivity | exact S].
Qed.

Lemma trim_end_starts (s : string) : starts_ws s = false -> starts_ws (trim_end s) = false.
Proof.
  destruct s as [|c s]; [reflexivity |]. simpl. intros Hc.
  destruct (trim_end s); [now rewrite Hc | exact Hc].
Qed.

Lemma trim_end_ends (s : string) : ends_ws (trim_end s) = false.
Proof.
  induction s as [|c s IH]; [reflexivity |]. simpl.
  destruct (trim_end s) as [|d u] eqn:E.
  - destruct (is_ws c) eqn:W; [reflexivity | exact W].
  - exact IH.
Qed.

Lemma mention_group_on_one_line (s g : string) :
  Final.mention_at s = Some g -> all_chars non_terminator g = true.
Proof.
  unfold Final.mention_at. intros H.
  destruct (strip_prefix_ci "@AsanaPRBot" s) as [rest|]; [| discriminate H].
  destruct (span is_ws rest) as [gap after].
  destruct (span non_terminator after) as [g1 tl] eqn:E.
  inversion H; subst g1. exact (span_all _ _ _ _ E).
Qed.

(** A comment that contains the marker is matched by the pattern. *)
Lemma included_marker_matches (commentText : string) :
  includes commentText "@AsanaPRBot" = true ->
  exists g,
    search Final.mention_at commentText = Some g
    /\ all_chars non_terminator g = true.
Proof.
  unfold includes. intros H.
  destruct (search (strip_prefix "@AsanaPRBot") commentText) as [x|] eqn:E;
    [| discriminate H].
  destruct (search_found _ _ _ E) as (pre & suf & Ht & Hat & _).
  apply strip_prefix_inv in Hat. subst suf.
  assert (Hm : exists g, Final.mention_at ("@AsanaPRBot" +:+ x) = Some g).
  { unfold Final.mention_at. rewrite strip_prefix_ci_append.
    destruct (span is_ws x) as [gap after].
    destruct (span non_terminator after) as [g1 tl]. now exists g1. }
  destruct Hm as (g & Hg).
  destruct (search_succeeds Final.mention_at pre _ _ Hg) as (g' & Hs).
  rewrite <- Ht in Hs.
  destruct (search_found _ _ _ Hs) as (_ & suf' & _ & Hat' & _).
  exists g'. split; [exact Hs | exact (mention_group_on_one_line _ _ Hat')].
Qed.

(** X3. A comment that contains the marker always yields an instruction, so
    the [null] of [processAsanaStory] is never passed on; the instruction
    fits on one line and neither begins nor ends with whitespace. *)
Theorem triggering_comment_has_instruction (commentText : string) :
  includes commentText "@AsanaPRBot" = true ->
  exists instruction,
    Final.instruction_of commentText = Some instruction
    /\ all_chars non_terminator instruction = true
    /\ starts_ws instruction = false
    /\ ends_ws instruction = false.
Proof.
  intros H. destruct (included_marker_matches commentText H) as (g & Hs & Hline).
  exists (trim g). unfold Final.instruction_of. rewrite Hs.
  split; [reflexivity |]. unfold trim. split; [| split].
  - now apply all_chars_trim_end, all_chars_trim_start.
  - apply trim_end_starts, trim_start_starts.
  - apply trim_end_ends.
Qed.

(** X3 at a comment that mentions the bot in the middle of a sentence. *)
Lemma triggering_comment_witness :
  exists instruction,
    Final.instruction_of "hello @AsanaPRBot: is this safe to merge? " = Some instruction
    /\ all_chars non_terminator instruction = true
    /\ starts_ws instruction = false
    /\ ends_ws instruction = false.
Proof.
  apply (triggering_comment_has_instruction "hello @AsanaPRBot: is this safe to merge? ").
  reflexivity.
Defined.

(** X4. The instruction is the first line with text after the first
    occurrence of the marker, trimmed: whitespace after the marker is passed
    over, line breaks included, and the line ends at the next line break. *)
Theorem instruction_is_next_line_with_text (pre gap line rest : string) :
  mentions pre = false ->
  all_chars is_ws gap = true ->
  truthy line = true -> starts_ws line = false ->
  all_chars non_terminator line = true ->
  stops non_terminator rest ->
  Final.instruction_of (pre +:+ "@AsanaPRBot" +:+ gap +:+ line +:+ rest)
  = Some (trim line).
Proof.
  intros Hpre Hgap Tl Sl Hline Hrest.
  assert (Hfound : search Final.mention_at (pre +:+ "@AsanaPRBot" +:+ gap +:+ line +:+ rest)
                   = Some line).
  { apply search_first.
    - unfold Final.mention_at. rewrite strip_prefix_ci_append.
      rewrite (span_exact is_ws gap (line +:+ rest) Hgap).
      + now rewrite (span_exact non_terminator line rest Hline Hrest).
      + destruct line as [|c l]; [discriminate Tl | exact Sl].
    - intros p c q Hp. unfold Final.mention_at.
      rewrite marker_cannot_straddle; [reflexivity |].
      unfold mentions in Hpre.
      destruct (search (strip_prefix_ci "@AsanaPRBot") pre) eqn:E; [discriminate |].
      exact (search_nowhere _ _ E p (String c q) Hp). }
  unfold Final.instruction_of. now rewrite Hfound.
Qed.

(** X4 at a comment whose marker stands alone on its line. *)
Lemma instruction_is_next_line_witness :
  Final.instruction_of
    ("please " +:+ "@AsanaPRBot" +:+ (" " +:+ nl) +:+ "summarize the diff "
     +:+ (nl +:+ "thanks"))
  = Some (trim "summarize the diff ").
Proof.
  apply (instruction_is_next_line_with_text "please " (" " +:+ nl) "summarize the diff "
           (nl +:+ "thanks")); reflexivity.
Defined.

End InstructionFacts.

(** ** The tag witness *)

Module TagFacts.
Import Js Platform Resolver Statements Observations StringFacts ResolverFacts PipelineFacts.




Lemma tagged_task_skip_run sv taskId context w t :
  (forall h, asana_task sv h taskId = Returned (Some t)) ->
  tagged_processed t = true ->
  Tagged.processAsanaTask sv taskId context w
  = (Returned tt,
     mkWorld (trace w ++ [ConsoleLog ("Processing Asana Task #" +:+ taskId +:+ "..." +:+ nl);
                          AsanaGetTask taskId;
                          ConsoleLog ("Task #" +:+ taskId
                                      +:+ " has already been processed. Skipping.")])
             (processedEvents w)).
Proof.
  intros Ht Hex. unfold tagged_processed in Hex.
  unfold Tagged.processAsanaTask, Tagged.getAsanaTaskDetails, bind, try_catch, call,
    console_log, emit, deref, ret, record; cbn [trace processedEvents].
  rewrite Ht. rewrite Hex. cbn [trace processedEvents].
  now rewrite <- !app_assoc.
Qed.

(** X5. A task that already carries the tag [AsanaAI Processed] is left
    alone: after the fetch of the task nothing is requested from any
    service. *)
Theorem tagged_task_is_skipped (sv : Services) (taskId : string)
    (context : option string) (w : World) (t : Task) :
  (forall h, asana_task sv h taskId = Returned (Some t)) ->
  (exists tag, In tag (tags t) /\ tag_name tag = Tagged.processedTag) ->
  Tagged.processAsanaTask sv taskId context w
  = (Returned tt,
     mkWorld (trace w ++ [ConsoleLog ("Processing Asana Task #" +:+ taskId +:+ "..." +:+ nl);
                          AsanaGetTask taskId;
                          ConsoleLog ("Task #" +:+ taskId
                                      +:+ " has already been processed. Skipping.")])
             (processedEvents w)).
Proof.
  intros Ht (tag & Hin & Hname).
  apply (tagged_task_skip_run sv taskId context w t Ht).
  unfold tagged_processed. apply existsb_exists. exists (tag_name tag). split.
  - now apply in_map.
  - rewrite Hname. apply String.eqb_refl.
Qed.

(** X5 at a task with the tag among two. *)
Lemma tagged_task_is_skipped_witness :
  let t := mkTask "see https://github.com/acme/widgets/pull/42"
                  [mkTag "G7" "urgent"; mkTag "G1" "AsanaAI Processed"] "W1" in
  let sv := mkServices (asana_story unreachable) (fun _ _ => Returned (Some t))
              (asana_tags unreachable) (asana_create_tag unreachable)
              (asana_add_tag unreachable) (github_authenticated unreachable)
              (github_pull unreachable) (github_comments unreachable)
              (github_diff unreachable) (openai_chat unreachable)
              (github_create_comment unreachable) in
  Tagged.processAsanaTask sv "T1" None empty_world
  = (Returned tt,
     mkWorld (trace empty_world
              ++ [ConsoleLog ("Processing Asana Task #" +:+ "T1" +:+ "..." +:+ nl);
                  AsanaGetTask "T1";
                  ConsoleLog ("Task #" +:+ "T1" +:+ " has already been processed. Skipping.")])
             (processedEvents empty_world)).
Proof.
  intros t sv.
  apply (tagged_task_is_skipped sv "T1" None empty_world t).
  - intros h; reflexivity.
  - exists (mkTag "G1" "AsanaAI Processed"). split; [right; left; reflexivity | reflexivity].
Defined.

(** X6. [addTagToTask] finds or creates: when the workspace lists a tag of
    the wanted name, the first such tag is attached and none is created;
    when it lists none, a tag of that name is created in the workspace of the
    task and the created one is attached. *)
Theorem add_tag_finds_or_creates (sv : Services) (taskId tagName : string) (w : World)
    (t : Task) (listed : list Tag) :
  (forall h, asana_task sv h taskId = Returned (Some t)) ->
  (forall h, asana_tags sv h (workspace_gid t) = Returned listed) ->
  (forall tag, List.find (fun x => String.eqb (tag_name x) tagName) listed = Some tag ->
     snd (Tagged.addTagToTask sv taskId tagName w)
     = mkWorld (trace w ++ [AsanaGetTask taskId; AsanaListTags (workspace_gid t);
                            AsanaAddTag taskId (tag_gid tag)])
               (processedEvents w))
  /\ (List.find (fun x => String.eqb (tag_name x) tagName) listed = None ->
      forall created,
        (forall h, asana_create_tag sv h (workspace_gid t) tagName = Returned (Some created)) ->
        snd (Tagged.addTagToTask sv taskId tagName w)
        = mkWorld (trace w ++ [AsanaGetTask taskId; AsanaListTags (workspace_gid t);
                               AsanaCreateTag (workspace_gid t) tagName;
                               AsanaAddTag taskId (tag_gid created)])
                  (processedEvents w))
  /\ (List.find (fun x => String.eqb (tag_name x) tagName) listed = None ->
      (forall h, asana_create_tag sv h (workspace_gid t) tagName = Returned None) ->
      Tagged.addTagToTask sv taskId tagName w
      = (Threw (TypeError "tag.gid"),
         mkWorld (trace w ++ [AsanaGetTask taskId; AsanaListTags (workspace_gid t);
                              AsanaCreateTag (workspace_gid t) tagName])
                 (processedEvents w))).
Proof.
  intros Ht Hl. split; [| split].
  - intros tag Hfind.
    unfold Tagged.addTagToTask, Tagged.getAsanaTaskDetails, Tagged.findTagInWorkspace,
      Tagged.createTagInWorkspace, Tagged.attachTagToTask, bind, call, deref, ret, record;
      simpl.
    rewrite Ht; simpl. rewrite Hl; simpl. rewrite Hfind; simpl.
    now rewrite <- !app_assoc.
  - intros Hfind created Hc.
    unfold Tagged.addTagToTask, Tagged.getAsanaTaskDetails, Tagged.findTagInWorkspace,
      Tagged.createTagInWorkspace, Tagged.attachTagToTask, bind, call, deref, ret, record;
      simpl.
    rewrite Ht; simpl. rewrite Hl; simpl. rewrite Hfind; simpl. rewrite Hc; simpl.
    now rewrite <- !app_assoc.
  - intros Hfind Hc.
    unfold Tagged.addTagToTask, Tagged.getAsanaTaskDetails, Tagged.findTagInWorkspace,
      Tagged.createTagInWorkspace, Tagged.attachTagToTask, bind, call, deref, ret, throw,
      record; simpl.
    rewrite Ht; simpl. rewrite Hl; simpl. rewrite Hfind; simpl. rewrite Hc; simpl.
    now rewrite <- !app_assoc.
Qed.

(** X6 in a workspace that lists the tag twice. *)
Lemma add_tag_finds_witness :
  let listed := [mkTag "G7" "urgent"; mkTag "G1" "AsanaAI Processed";
                 mkTag "G9" "AsanaAI Processed"] in
  let sv := mkServices (asana_story unreachable) (fun _ _ => Returned (Some sample_task))
              (fun _ _ => Returned listed) (asana_create_tag unreachable)
              (asana_add_tag unreachable) (github_authenticated unreachable)
              (github_pull unreachable) (github_comments unreachable)
              (github_diff unreachable) (openai_chat unreachable)
              (github_create_comment unreachable) in
  snd (Tagged.addTagToTask sv "T1" "AsanaAI Processed" empty_world)
  = mkWorld (trace empty_world ++ [AsanaGetTask "T1"; AsanaListTags "W1"; AsanaAddTag "T1" "G1"])
            (processedEvents empty_world).
Proof.
  intros listed sv.
  destruct (add_tag_finds_or_creates sv "T1" "AsanaAI Processed" empty_world sample_task listed)
    as (H & _).
  - intros h; reflexivity.
  - intros h; reflexivity.
  - apply (H (mkTag "G1" "AsanaAI Processed")). reflexivity.
Defined.




End TagFacts.

(** ** The ledger of the final server *)

Module DeliveryFacts.
Import Js Platform Statements Observations PipelineFacts.
#[local] Set Warnings "-clear-no-such-hyp".

Lemma appends_ret P {A} (a : A) : appends P (ret a).
Proof. intros w. exists []. now rewrite app_nil_r. Qed.

Lemma appends_throw P {A} e : appends P (@throw A e).
Proof. intros w. exists []. now rewrite app_nil_r. Qed.

Lemma appends_emit (P : Effect -> bool) e : P e = true -> appends P (emit e).
Proof. intros H w. exists [e]. simpl. now rewrite H. Qed.

Lemma appends_call (P : Effect -> bool) {A} e (answer : History -> Outcome A) :
  P e = true -> appends P (call e answer).
Proof. intros H w. exists [e]. simpl. now rewrite H. Qed.

Lemma appends_deref P {A} what (o : option A) : appends P (deref what o).
Proof. destruct o; [apply appends_ret | apply appends_throw]. Qed.

Lemma appends_sismember P key : appends P (sismember key).
Proof. intros w. exists []. now rewrite app_nil_r. Qed.

Lemma appends_sadd P key : appends P (sadd key).
Proof. intros w. exists []. simpl. now rewrite app_nil_r. Qed.

Lemma appends_bind P {A B} (m : M A) (k : A -> M B) :
  appends P m -> (forall a, appends P (k a)) -> appends P (bind m k).
Proof.
  intros Hm Hk w. unfold bind. destruct (Hm w) as (a1 & T1 & F1).
  destruct (m w) as [[a|e] w1]; simpl in *; [| now exists a1].
  destruct (Hk a w1) as (a2 & T2 & F2). exists (a1 ++ a2).
  rewrite T2, T1, app_assoc, forallb_app, F1, F2. auto.
Qed.

Lemma appends_try_catch P {A} (m : M A) (h : JsError -> M A) :
  appends P m -> (forall e, appends P (h e)) -> appends P (try_catch m h).
Proof.
  intros Hm Hh w. unfold try_catch. destruct (Hm w) as (a1 & T1 & F1).
  destruct (m w) as [[a|e] w1]; simpl in *; [now exists a1 |].
  destruct (Hh e w1) as (a2 & T2 & F2). exists (a1 ++ a2).
  rewrite T2, T1, app_assoc, forallb_app, F1, F2. auto.
Qed.

Lemma appends_if P {A} (b : bool) (m1 m2 : M A) :
  appends P m1 -> appends P m2 -> appends P (if b then m1 else m2).
Proof. now destruct b. Qed.

Lemma appends_for_of P {A} (xs : list A) (body : A -> M unit) :
  (forall x, appends P (body x)) -> appends P (for_of xs body).
Proof.
  intros Hb. induction xs as [|x xs IH]; simpl.
  - apply appends_ret.
  - apply appends_bind; [apply Hb | intros _; exact IH].
Qed.

(** What one event adds to the set. *)
Lemma final_event_ledger sv event w :
  processedEvents (snd (Final.handle_event sv event w))
  = processedEvents w ∪ (if handled event then {[ gid (resource event) ]} else ∅).
Proof.
  unfold Final.handle_event, handled.
  unfold bind at 1. unfold sismember at 1.
  destruct (bool_decide (gid (resource event) ∈ processedEvents w)) eqn:B.
  - apply bool_decide_eq_true in B. simpl.
    destruct (Final.is_task_added event || Final.is_comment_added event); set_solver.
  - unfold bind at 1. unfold emit at 1.
    destruct (Final.is_task_added event) eqn:T; cbn [orb].
    + unfold bind at 1.
      destruct (final_task_returns sv (gid (resource event)) None
                  (record (ConsoleLogEvent "Processing event:" event) w)) as ([] & w2 & E).
      pose proof (final_task_steady sv (gid (resource event)) None
                    (record (ConsoleLogEvent "Processing event:" event) w)) as (S & _).
      rewrite E in S |- *. simpl in S |- *. rewrite S. set_solver.
    + destruct (Final.is_comment_added event) eqn:C.
      * unfold bind at 1.
        destruct (final_story_returns sv (gid (resource event))
                    (record (ConsoleLogEvent "Processing event:" event) w)) as ([] & w2 & E).
        pose proof (final_story_steady sv (gid (resource event))
                      (record (ConsoleLogEvent "Processing event:" event) w)) as (S & _).
        rewrite E in S |- *. simpl in S |- *. rewrite S. set_solver.
      * simpl. set_solver.
Qed.

Lemma final_loop_ledger sv (evs : list AsanaEvent) :
  forall w,
    processedEvents (snd (for_of evs (Final.handle_event sv) w))
    = processedEvents w ∪ handled_keys evs.
Proof.
  induction evs as [|event evs IH]; intros w.
  - unfold handled_keys. simpl. set_solver.
  - simpl. unfold bind.
    destruct (ServerFacts.final_event_returns sv event w) as ([] & w1 & E).
    pose proof (final_event_ledger sv event w) as L. rewrite E in L |- *. simpl in L.
    rewrite IH, L. unfold handled_keys. simpl.
    destruct (handled event); simpl; set_solver.
Qed.

Lemma final_webhook_ledger (sv : Services) (req : Final.Request) (w : World) :
  processedEvents (snd (Final.webhook sv req w))
  = if truthy_opt (Final.x_hook_secret req) then processedEvents w
    else processedEvents w ∪ handled_keys (default [] (Final.events req)).
Proof.
  destruct req as [secret evs].
  unfold Final.webhook, console_log, emit, ret. unfold bind at 1.
  cbn [Final.x_hook_secret Final.events].
  destruct (truthy_opt secret); [reflexivity |].
  destruct evs as [[|e evs]|]; cbn [default];
    try (unfold bind, handled_keys; simpl; set_solver).
  unfold bind at 1.
  destruct (returns_for_of (e :: evs) (Final.handle_event sv)
              (ServerFacts.final_event_returns sv)
              (record (ConsoleLog "Received Asana webhook event.") w)) as ([] & w1 & E).
  pose proof (final_loop_ledger sv (e :: evs)
                (record (ConsoleLog "Received Asana webhook event.") w)) as L.
  rewrite E in L |- *. exact L.
Qed.

(** X8. After a delivery the set [processedEvents] is the set from before
    together with the keys of the task-added and comment-added events of the
    delivery, whatever became of their processing; a handshake request and
    the events the loop ignores add nothing. *)
Theorem final_ledger_after_delivery (sv : Services) (req : Final.Request) (w : World) :
  processedEvents (snd (Final.webhook sv req w))
  = if truthy_opt (Final.x_hook_secret req) then processedEvents w
    else processedEvents w ∪ handled_keys (default [] (Final.events req)).
Proof. apply final_webhook_ledger. Qed.

(** An event whose key is in the set, or which the loop ignores, costs
    console output only. *)
Lemma final_event_quiet sv event w :
  (handled event = true -> gid (resource event) ∈ processedEvents w) ->
  exists added,
    Final.handle_event sv event w
    = (Returned tt, mkWorld (trace w ++ added) (processedEvents w))
    /\ forallb is_console added = true.
Proof.
  intros Hk. unfold Final.handle_event.
  unfold bind at 1. unfold sismember at 1.
  destruct (bool_decide (gid (resource event) ∈ processedEvents w)) eqn:B.
  - unfold console_log, emit, record. eexists. split; reflexivity.
  - apply bool_decide_eq_false in B.
    destruct (handled event) eqn:Hh; [exfalso; auto |].
    unfold handled in Hh. apply orb_false_iff in Hh as [T C].
    rewrite T, C. unfold bind, emit, record; simpl. rewrite <- app_assoc.
    eexists. split; reflexivity.
Qed.

Lemma final_loop_quiet sv (evs : list AsanaEvent) :
  forall w,
    handled_keys evs ⊆ processedEvents w ->
    exists added,
      for_of evs (Final.handle_event sv) w
      = (Returned tt, mkWorld (trace w ++ added) (processedEvents w))
      /\ forallb is_console added = true.
Proof.
  induction evs as [|event evs IH]; intros w Hsub.
  - exists []. simpl. unfold ret. rewrite app_nil_r. now destruct w.
  - assert (Hk : handled event = true -> gid (resource event) ∈ processedEvents w).
    { intros Hh. apply Hsub. unfold handled_keys. simpl. rewrite Hh. simpl. set_solver. }
    assert (Hrest : handled_keys evs ⊆ processedEvents w).
    { intros k Hin. apply Hsub. unfold handled_keys in *. simpl.
      destruct (handled event); simpl; set_solver. }
    destruct (final_event_quiet sv event w Hk) as (a1 & E1 & F1).
    cbn [for_of]. unfold bind. rewrite E1.
    destruct (IH (mkWorld (trace w ++ a1) (processedEvents w)) Hrest) as (a2 & E2 & F2).
    rewrite E2. cbn [trace processedEvents]. exists (a1 ++ a2).
    rewrite app_assoc, forallb_app, F1, F2. auto.
Qed.

(** X9. A delivery that is delivered again after the first has been
    answered asks nothing of any service: the second handling writes to the
    console only and leaves the set as it is, with any events in it and
    whatever the services did the first time. *)
Theorem redelivery_requests_nothing (sv sv' : Services) (req : Final.Request) (w : World) :
  let w1 := snd (Final.webhook sv req w) in
  exists added,
    snd (Final.webhook sv' req w1) = mkWorld (trace w1 ++ added) (processedEvents w1)
    /\ forallb is_console added = true.
Proof.
  intros w1.
  pose proof (final_webhook_ledger sv req w) as L. fold w1 in L.
  destruct req as [secret evs].
  unfold Final.webhook, console_log, emit, ret. unfold bind at 1.
  cbn [Final.x_hook_secret Final.events] in *.
  destruct (truthy_opt secret).
  - unfold bind, record; simpl. rewrite <- app_assoc. eexists. split; reflexivity.
  - destruct evs as [[|e evs]|]; cbn [default] in L;
      try (unfold bind, record; simpl; rewrite <- app_assoc; eexists; split; reflexivity).
    unfold bind at 1.
    destruct (final_loop_quiet sv' (e :: evs)
                (record (ConsoleLog "Received Asana webhook event.") w1)) as (a & E & F).
    { simpl. rewrite L. set_solver. }
    rewrite E. unfold record; simpl. rewrite <- app_assoc.
    eexists. split; [reflexivity |]. simpl. exact F.
Qed.

Lemma final_pull_request_untagged sv n o r c :
  appends (fun e => negb (is_tag_call e) && negb (is_identity_call e))
          (Final.processPullRequest sv n o r c).
Proof.
  unfold Final.processPullRequest, console_log, console_error.
  apply appends_bind; [now apply appends_emit | intros _].
  apply appends_try_catch; [| intros e; now apply appends_emit].
  apply appends_bind; [now apply appends_call | intros pr].
  apply appends_bind; [now apply appends_call | intros comments].
  apply appends_bind; [now apply appends_call | intros diff].
  apply appends_bind; [now apply appends_call | intros ai].
  apply appends_bind; [now apply appends_call | intros _].
  now apply appends_emit.
Qed.

Lemma final_task_untagged sv taskId c :
  appends (fun e => negb (is_tag_call e) && negb (is_identity_call e))
          (Final.processAsanaTask sv taskId c).
Proof.
  unfold Final.processAsanaTask, Final.getAsanaTaskDetails, console_log, console_error.
  apply appends_bind; [now apply appends_emit | intros _].
  apply appends_try_catch; [| intros e; now apply appends_emit].
  apply appends_bind; [now apply appends_call | intros td].
  apply appends_bind; [apply appends_deref | intros t].
  repeat apply appends_if; try (now apply appends_emit).
  apply final_pull_request_untagged.
Qed.

Lemma final_story_untagged sv storyId :
  appends (fun e => negb (is_tag_call e) && negb (is_identity_call e))
          (Final.processAsanaStory sv storyId).
Proof.
  unfold Final.processAsanaStory, Final.getAsanaStoryDetails, Final.getAsanaTaskDetails,
    console_log, console_error.
  apply appends_bind; [now apply appends_emit | intros _].
  apply appends_try_catch; [| intros e; now apply appends_emit].
  apply appends_bind; [now apply appends_call | intros sd].
  apply appends_bind; [apply appends_deref | intros s].
  repeat apply appends_if; try (now apply appends_emit).
  apply appends_bind; [now apply appends_call | intros _].
  apply final_task_untagged.
Qed.

(** X10. The final server keeps no witness on the task and does not ask
    GitHub whose credential it holds: no delivery makes it call a tag
    endpoint of Asana or the endpoint of the authenticated user. *)
Theorem final_server_never_tags (sv : Services) (req : Final.Request) (w : World) :
  exists added,
    trace (snd (Final.webhook sv req w)) = trace w ++ added
    /\ forallb (fun e => negb (is_tag_call e) && negb (is_identity_call e)) added = true.
Proof.
  revert w.
  change (appends (fun e => negb (is_tag_call e) && negb (is_identity_call e))
                  (Final.webhook sv req)).
  unfold Final.webhook, console_log.
  apply appends_bind; [now apply appends_emit | intros _].
  apply appends_if.
  - apply appends_bind; [now apply appends_emit | intros _; apply appends_ret].
  - assert (Hquiet : appends (fun e => negb (is_tag_call e) && negb (is_identity_call e))
                       (bind (emit (ConsoleLog "No events to process."))
                          (fun _ => ret (mkResponse 200 [] (Some "No events to process."))))).
    { apply appends_bind; [now apply appends_emit | intros _; apply appends_ret]. }
    destruct (Final.events req) as [[|e evs]|]; try exact Hquiet.
    apply appends_bind; [| intros _; apply appends_ret].
    apply appends_for_of. intros event. unfold Final.handle_event.
    apply appends_bind; [apply appends_sismember | intros isProcessed].
    apply appends_if; [now apply appends_emit |].
    apply appends_bind; [now apply appends_emit | intros _].
    repeat apply appends_if; try (now apply appends_emit).
    + apply appends_bind; [apply final_task_untagged | intros _; apply appends_sadd].
    + apply appends_bind; [apply final_story_untagged | intros _; apply appends_sadd].
Qed.

End DeliveryFacts.

(** ** The order of the requests of a review *)

Module ReviewFacts.
Import Js Platform Prompt Statements Observations PipelineFacts.

(** X11. A run of [processPullRequest] of the final server logs its start and
    then makes its requests in the order pull request, comments, diff,
    reasoning, publication, each after the one before has been answered.
    Either all five are answered: then the prompt is built from the pull
    request, the comments and the diff that were returned to this run, the
    published text is the introduction of the bot, an empty line and the
    answer the reasoning engine gave to this prompt, and the run logs that
    the comment is posted.  Or one request fails: then it is the last one
    made, every request before it was answered, nothing was published before
    it, and the run logs its error and returns. *)
Theorem final_review_makes_requests_in_order (sv : Services) (n o r : string)
    (context : option string) (w : World) :
  let start := ConsoleLog ("Processing PR #" +:+ n +:+ " in " +:+ o +:+ "/" +:+ r
                           +:+ "..." +:+ nl) in
  exists made,
    forallb is_request made = true
    /\ steps made `prefix_of` final_order
    /\ ((failures sv (trace w ++ [start]) made = []
         /\ Final.processPullRequest sv n o r context w
            = (Returned tt,
               mkWorld (trace w ++ start :: made
                          ++ [ConsoleLog ("Comment posted to PR #" +:+ n)])
                       (processedEvents w))
         /\ exists pr comments diff answer,
              let asked := Final.finalPrompt context (prompt pr diff comments context) in
              made = [GithubGetPull o r n; GithubListComments o r n; GithubGetDiff o r n;
                      OpenAIChat "o1-preview" asked;
                      GithubCreateComment o r n
                        (Final.botIntroduction +:+ nl +:+ nl +:+ answer)]
              /\ github_pull sv (trace w ++ [start; GithubGetPull o r n]) o r n
                 = Returned pr
              /\ github_comments sv
                   (trace w ++ [start; GithubGetPull o r n; GithubListComments o r n]) o r n
                 = Returned comments
              /\ github_diff sv
                   (trace w ++ [start; GithubGetPull o r n; GithubListComments o r n;
                                GithubGetDiff o r n]) o r n
                 = Returned diff
              /\ openai_chat sv
                   (trace w ++ [start; GithubGetPull o r n; GithubListComments o r n;
                                GithubGetDiff o r n; OpenAIChat "o1-preview" asked])
                   "o1-preview" asked
                 = Returned answer)
        \/ (exists before request e,
              made = before ++ [request]
              /\ failures sv (trace w ++ [start]) before = []
              /\ failure sv request (trace w ++ start :: made) = Some e
              /\ existsb is_publication before = false
              /\ Final.processPullRequest sv n o r context w
                 = (Returned tt,
                    mkWorld (trace w ++ start :: made
                               ++ [ConsoleError ("Error processing PR #" +:+ n +:+ ":") e])
                            (processedEvents w)))).
Proof.
  intros start.
  remember (Final.processPullRequest sv n o r context w) as run eqn:Hrun.
  unfold Final.processPullRequest, bind, try_catch, call, console_log, console_error,
    emit, ret, record in Hrun; cbn [trace processedEvents] in Hrun. fold start in Hrun.
  match type of Hrun with context [github_pull sv ?h o r n] =>
    destruct (github_pull sv h o r n) as [pr|e] eqn:E1 end.
  2: { exists [GithubGetPull o r n]. split; [reflexivity |]. split; [now eexists |].
       right. exists [], (GithubGetPull o r n), e.
       cbn [failures failure]. flatten_histories. subst run. rewrite E1. settle_run. }
  match type of Hrun with context [github_comments sv ?h o r n] =>
    destruct (github_comments sv h o r n) as [comments|e] eqn:E2 end.
  2: { exists [GithubGetPull o r n; GithubListComments o r n].
       split; [reflexivity |]. split; [now eexists |].
       right. exists [GithubGetPull o r n], (GithubListComments o r n), e.
       cbn [failures failure]. flatten_histories. subst run. rewrite E1, E2. settle_run. }
  match type of Hrun with context [github_diff sv ?h o r n] =>
    destruct (github_diff sv h o r n) as [diff|e] eqn:E3 end.
  2: { exists [GithubGetPull o r n; GithubListComments o r n; GithubGetDiff o r n].
       split; [reflexivity |]. split; [now eexists |].
       right. exists [GithubGetPull o r n; GithubListComments o r n], (GithubGetDiff o r n), e.
       cbn [failures failure]. flatten_histories. subst run. rewrite E1, E2, E3.
       settle_run. }
  set (asked := Final.finalPrompt context (prompt pr diff comments context)) in *.
  match type of Hrun with context [openai_chat sv ?h "o1-preview" asked] =>
    destruct (openai_chat sv h "o1-preview" asked) as [answer|e] eqn:E4 end.
  2: { exists [GithubGetPull o r n; GithubListComments o r n; GithubGetDiff o r n;
               OpenAIChat "o1-preview" asked].
       split; [reflexivity |]. split; [now eexists |].
       right. exists [GithubGetPull o r n; GithubListComments o r n; GithubGetDiff o r n],
                (OpenAIChat "o1-preview" asked), e.
       cbn [failures failure]. flatten_histories. subst run. rewrite E1, E2, E3, E4.
       settle_run. }
  set (reply := Final.botIntroduction +:+ nl +:+ nl +:+ answer) in *.
  exists [GithubGetPull o r n; GithubListComments o r n; GithubGetDiff o r n;
          OpenAIChat "o1-preview" asked; GithubCreateComment o r n reply].
  split; [reflexivity |]. split; [now eexists |].
  match type of Hrun with context [github_create_comment sv ?h o r n reply] =>
    destruct (github_create_comment sv h o r n reply) as [[]|e] eqn:E5 end.
  - left. cbn [failures failure]. flatten_histories. subst run.
    rewrite E1, E2, E3, E4, E5.
    split; [reflexivity |]. split; [settle_run |].
    exists pr, comments, diff, answer. settle_run.
  - right. exists [GithubGetPull o r n; GithubListComments o r n; GithubGetDiff o r n;
                   OpenAIChat "o1-preview" asked], (GithubCreateComment o r n reply), e.
    cbn [failures failure]. flatten_histories. subst run.
    rewrite E1, E2, E3, E4, E5. settle_run.
Qed.

(** X12. A run of [processPullRequest] of the server with the completion
    guard logs its start, asks GitHub whom the credential belongs to, and
    then requests the pull request and its comments.  When a comment of that
    account is among the comments returned, it logs that and makes no further
    request.  Otherwise it goes on with diff, reasoning and publication: the
    prompt is built from what was returned to this run, with the comments
    filtered, and the published text is the answer of the reasoning engine to
    this prompt as it came.  When a request fails it is the last one made,
    every request before it was answered, and the run logs its error and
    returns. *)
Theorem guarded_review_makes_requests_in_order (sv : Services) (n o r : string)
    (context : option string) (w : World) :
  let start := ConsoleLog ("Processing PR #" +:+ n +:+ " in " +:+ o +:+ "/" +:+ r
                           +:+ "..." +:+ nl) in
  let opening := [GithubGetAuthenticated; GithubGetPull o r n; GithubListComments o r n] in
  exists made,
    forallb is_request made = true
    /\ steps made `prefix_of` tagged_order
    /\ ((exists bot pr comments,
           made = opening
           /\ github_authenticated sv (trace w ++ [start; GithubGetAuthenticated])
              = Returned bot
           /\ github_pull sv (trace w ++ [start; GithubGetAuthenticated; GithubGetPull o r n])
                o r n
              = Returned pr
           /\ github_comments sv (trace w ++ start :: opening) o r n = Returned comments
           /\ Tagged.botCommentExists bot comments = true
           /\ Tagged.processPullRequest sv n o r context w
              = (Returned tt,
                 mkWorld (trace w ++ start :: made
                            ++ [ConsoleLog ("Bot has already commented on PR #" +:+ n
                                            +:+ ". Skipping.")])
                         (processedEvents w)))
        \/ (exists bot pr comments diff answer,
              let asked :=
                Tagged.finalPrompt
                  (prompt pr diff (Tagged.humanComments bot comments) context) in
              made = opening ++ [GithubGetDiff o r n; OpenAIChat "o1-preview" asked;
                                 GithubCreateComment o r n answer]
              /\ failures sv (trace w ++ [start]) made = []
              /\ github_authenticated sv (trace w ++ [start; GithubGetAuthenticated])
                 = Returned bot
              /\ github_pull sv
                   (trace w ++ [start; GithubGetAuthenticated; GithubGetPull o r n]) o r n
                 = Returned pr
              /\ github_comments sv (trace w ++ start :: opening) o r n = Returned comments
              /\ Tagged.botCommentExists bot comments = false
              /\ github_diff sv (trace w ++ start :: opening ++ [GithubGetDiff o r n]) o r n
                 = Returned diff
              /\ openai_chat sv
                   (trace w ++ start :: opening
                      ++ [GithubGetDiff o r n; OpenAIChat "o1-preview" asked])
                   "o1-preview" asked
                 = Returned answer
              /\ Tagged.processPullRequest sv n o r context w
                 = (Returned tt,
                    mkWorld (trace w ++ start :: made
                               ++ [ConsoleLog ("Comment posted to PR #" +:+ n)])
                            (processedEvents w)))
        \/ (exists before request e,
              made = before ++ [request]
              /\ failures sv (trace w ++ [start]) before = []
              /\ failure sv request (trace w ++ start :: made) = Some e
              /\ existsb is_publication before = false
              /\ Tagged.processPullRequest sv n o r context w
                 = (Returned tt,
                    mkWorld (trace w ++ start :: made
                               ++ [ConsoleError ("Error processing PR #" +:+ n +:+ ":") e])
                            (processedEvents w)))).
Proof.
  intros start opening. unfold opening.
  remember (Tagged.processPullRequest sv n o r context w) as run eqn:Hrun.
  unfold Tagged.processPullRequest, Tagged.getGitHubBotUsername, bind, try_catch, call,
    console_log, console_error, emit, ret, record in Hrun;
    cbn [trace processedEvents] in Hrun. fold start in Hrun.
  match type of Hrun with context [github_authenticated sv ?h] =>
    destruct (github_authenticated sv h) as [bot|e] eqn:E0 end.
  2: { exists [GithubGetAuthenticated]. split; [reflexivity |]. split; [now eexists |].
       right; right. exists [], GithubGetAuthenticated, e.
       cbn [failures failure]. flatten_histories. subst run. rewrite E0. settle_run. }
  match type of Hrun with context [github_pull sv ?h o r n] =>
    destruct (github_pull sv h o r n) as [pr|e] eqn:E1 end.
  2: { exists [GithubGetAuthenticated; GithubGetPull o r n].
       split; [reflexivity |]. split; [now eexists |].
       right; right. exists [GithubGetAuthenticated], (GithubGetPull o r n), e.
       cbn [failures failure]. flatten_histories. subst run. rewrite E0, E1. settle_run. }
  match type of Hrun with context [github_comments sv ?h o r n] =>
    destruct (github_comments sv h o r n) as [comments|e] eqn:E2 end.
  2: { exists [GithubGetAuthenticated; GithubGetPull o r n; GithubListComments o r n].
       split; [reflexivity |]. split; [now eexists |].
       right; right.
       exists [GithubGetAuthenticated; GithubGetPull o r n], (GithubListComments o r n), e.
       cbn [failures failure]. flatten_histories. subst run. rewrite E0, E1, E2.
       settle_run. }
  destruct (Tagged.botCommentExists bot comments) eqn:G.
  { exists [GithubGetAuthenticated; GithubGetPull o r n; GithubListComments o r n].
    split; [reflexivity |]. split; [now eexists |].
    left. exists bot, pr, comments. flatten_histories. subst run. settle_run. }
  match type of Hrun with context [github_diff sv ?h o r n] =>
    destruct (github_diff sv h o r n) as [diff|e] eqn:E3 end.
  2: { exists [GithubGetAuthenticated; GithubGetPull o r n; GithubListComments o r n;
               GithubGetDiff o r n].
       split; [reflexivity |]. split; [now eexists |].
       right; right.
       exists [GithubGetAuthenticated; GithubGetPull o r n; GithubListComments o r n],
              (GithubGetDiff o r n), e.
       cbn [failures failure]. flatten_histories. subst run. rewrite E0, E1, E2, E3.
       settle_run. }
  set (asked := Tagged.finalPrompt
                  (prompt pr diff (Tagged.humanComments bot comments) context)) in *.
  match type of Hrun with context [openai_chat sv ?h "o1-preview" asked] =>
    destruct (openai_chat sv h "o1-preview" asked) as [answer|e] eqn:E4 end.
  2: { exists [GithubGetAuthenticated; GithubGetPull o r n; GithubListComments o r n;
               GithubGetDiff o r n; OpenAIChat "o1-preview" asked].
       split; [reflexivity |]. split; [now eexists |].
       right; right.
       exists [GithubGetAuthenticated; GithubGetPull o r n; GithubListComments o r n;
               GithubGetDiff o r n], (OpenAIChat "o1-preview" asked), e.
       cbn [failures failure]. flatten_histories. subst run. rewrite E0, E1, E2, E3, E4.
       settle_run. }
  exists [GithubGetAuthenticated; GithubGetPull o r n; GithubListComments o r n;
          GithubGetDiff o r n; OpenAIChat "o1-preview" asked;
          GithubCreateComment o r n answer].
  split; [reflexivity |]. split; [now eexists |].
  match type of Hrun with context [github_create_comment sv ?h o r n answer] =>
    destruct (github_create_comment sv h o r n answer) as [[]|e] eqn:E5 end.
  - right; left. exists bot, pr, comments, diff, answer.
    cbn [failures failure]. flatten_histories. subst run.
    rewrite E0, E1, E2, E3, E4, E5. settle_run.
  - right; right.
    exists [GithubGetAuthenticated; GithubGetPull o r n; GithubListComments o r n;
            GithubGetDiff o r n; OpenAIChat "o1-preview" asked],
           (GithubCreateComment o r n answer), e.
    cbn [failures failure]. flatten_histories. subst run.
    rewrite E0, E1, E2, E3, E4, E5. settle_run.
Qed.

(** X13. A story that is not a comment, or a comment that does not contain
    the marker in exactly the letter case [@AsanaPRBot], is skipped after the
    story has been fetched: the task is not fetched and nothing is reviewed. *)
Theorem story_without_marker_is_skipped (sv : Services) (storyId : string) (w : World)
    (s : Story) :
  (forall h, asana_story sv h storyId = Returned (Some s)) ->
  story_type s <> "comment" \/ includes (story_text s) "@AsanaPRBot" = false ->
  exists reason,
    Final.processAsanaStory sv storyId w
    = (Returned tt,
       mkWorld (trace w ++ [ConsoleLog ("Processing Asana Story #" +:+ storyId +:+ "..." +:+ nl);
                            AsanaGetStory storyId;
                            ConsoleLog reason])
               (processedEvents w)).
Proof.
  intros Hs Hskip.
  unfold Final.processAsanaStory, Final.getAsanaStoryDetails, bind, try_catch, call,
    console_log, emit, deref, ret, record; cbn [trace processedEvents].
  rewrite Hs.
  destruct (String.eqb_spec (story_type s) "comment") as [E|N]; cbn [negb].
  - destruct Hskip as [N|Hinc]; [contradiction |]. rewrite Hinc. cbn [negb].
    cbn [trace processedEvents]. rewrite <- !app_assoc. eexists. reflexivity.
  - cbn [trace processedEvents]. rewrite <- !app_assoc. eexists. reflexivity.
Qed.

(** X13 at a comment that writes the marker in lower case. *)
Lemma story_without_marker_witness :
  let s := mkStory "comment" "@asanaprbot please review" "T1" in
  let sv := mkServices (fun _ _ => Returned (Some s)) (asana_task unreachable)
              (asana_tags unreachable) (asana_create_tag unreachable)
              (asana_add_tag unreachable) (github_authenticated unreachable)
              (github_pull unreachable) (github_comments unreachable)
              (github_diff unreachable) (openai_chat unreachable)
              (github_create_comment unreachable) in
  exists reason,
    Final.processAsanaStory sv "S1" empty_world
    = (Returned tt,
       mkWorld (trace empty_world
                ++ [ConsoleLog ("Processing Asana Story #" +:+ "S1" +:+ "..." +:+ nl);
                    AsanaGetStory "S1";
                    ConsoleLog reason])
               (processedEvents empty_world)).
Proof.
  intros s sv.
  apply (story_without_marker_is_skipped sv "S1" empty_world s).
  - intros h; reflexivity.
  - right; reflexivity.
Defined.

End ReviewFacts.

(** ** The command-line reviewer *)

Module CliFacts.
Import Js Platform Statements.
Import Cli.

Section Numbers.

Context {Num : Type} (toText : Num -> string) (truthy_number : Num -> bool).


(** X15. With a comment to answer, the command-line reviewer fetches the
    comment first.  When the fetch fails the process exits with code 1
    without any request for the pull request; when the comment does not
    contain the marker the run ends normally after that one request; when it
    does, the review runs with the instruction of the comment. *)
Theorem cli_comment_is_fetched_first (sv : Services Num) (argv : Argv Num)
    (j : Journal Num) (id : Num) :
  commentId argv = Some id ->
  truthy_number id = true ->
  let n := prNumber argv in
  let fetched :=
    j ++ [Log ("Processing comment #" +:+ toText id +:+ " on PR #" +:+ toText n
               +:+ "..." +:+ nl);
          GetComment (owner argv) (repo argv) id] in
  (forall e, comment_body sv fetched (owner argv) (repo argv) id = Threw e ->
     main toText truthy_number sv argv j
     = (Returned tt, fetched ++ [LogError "An error occurred:" e; Exit 1]))
  /\ (forall text, comment_body sv fetched (owner argv) (repo argv) id = Returned text ->
        includes text "@AsanaPRBot" = false ->
        main toText truthy_number sv argv j
        = (Returned tt, fetched ++ [Log "Comment does not contain @AsanaPRBot. Skipping."]))
  /\ (forall text, comment_body sv fetched (owner argv) (repo argv) id = Returned text ->
        includes text "@AsanaPRBot" = true ->
        exists instruction,
          Final.instruction_of text = Some instruction
          /\ main toText truthy_number sv argv j
             = try_catch
                 (processPullRequest toText sv n (owner argv) (repo argv) (Some instruction))
                 (fun error => bind (emit (LogError "An error occurred:" error))
                                    (fun _ => emit (Exit 1)))
                 fetched).
Proof.
  intros Hid Hnz n fetched.
  assert (Hg : given truthy_number (commentId argv) = Some id).
  { rewrite Hid. unfold given. now rewrite Hnz. }
  unfold main. rewrite Hg. split; [| split].
  - intros e He. unfold processComment, bind, try_catch, call, emit. fold n.
    rewrite <- app_assoc. cbn [app]. fold fetched. rewrite He.
    now rewrite <- app_assoc.
  - intros text Ht Hinc. unfold processComment, bind, try_catch, call, emit. fold n.
    rewrite <- app_assoc. cbn [app]. fold fetched. rewrite Ht, Hinc. reflexivity.
  - intros text Ht Hinc.
    destruct (InstructionFacts.included_marker_matches text Hinc) as (grp & Hgrp & _).
    assert (Hins : Final.instruction_of text = Some (trim grp)).
    { unfold Final.instruction_of. now rewrite Hgrp. }
    exists (trim grp). split; [exact Hins |].
    assert (Hc : processComment toText sv n id (owner argv) (repo argv) j
                 = processPullRequest toText sv n (owner argv) (repo argv)
                     (Some (trim grp)) fetched).
    { unfold processComment, bind, call, emit.
      rewrite <- app_assoc. cbn [app]. fold fetched. rewrite Ht, Hinc, Hins. reflexivity. }
    unfold try_catch. fold n. now rewrite Hc.
Qed.

End Numbers.


(** X15 at a comment that thanks a colleague. *)
Lemma cli_comment_witness :
  let sv : Services N :=
    mkServices (fun _ _ _ _ => Returned "thanks, Sam")
               (fun _ _ _ _ => Threw (RequestFailed "network"))
               (fun _ _ _ _ => Threw (RequestFailed "network"))
               (fun _ _ _ _ => Threw (RequestFailed "network"))
               (fun _ _ _ => Threw (RequestFailed "network"))
               (fun _ _ _ _ _ => Threw (RequestFailed "network")) in
  main decimal nonzero sv (mkArgv 42%N (Some 7%N) "acme" "widgets") []
  = (Returned tt,
     ([] ++ [Log ("Processing comment #" +:+ decimal 7 +:+ " on PR #" +:+ decimal 42
                  +:+ "..." +:+ nl);
             GetComment "acme" "widgets" 7%N])
     ++ [Log "Comment does not contain @AsanaPRBot. Skipping."]).
Proof.
  intros sv.
  destruct (cli_comment_is_fetched_first decimal nonzero sv
              (mkArgv 42%N (Some 7%N) "acme" "widgets") [] 7%N eq_refl eq_refl)
    as (_ & H & _).
  apply (H "thanks, Sam"); reflexivity.
Defined.

End CliFacts.

(** ** The route of the GitHub-App server *)

Module RouteFacts.
Import Js Platform GithubApp Statements Observations.

(** X16. The route answers "Event ignored." and touches nothing for every
    event that is not a [review_requested] action of a pull request.  For such
    an action it reads the number, the repository and the requested reviewer
    before it decides: when one of them is missing, as the reviewer is in a
    request for review by a team, it throws a [TypeError], sends no answer
    and touches nothing. *)
Theorem route_ignores_or_throws (req : Request) (payload : Payload) (w : World) :
  (x_github_event req <> Some "pull_request" \/ action payload <> Some "review_requested" ->
   route req payload w = (Returned (mkResponse 200 [] (Some "Event ignored.")), w))
  /\ (x_github_event req = Some "pull_request" ->
      action payload = Some "review_requested" ->
      pull_request payload = None \/ repository payload = None
      \/ requested_reviewer payload = None ->
      exists what, route req payload w = (Threw (TypeError what), w)).
Proof.
  split.
  - intros Hno. unfold route.
    destruct (bool_decide (x_github_event req = Some "pull_request")) eqn:B1;
      [| reflexivity].
    destruct (bool_decide (action payload = Some "review_requested")) eqn:B2;
      [| reflexivity].
    apply bool_decide_eq_true in B1, B2. destruct Hno; contradiction.
  - intros Hev Hact Hmiss. unfold route. rewrite Hev, Hact. simpl.
    unfold bind, deref, ret, throw.
    destruct (pull_request payload) as [pr|]; [| eauto].
    destruct (repository payload) as [rp|]; [| eauto].
    destruct (requested_reviewer payload) as [rv|]; [| eauto].
    destruct Hmiss as [H|[H|H]]; discriminate H.
Qed.

(** X16 at a request for review by a team. *)
Lemma route_team_request_witness :
  let payload := mkPayload (Some "review_requested") (Some (mkPullRef 7))
                   (Some (mkRepository "acme" "widgets")) None in
  let req := mkRequest None (Some "pull_request") true "" (Some payload) in
  exists what, route req payload empty_world = (Threw (TypeError what), empty_world).
Proof.
  intros payload req.
  destruct (route_ignores_or_throws req payload empty_world) as (_ & H).
  apply H; [reflexivity | reflexivity | right; right; reflexivity].
Defined.

(** X17. What the application does with a request depends neither on the
    signature header nor on the secret or the digest: two requests that
    differ in the signature only are treated alike.  Whatever the parser that
    is registered first passes on, the verifying parser passes on unchanged,
    without calling the hook; so no request is answered with the status 403
    of a failed verification. *)
Theorem app_is_blind_to_signatures (cr cr' : Crypto) (sig sig' ev : option string)
    (json : bool) (raw : string) (doc : option Payload) (w : World) :
  let req := mkRequest sig ev json raw doc in
  app cr req w = app cr' (mkRequest sig' ev json raw doc) w
  /\ (forall st1,
        express_json None req (mkParsing None false) = Next st1 ->
        express_json (Some (verifySignature cr)) req st1 = Next st1)
  /\ (forall resp w', app cr req w = (Returned resp, w') -> status resp <> 403).
Proof.
  intros req.
  assert (Hroute : forall s p v,
             (exists resp' v',
                route (mkRequest s ev json raw doc) p v = (Returned resp', v')
                /\ status resp' = 200)
             \/ (exists e v', route (mkRequest s ev json raw doc) p v = (Threw e, v'))).
  { intros s p v. unfold route; cbn [x_github_event].
    destruct (bool_decide (ev = Some "pull_request") &&
              bool_decide (action p = Some "review_requested")); [| left; eauto].
    unfold bind, deref, ret, throw.
    destruct (pull_request p); [| right; eauto].
    destruct (repository p); [| right; eauto].
    destruct (requested_reviewer p); [| right; eauto].
    destruct (negb _); [left; eauto |].
    unfold processPullRequest, bind, try_catch, throw, console_log, console_error, emit.
    left; eauto. }
  unfold req. split; [| split].
  - unfold app, express_json; cbn [has_json_body document raw_body body_parsed req_body].
    destruct json; cbn [negb]; [destruct doc |]; reflexivity.
  - intros st1 H. unfold express_json in *;
      cbn [has_json_body document raw_body body_parsed req_body negb] in *.
    destruct json; cbn [negb] in H.
    + destruct doc as [payload|]; [| discriminate H].
      injection H as <-. reflexivity.
    + injection H as <-. reflexivity.
  - intros resp w' H. unfold app, express_json in H;
      cbn [has_json_body document raw_body body_parsed req_body negb] in H.
    destruct json; cbn [negb] in H.
    + destruct doc as [payload|]; cbn in H.
      * destruct (Hroute sig payload w) as [(r' & v' & E & S)|(e & v' & E)]; rewrite E in H.
        -- inversion H; subst. rewrite S. discriminate.
        -- discriminate H.
      * inversion H; subst. discriminate.
    + cbn in H.
      destruct (Hroute sig empty_payload w) as [(r' & v' & E & S)|(e & v' & E)];
        rewrite E in H.
      * inversion H; subst. rewrite S. discriminate.
      * discriminate H.
Qed.

(** X17 at a request for review without signature header. *)
Lemma app_is_blind_witness :
  let payload := mkPayload (Some "review_requested") (Some (mkPullRef 7))
                   (Some (mkRepository "acme" "widgets")) (Some (mkReviewer "haghdaee")) in
  let cr := mkCrypto (fun key buf => "00") "secret" in
  let req := mkRequest None (Some "pull_request") true "{}" (Some payload) in
  express_json None req (mkParsing None false) = Next (mkParsing (Some payload) true)
  /\ express_json (Some (verifySignature cr)) req (mkParsing (Some payload) true)
     = Next (mkParsing (Some payload) true)
  /\ verifySignature cr req "{}" = Threw (PlainError "Invalid signature").
Proof.
  intros payload cr req.
  destruct (app_is_blind_to_signatures cr cr None None (Some "pull_request") true "{}"
              (Some payload) empty_world) as (_ & H & _).
  split; [reflexivity |]. split; [| reflexivity].
  apply H. reflexivity.
Defined.

End RouteFacts.

(** ** Interleaved deliveries and the set *)

Module RecordFacts.
Import Js Platform Statements Observations PipelineFacts Interleaving LedgerFacts.
#[local] Set Warnings "-clear-no-such-hyp".

(** One turn of a delivery of a handled event: what there is of the set
    afterwards, and that a delivery which has finished has left the key in
    it. *)
Lemma advance_records sv event d w :
  handled event = true ->
  at_phase (gid (resource event)) event (processedEvents w) d ->
  recorded_when_done (gid (resource event)) (processedEvents w) d ->
  let '(d', w') := advance sv d w in
  recorded_when_done (gid (resource event)) (processedEvents w') d'
  /\ (processedEvents w' = processedEvents w
      \/ processedEvents w' = {[ gid (resource event) ]} ∪ processedEvents w).
Proof.
  intros Hh [H|[H|[H|[H|[H Hin]]]]] Hrec; subst d; unfold advance; simpl;
    unfold recorded_when_done in *; simpl in *.
  - destruct (bool_decide (gid (resource event) ∈ processedEvents w)) eqn:B.
    + apply bool_decide_eq_true in B. simpl. auto.
    + unfold handled in Hh. rewrite Hh. simpl. split; [discriminate | auto].
  - rewrite processing_keeps_ledger. split; [discriminate | auto].
  - split; [intros _; set_solver | auto].
  - auto.
  - auto.
Qed.

Lemma turn_keeps_record sv event w0 s t :
  handled event = true ->
  record_invariant (gid (resource event)) event w0 s ->
  record_invariant (gid (resource event)) event w0 (turn sv s t).
Proof.
  intros Hh (P1 & P2 & R1 & R2 & Lo & Hi). unfold record_invariant, turn.
  destruct t.
  - pose proof (advance_phase sv _ event (first s) (world s) eq_refl P1) as A.
    pose proof (advance_records sv event (first s) (world s) Hh P1 R1) as B.
    destruct (advance sv (first s) (world s)) as [d' w']. simpl.
    destruct A as (A1 & A2 & _ & _). destruct B as (B1 & B2).
    split; [exact A1 |]. split; [eapply at_phase_grows; eauto |].
    split; [exact B1 |]. split; [intros F; apply A2; auto |].
    split; [set_solver |]. destruct B2 as [E|E]; rewrite E; set_solver.
  - pose proof (advance_phase sv _ event (second s) (world s) eq_refl P2) as A.
    pose proof (advance_records sv event (second s) (world s) Hh P2 R2) as B.
    destruct (advance sv (second s) (world s)) as [d' w']. simpl.
    destruct A as (A1 & A2 & _ & _). destruct B as (B1 & B2).
    split; [eapply at_phase_grows; eauto |]. split; [exact A1 |].
    split; [intros F; apply A2; auto |]. split; [exact B1 |].
    split; [set_solver |]. destruct B2 as [E|E]; rewrite E; set_solver.
Qed.

Lemma run_keeps_record sv event w0 schedule s :
  handled event = true ->
  record_invariant (gid (resource event)) event w0 s ->
  record_invariant (gid (resource event)) event w0 (run sv schedule s).
Proof.
  intros Hh. revert s. unfold run.
  induction schedule as [|t schedule IH]; intros s Inv; simpl; [exact Inv |].
  apply IH. now apply turn_keeps_record.
Qed.

(** X18. However two deliveries of the same task-added or comment-added
    event interleave, once both have finished the set [processedEvents] is
    the set from before together with the key of the event. *)
Theorem interleaved_deliveries_record_the_key (sv : Services) (event : AsanaEvent)
    (w : World) (schedule : list Turn) :
  handled event = true ->
  let s := run sv schedule (twice event w) in
  both_finished s = true ->
  processedEvents (world s) = processedEvents w ∪ {[ gid (resource event) ]}.
Proof.
  intros Hh s Hfin.
  assert (Inv : record_invariant (gid (resource event)) event w s).
  { apply run_keeps_record; [exact Hh |].
    unfold record_invariant, twice, start, recorded_when_done; simpl.
    repeat split; try (now left); try discriminate; set_solver. }
  destruct Inv as (_ & _ & R1 & _ & Lo & Hi).
  unfold both_finished in Hfin. apply andb_true_iff in Hfin as [F1 _].
  specialize (R1 F1). set_solver.
Qed.

(** X18 at a schedule that lets the second delivery go first. *)
Lemma interleaved_deliveries_witness :
  let s := run unreachable
               [TurnSecond; TurnFirst; TurnSecond; TurnFirst; TurnFirst; TurnSecond]
               (twice (task_added "T1") empty_world) in
  processedEvents (world s) = processedEvents empty_world ∪ {[ "T1" ]}.
Proof.
  intros s.
  apply (interleaved_deliveries_record_the_key unreachable (task_added "T1") empty_world
           [TurnSecond; TurnFirst; TurnSecond; TurnFirst; TurnFirst; TurnSecond]).
  - reflexivity.
  - vm_compute. reflexivity.
Defined.

End RecordFacts.

(** ** Links that are not pull requests *)

Module MalformedFacts.
Import Js Platform Resolver Statements Observations StringFacts ResolverFacts PipelineFacts
  TaskFacts.
#[local] Arguments String.append !_ _ / : simpl nomatch.

(** X19. When the first GitHub URL of a description does not contain
    [/pull/], as the link to a repository or to an issue does not, the task
    is rejected as invalid whatever else the description holds: the final
    server logs "Invalid PR URL." and asks nothing of GitHub. *)
Theorem first_link_without_pull_is_invalid (sv : Services) (taskId : string)
    (context : option string) (w : World) (t : Task) (url : string) :
  (forall h, asana_task sv h taskId = Returned (Some t)) ->
  extractPrUrlFromTask t = Some url ->
  includes url "/pull/" = false ->
  resolve t = MalformedTarget
  /\ Final.processAsanaTask sv taskId context w
     = (Returned tt,
        mkWorld (trace w ++ [ConsoleLog ("Processing Asana Task #" +:+ taskId +:+ "..." +:+ nl);
                             AsanaGetTask taskId;
                             ConsoleLog "Invalid PR URL."])
                (processedEvents w)).
Proof.
  intros Ht Hex Hinc.
  assert (Hr : resolve t = MalformedTarget).
  { unfold resolve. rewrite Hex.
    destruct (extract_first t url Hex) as (_ & run & _ & _ & Hurl & _).
    assert (Tu : truthy url = true) by (rewrite Hurl; reflexivity).
    rewrite Tu. cbv beta iota delta [negb]. unfold parseGithubUrl.
    now rewrite (no_pull_without_segment url Hinc). }
  split; [exact Hr |].
  rewrite (final_task_follows_resolution sv taskId context w t Ht), Hr.
  unfold console_log, emit, record; simpl. now rewrite <- !app_assoc.
Qed.

(** X19 at a description that links the repository before the pull
    request. *)
Lemma first_link_without_pull_witness :
  let t := mkTask "repo https://github.com/acme/widgets PR https://github.com/acme/widgets/pull/42"
                  [] "W1" in
  let sv := mkServices (asana_story unreachable) (fun _ _ => Returned (Some t))
              (asana_tags unreachable) (asana_create_tag unreachable)
              (asana_add_tag unreachable) (github_authenticated unreachable)
              (github_pull unreachable) (github_comments unreachable)
              (github_diff unreachable) (openai_chat unreachable)
              (github_create_comment unreachable) in
  resolve t = MalformedTarget
  /\ Final.processAsanaTask sv "T1" None empty_world
     = (Returned tt,
        mkWorld (trace empty_world
                 ++ [ConsoleLog ("Processing Asana Task #" +:+ "T1" +:+ "..." +:+ nl);
                     AsanaGetTask "T1";
                     ConsoleLog "Invalid PR URL."])
                (processedEvents empty_world)).
Proof.
  intros t sv.
  apply (first_link_without_pull_is_invalid sv "T1" None empty_world t
           "https://github.com/acme/widgets").
  - intros h; reflexivity.
  - reflexivity.
  - reflexivity.
Defined.

End MalformedFacts.
